(** * excel4node: worksheet XML assembly, data validations and the workbook
      interning tables

    A shallow embedding of [lib/worksheet/builder] (the ordered pipeline
    behind [sheetXML]), [lib/worksheet/classes/dataValidation] and the
    [Workbook] class, followed by the properties established about them. *)

From Stdlib Require Import ZArith Ascii String List Lia.
From Equations Require Import Equations.
From stdpp Require Import base option strings list gmap sorting pretty.

Open Scope Z_scope.

(** ** JavaScript values *)

Module JS.

(** The primitive values that travel through the option bags.  Numbers are
    the integers: the code compares them with [0] and [1], counts rows with
    them and prints them. *)
Inductive jsval : Type :=
| JUndefined
| JNull
| JBool (b : bool)
| JNum (n : Z)
| JStr (s : string).

#[global] Instance jsval_eq_dec : EqDecision jsval.
Proof. solve_decision. Defined.

#[global] Instance jsval_inhabited : Inhabited jsval := populate JUndefined.

Inductive jstype : Type :=
| TUndefined | TObject | TBoolean | TNumber | TString.

#[global] Instance jstype_eq_dec : EqDecision jstype.
Proof. solve_decision. Defined.

(** [typeof v] *)
Definition typeof (v : jsval) : jstype :=
  match v with
  | JUndefined => TUndefined
  | JNull => TObject
  | JBool _ => TBoolean
  | JNum _ => TNumber
  | JStr _ => TString
  end.

(** [v === w]; on these primitives strict equality is structural. *)
Definition strict_eq (v w : jsval) : bool := bool_decide (v = w).

Definition is_undefined (v : jsval) : bool := strict_eq v JUndefined.
Definition is_null (v : jsval) : bool := strict_eq v JNull.
Definition is_number (v : jsval) : bool :=
  bool_decide (typeof v = TNumber).

(** Truthiness, as tested by [if (v)] and [!v]. *)
Definition truthy (v : jsval) : bool :=
  match v with
  | JUndefined | JNull => false
  | JBool b => b
  | JNum n => negb (n =? 0)
  | JStr s => negb (String.eqb s EmptyString)
  end.

Inductive Error : Type :=
| TypeError (message : string).

(** A computation either returns or throws. *)
Inductive result (A : Type) : Type :=
| Ok (a : A)
| Throw (e : Error).
Arguments Ok {A} a.
Arguments Throw {A} e.

Definition bind {A B} (m : result A) (k : A -> result B) : result B :=
  match m with
  | Ok a => k a
  | Throw e => Throw e
  end.

Definition throws {A} (m : result A) : Prop :=
  match m with Ok _ => False | Throw _ => True end.

Definition returns {A} (m : result A) : bool :=
  match m with Ok _ => true | Throw _ => false end.

(** What the language provides and this development leaves open: the
    numeric value of a string ([None] is [NaN], or any value that is not
    an integer). *)
Class Builtins : Type := {
  StringToNumber : string -> option Z
}.

(** [Number(v)]; [None] is [NaN]. *)
Definition Number `{Builtins} (v : jsval) : option Z :=
  match v with
  | JUndefined => None
  | JNull => Some 0
  | JBool true => Some 1
  | JBool false => Some 0
  | JNum n => Some n
  | JStr s => StringToNumber s
  end.

(** [Number(v) === n] *)
Definition Number_is `{Builtins} (v : jsval) (n : Z) : bool :=
  bool_decide (Number v = Some n).

(** String conversion, as done by [+] with a string operand and by template
    literals. *)
Definition ToString (v : jsval) : string :=
  match v with
  | JUndefined => "undefined"
  | JNull => "null"
  | JBool true => "true"
  | JBool false => "false"
  | JNum n => pretty n
  | JStr s => s
  end.

(** [l.join(sep)] *)
Fixpoint join (sep : string) (l : list jsval) : string :=
  match l with
  | [] => EmptyString
  | [v] => ToString v
  | v :: l' => ToString v +:+ sep +:+ join sep l'
  end.

Fixpoint indexOf_from (i : Z) (l : list jsval) (v : jsval) : Z :=
  match l with
  | [] => -1
  | w :: l' => if strict_eq w v then i else indexOf_from (i + 1) l' v
  end.

(** [l.indexOf(v)]: the first position strictly equal to [v], or [-1]. *)
Definition indexOf (l : list jsval) (v : jsval) : Z := indexOf_from 0 l v.

(** [s.substr(from, len)] for in-range arguments. *)
Definition substr (s : string) (from len : nat) : string :=
  substring from len s.

(** A plain object whose own keys are enumerated: keys in insertion
    order. *)
Definition object : Type := list (string * jsval).

(** [o[k]] *)
Fixpoint get (k : string) (o : object) : jsval :=
  match o with
  | [] => JUndefined
  | (k', v) :: o' => if String.eqb k' k then v else get k o'
  end.

(** [o[k] = v]: an existing key keeps its place, a new one goes last. *)
Fixpoint set (k : string) (v : jsval) (o : object) : object :=
  match o with
  | [] => [(k, v)]
  | (k', v') :: o' =>
      if String.eqb k' k then (k, v) :: o' else (k', v') :: set k v o'
  end.

(** [Object.keys(o)] *)
Definition keys (o : object) : list string := map fst o.

End JS.

Export JS.

Notation "'let*' x ':=' m 'in' k" := (JS.bind m (fun x => k))
  (at level 10, x name, m at level 100, k at level 200).

(** ** The XML document under construction *)

Module Xml.

(** [xmlbuilder.begin(callback)] hands out one document object; every
    [ele], [att], [text] and [up] acts on its current node and returns the
    same document.  The document is the sequence of calls it received. *)
Inductive call : Type :=
| Ele (name : string)
| Att (name : string) (value : jsval)
| Text (value : jsval)
| Up
| EndDoc.

#[global] Instance call_eq_dec : EqDecision call.
Proof. solve_decision. Defined.

Definition builder : Type := list call.

Definition ele (name : string) (x : builder) : builder := x ++ [Ele name].
Definition att (name : string) (value : jsval) (x : builder) : builder :=
  x ++ [Att name value].
Definition text (value : jsval) (x : builder) : builder :=
  x ++ [Text value].
Definition up (x : builder) : builder := x ++ [Up].
(** [x.end()] *)
Definition finish (x : builder) : builder := x ++ [EndDoc].

(** [v !== undefined ? x.att(name, v) : null] and its [null] twin. *)
Definition att_if (present : bool) (name : string) (value : jsval)
    (x : builder) : builder :=
  if present then att name value x else x.

End Xml.

(** ** [lib/utils]: helpers imported by the modules below *)

Class Utils : Type := {
  (** column number to column letters *)
  getExcelAlpha : jsval -> string;
  (** [true]/[false]/[1]/[0] to [1]/[0]; may throw *)
  boolToInt : jsval -> result jsval;
  getHashOfPassword : jsval -> jsval;
  (** comparator handed to [Array.prototype.sort] *)
  sortCellRefs : string -> string -> Z
}.

Notation "x |> f" := (f x) (at level 68, left associativity, only parsing).

(** ** [lib/worksheet/classes/dataValidation] *)

(** [interface DataValidationConstructorOpts]: an absent field is
    [undefined]; [formulas] is [Some l] when it is an [Array]. *)
Module DataValidationConstructorOpts.

Record t : Type := mk {
  sqref : jsval;
  formulas : option (list jsval);
  allowBlank : jsval;
  error : jsval;
  errorStyle : jsval;
  errorTitle : jsval;
  imeMode : jsval;
  operator : jsval;
  prompt : jsval;
  promptTitle : jsval;
  showDropDown : jsval;
  showErrorMessage : jsval;
  showInputMessage : jsval;
  type : jsval
}.

(** [{}] *)
Definition empty : t :=
  mk JUndefined None JUndefined JUndefined JUndefined JUndefined JUndefined
     JUndefined JUndefined JUndefined JUndefined JUndefined JUndefined
     JUndefined.

(** Assignments to the four fields the constructor writes back. *)
Definition set_allowBlank (v : jsval) (o : t) : t :=
  {| sqref := sqref o; formulas := formulas o; allowBlank := v;
     error := error o; errorStyle := errorStyle o;
     errorTitle := errorTitle o; imeMode := imeMode o;
     operator := operator o; prompt := prompt o;
     promptTitle := promptTitle o; showDropDown := showDropDown o;
     showErrorMessage := showErrorMessage o;
     showInputMessage := showInputMessage o; type := type o |}.
Definition set_showDropDown (v : jsval) (o : t) : t :=
  {| sqref := sqref o; formulas := formulas o; allowBlank := allowBlank o;
     error := error o; errorStyle := errorStyle o;
     errorTitle := errorTitle o; imeMode := imeMode o;
     operator := operator o; prompt := prompt o;
     promptTitle := promptTitle o; showDropDown := v;
     showErrorMessage := showErrorMessage o;
     showInputMessage := showInputMessage o; type := type o |}.
Definition set_showErrorMessage (v : jsval) (o : t) : t :=
  {| sqref := sqref o; formulas := formulas o; allowBlank := allowBlank o;
     error := error o; errorStyle := errorStyle o;
     errorTitle := errorTitle o; imeMode := imeMode o;
     operator := operator o; prompt := prompt o;
     promptTitle := promptTitle o; showDropDown := showDropDown o;
     showErrorMessage := v; showInputMessage := showInputMessage o;
     type := type o |}.
Definition set_showInputMessage (v : jsval) (o : t) : t :=
  {| sqref := sqref o; formulas := formulas o; allowBlank := allowBlank o;
     error := error o; errorStyle := errorStyle o;
     errorTitle := errorTitle o; imeMode := imeMode o;
     operator := operator o; prompt := prompt o;
     promptTitle := promptTitle o; showDropDown := showDropDown o;
     showErrorMessage := showErrorMessage o; showInputMessage := v;
     type := type o |}.

(** Fields a caller sets when it writes the options down. *)
Definition set_sqref (v : jsval) (o : t) : t :=
  mk v (formulas o) (allowBlank o) (error o) (errorStyle o) (errorTitle o)
     (imeMode o) (operator o) (prompt o) (promptTitle o) (showDropDown o)
     (showErrorMessage o) (showInputMessage o) (type o).
Definition set_error (v : jsval) (o : t) : t :=
  mk (sqref o) (formulas o) (allowBlank o) v (errorStyle o) (errorTitle o)
     (imeMode o) (operator o) (prompt o) (promptTitle o) (showDropDown o)
     (showErrorMessage o) (showInputMessage o) (type o).
Definition set_prompt (v : jsval) (o : t) : t :=
  mk (sqref o) (formulas o) (allowBlank o) (error o) (errorStyle o)
     (errorTitle o) (imeMode o) (operator o) v (promptTitle o)
     (showDropDown o) (showErrorMessage o) (showInputMessage o) (type o).
Definition set_type (v : jsval) (o : t) : t :=
  mk (sqref o) (formulas o) (allowBlank o) (error o) (errorStyle o)
     (errorTitle o) (imeMode o) (operator o) (prompt o) (promptTitle o)
     (showDropDown o) (showErrorMessage o) (showInputMessage o) v.
Definition set_formulas (l : option (list jsval)) (o : t) : t :=
  mk (sqref o) l (allowBlank o) (error o) (errorStyle o) (errorTitle o)
     (imeMode o) (operator o) (prompt o) (promptTitle o) (showDropDown o)
     (showErrorMessage o) (showInputMessage o) (type o).

End DataValidationConstructorOpts.

Module DataValidation.

Module Opts := DataValidationConstructorOpts.

Definition dquote : string := String "034"%char EmptyString.

(** [f.substr(0, 1)]: only a string has the method. *)
Definition first_char (f : jsval) : result jsval :=
  match f with
  | JStr s => Ok (JStr (substr s 0 1))
  | JUndefined | JNull =>
      Throw (TypeError "Cannot read property 'substr' of undefined")
  | _ => Throw (TypeError "f.substr is not a function")
  end.

Definition cleanFormula (f : jsval) : result jsval :=
  if is_number f then Ok f
  else
    let* c := first_char f in
    if strict_eq c (JStr "=") then Ok f
    else Ok (JStr (dquote +:+ ToString f +:+ dquote)).

(** [class DataValidation]: the public fields; unassigned is
    [undefined]. *)
Record t : Type := mk {
  sqref : jsval;
  formula1 : jsval;
  formula2 : jsval;
  allowBlank : jsval;
  errorStyle : jsval;
  error : jsval;
  showErrorMessage : jsval;
  errorTitle : jsval;
  imeMode : jsval;
  operator : jsval;
  prompt : jsval;
  showInputMessage : jsval;
  promptTitle : jsval;
  showDropDown : jsval;
  type : jsval
}.

Definition fresh : t :=
  mk JUndefined JUndefined JUndefined JUndefined JUndefined JUndefined
     JUndefined JUndefined JUndefined JUndefined JUndefined JUndefined
     JUndefined JUndefined JUndefined.

Definition set_sqref (v : jsval) (d : t) : t :=
  {| sqref := v; formula1 := formula1 d; formula2 := formula2 d;
     allowBlank := allowBlank d; errorStyle := errorStyle d;
     error := error d; showErrorMessage := showErrorMessage d;
     errorTitle := errorTitle d; imeMode := imeMode d;
     operator := operator d; prompt := prompt d;
     showInputMessage := showInputMessage d; promptTitle := promptTitle d;
     showDropDown := showDropDown d; type := type d |}.
Definition set_formula1 (v : jsval) (d : t) : t :=
  {| sqref := sqref d; formula1 := v; formula2 := formula2 d;
     allowBlank := allowBlank d; errorStyle := errorStyle d;
     error := error d; showErrorMessage := showErrorMessage d;
     errorTitle := errorTitle d; imeMode := imeMode d;
     operator := operator d; prompt := prompt d;
     showInputMessage := showInputMessage d; promptTitle := promptTitle d;
     showDropDown := showDropDown d; type := type d |}.
Definition set_formula2 (v : jsval) (d : t) : t :=
  {| sqref := sqref d; formula1 := formula1 d; formula2 := v;
     allowBlank := allowBlank d; errorStyle := errorStyle d;
     error := error d; showErrorMessage := showErrorMessage d;
     errorTitle := errorTitle d; imeMode := imeMode d;
     operator := operator d; prompt := prompt d;
     showInputMessage := showInputMessage d; promptTitle := promptTitle d;
     showDropDown := showDropDown d; type := type d |}.
Definition set_allowBlank (v : jsval) (d : t) : t :=
  {| sqref := sqref d; formula1 := formula1 d; formula2 := formula2 d;
     allowBlank := v; errorStyle := errorStyle d; error := error d;
     showErrorMessage := showErrorMessage d; errorTitle := errorTitle d;
     imeMode := imeMode d; operator := operator d; prompt := prompt d;
     showInputMessage := showInputMessage d; promptTitle := promptTitle d;
     showDropDown := showDropDown d; type := type d |}.
Definition set_errorStyle (v : jsval) (d : t) : t :=
  {| sqref := sqref d; formula1 := formula1 d; formula2 := formula2 d;
     allowBlank := allowBlank d; errorStyle := v; error := error d;
     showErrorMessage := showErrorMessage d; errorTitle := errorTitle d;
     imeMode := imeMode d; operator := operator d; prompt := prompt d;
     showInputMessage := showInputMessage d; promptTitle := promptTitle d;
     showDropDown := showDropDown d; type := type d |}.
Definition set_error (v : jsval) (d : t) : t :=
  {| sqref := sqref d; formula1 := formula1 d; formula2 := formula2 d;
     allowBlank := allowBlank d; errorStyle := errorStyle d; error := v;
     showErrorMessage := showErrorMessage d; errorTitle := errorTitle d;
     imeMode := imeMode d; operator := operator d; prompt := prompt d;
     showInputMessage := showInputMessage d; promptTitle := promptTitle d;
     showDropDown := showDropDown d; type := type d |}.
Definition set_showErrorMessage (v : jsval) (d : t) : t :=
  {| sqref := sqref d; formula1 := formula1 d; formula2 := formula2 d;
     allowBlank := allowBlank d; errorStyle := errorStyle d;
     error := error d; showErrorMessage := v; errorTitle := errorTitle d;
     imeMode := imeMode d; operator := operator d; prompt := prompt d;
     showInputMessage := showInputMessage d; promptTitle := promptTitle d;
     showDropDown := showDropDown d; type := type d |}.
Definition set_errorTitle (v : jsval) (d : t) : t :=
  {| sqref := sqref d; formula1 := formula1 d; formula2 := formula2 d;
     allowBlank := allowBlank d; errorStyle := errorStyle d;
     error := error d; showErrorMessage := showErrorMessage d;
     errorTitle := v; imeMode := imeMode d; operator := operator d;
     prompt := prompt d; showInputMessage := showInputMessage d;
     promptTitle := promptTitle d; showDropDown := showDropDown d;
     type := type d |}.
Definition set_imeMode (v : jsval) (d : t) : t :=
  {| sqref := sqref d; formula1 := formula1 d; formula2 := formula2 d;
     allowBlank := allowBlank d; errorStyle := errorStyle d;
     error := error d; showErrorMessage := showErrorMessage d;
     errorTitle := errorTitle d; imeMode := v; operator := operator d;
     prompt := prompt d; showInputMessage := showInputMessage d;
     promptTitle := promptTitle d; showDropDown := showDropDown d;
     type := type d |}.
Definition set_operator (v : jsval) (d : t) : t :=
  {| sqref := sqref d; formula1 := formula1 d; formula2 := formula2 d;
     allowBlank := allowBlank d; errorStyle := errorStyle d;
     error := error d; showErrorMessage := showErrorMessage d;
     errorTitle := errorTitle d; imeMode := imeMode d; operator := v;
     prompt := prompt d; showInputMessage := showInputMessage d;
     promptTitle := promptTitle d; showDropDown := showDropDown d;
     type := type d |}.
Definition set_prompt (v : jsval) (d : t) : t :=
  {| sqref := sqref d; formula1 := formula1 d; formula2 := formula2 d;
     allowBlank := allowBlank d; errorStyle := errorStyle d;
     error := error d; showErrorMessage := showErrorMessage d;
     errorTitle := errorTitle d; imeMode := imeMode d;
     operator := operator d; prompt := v;
     showInputMessage := showInputMessage d; promptTitle := promptTitle d;
     showDropDown := showDropDown d; type := type d |}.
Definition set_showInputMessage (v : jsval) (d : t) : t :=
  {| sqref := sqref d; formula1 := formula1 d; formula2 := formula2 d;
     allowBlank := allowBlank d; errorStyle := errorStyle d;
     error := error d; showErrorMessage := showErrorMessage d;
     errorTitle := errorTitle d; imeMode := imeMode d;
     operator := operator d; prompt := prompt d; showInputMessage := v;
     promptTitle := promptTitle d; showDropDown := showDropDown d;
     type := type d |}.
Definition set_promptTitle (v : jsval) (d : t) : t :=
  {| sqref := sqref d; formula1 := formula1 d; formula2 := formula2 d;
     allowBlank := allowBlank d; errorStyle := errorStyle d;
     error := error d; showErrorMessage := showErrorMessage d;
     errorTitle := errorTitle d; imeMode := imeMode d;
     operator := operator d; prompt := prompt d;
     showInputMessage := showInputMessage d; promptTitle := v;
     showDropDown := showDropDown d; type := type d |}.
Definition set_showDropDown (v : jsval) (d : t) : t :=
  {| sqref := sqref d; formula1 := formula1 d; formula2 := formula2 d;
     allowBlank := allowBlank d; errorStyle := errorStyle d;
     error := error d; showErrorMessage := showErrorMessage d;
     errorTitle := errorTitle d; imeMode := imeMode d;
     operator := operator d; prompt := prompt d;
     showInputMessage := showInputMessage d; promptTitle := promptTitle d;
     showDropDown := v; type := type d |}.
Definition set_type (v : jsval) (d : t) : t :=
  {| sqref := sqref d; formula1 := formula1 d; formula2 := formula2 d;
     allowBlank := allowBlank d; errorStyle := errorStyle d;
     error := error d; showErrorMessage := showErrorMessage d;
     errorTitle := errorTitle d; imeMode := imeMode d;
     operator := operator d; prompt := prompt d;
     showInputMessage := showInputMessage d; promptTitle := promptTitle d;
     showDropDown := showDropDown d; type := v |}.

(** *** The constructor

    It runs over two objects, the caller's [opts] and the instance [this],
    writes to both, and may throw at any step; what was written before a
    throw stays written. *)
Record frame : Type := { opts : Opts.t; this : t }.

Definition M (A : Type) : Type := frame -> frame * result A.

Definition ret {A} (a : A) : M A := fun s => (s, Ok a).

Definition seq {A B} (m : M A) (k : A -> M B) : M B :=
  fun s =>
    match m s with
    | (s', Ok a) => k a s'
    | (s', Throw e) => (s', Throw e)
    end.

Definition throw (e : Error) : M unit := fun s => (s, Throw e).

Definition read (field : Opts.t -> jsval) : M jsval :=
  fun s => (s, Ok (field (opts s))).

Definition assign_opts (set_field : jsval -> Opts.t -> Opts.t) (v : jsval)
    : M unit :=
  fun s => ({| opts := set_field v (opts s); this := this s |}, Ok tt).

Definition assign_this (set_field : jsval -> t -> t) (v : jsval) : M unit :=
  fun s => ({| opts := opts s; this := set_field v (this s) |}, Ok tt).

Definition when (c : bool) (m : M unit) : M unit :=
  if c then m else ret tt.

Notation "'let!' x ':=' m 'in' k" := (seq m (fun x => k))
  (at level 10, x name, m at level 100, k at level 200).
Notation "m1 ;; m2" := (seq m1 (fun _ => m2))
  (at level 100, m2 at level 200, right associativity).

(** The block repeated for [allowBlank], [showDropDown],
    [showErrorMessage] and [showInputMessage]. *)
Definition booleanField `{Builtins} (name : string)
    (field : Opts.t -> jsval) (set_opts : jsval -> Opts.t -> Opts.t)
    (set_this : jsval -> t -> t) : M unit :=
  let! v := read field in
  when (negb (is_undefined v)) (
    (let! v := read field in
     when (Number_is v 1) (assign_opts set_opts (JBool true))) ;;
    (let! v := read field in
     when (Number_is v 0) (assign_opts set_opts (JBool false))) ;;
    let! v := read field in
    if negb (bool_decide (typeof v = TBoolean)) then
      throw (TypeError
        ("DataValidation " +:+ name +:+ " must be true, false, 1 or 0"))
    else assign_this set_this v).

(** The block repeated for [errorStyle], [imeMode], [operator] and
    [type]. *)
Definition enumField (name : string) (field : Opts.t -> jsval)
    (enums : list jsval) (set_this : jsval -> t -> t) : M unit :=
  let! v := read field in
  when (negb (is_undefined v)) (
    if indexOf enums v <? 0 then
      throw (TypeError
        ("DataValidation " +:+ name +:+ " must be one of "
           +:+ join ", " enums))
    else assign_this set_this v).

(** The block repeated for [error], [errorTitle] (with [showErrorMessage])
    and [prompt], [promptTitle] (with [showInputMessage]):
    [this.show = opts.show = true]. *)
Definition textField (name : string) (field : Opts.t -> jsval)
    (set_this : jsval -> t -> t)
    (set_opts_show : jsval -> Opts.t -> Opts.t)
    (set_this_show : jsval -> t -> t) : M unit :=
  let! v := read field in
  when (negb (is_undefined v)) (
    if negb (bool_decide (typeof v = TString)) then
      throw (TypeError ("DataValidation " +:+ name +:+ " must be a string"))
    else
      assign_this set_this v ;;
      assign_opts set_opts_show (JBool true) ;;
      assign_this set_this_show (JBool true)).

Definition errorStyle_enums : list jsval :=
  [JStr "stop"; JStr "warning"; JStr "information"].

Definition imeMode_enums : list jsval :=
  [JStr "noControl"; JStr "off"; JStr "on"; JStr "disabled";
   JStr "hiragana"; JStr "fullKatakana"; JStr "halfKatakana";
   JStr "fullAlpha"; JStr "halfAlpha"; JStr "fullHangul";
   JStr "halfHangul"].

Definition operator_enums : list jsval :=
  [JStr "between"; JStr "notBetween"; JStr "equal"; JStr "notEqual";
   JStr "lessThan"; JStr "lessThanOrEqual"; JStr "greaterThan";
   JStr "greaterThanOrEqual"].

Definition type_enums : list jsval :=
  [JStr "none"; JStr "whole"; JStr "decimal"; JStr "list"; JStr "date";
   JStr "time"; JStr "textLength"; JStr "custom"].

(** [opts.formulas[i] !== undefined ? (this.formulaN = opts.formulas[i])
    : null] *)
Definition formulaField (i : nat) (set_this : jsval -> t -> t) : M unit :=
  fun s =>
    match Opts.formulas (opts s) with
    | Some l =>
        let f := nth i l JUndefined in
        when (negb (is_undefined f)) (assign_this set_this f) s
    | None => ret tt s
    end.

Definition constructor_body `{Builtins} : M unit :=
  (let! sq := read Opts.sqref in
   if is_undefined sq then
     throw (TypeError
       "sqref must be specified when creating a DataValidation instance.")
   else assign_this set_sqref sq) ;;
  formulaField 0 set_formula1 ;;
  formulaField 1 set_formula2 ;;
  booleanField "allowBlank" Opts.allowBlank Opts.set_allowBlank
    set_allowBlank ;;
  enumField "errorStyle" Opts.errorStyle errorStyle_enums set_errorStyle ;;
  textField "error" Opts.error set_error
    Opts.set_showErrorMessage set_showErrorMessage ;;
  textField "errorTitle" Opts.errorTitle set_errorTitle
    Opts.set_showErrorMessage set_showErrorMessage ;;
  enumField "imeMode" Opts.imeMode imeMode_enums set_imeMode ;;
  enumField "operator" Opts.operator operator_enums set_operator ;;
  textField "prompt" Opts.prompt set_prompt
    Opts.set_showInputMessage set_showInputMessage ;;
  textField "promptTitle" Opts.promptTitle set_promptTitle
    Opts.set_showInputMessage set_showInputMessage ;;
  booleanField "showDropDown" Opts.showDropDown Opts.set_showDropDown
    set_showDropDown ;;
  booleanField "showErrorMessage" Opts.showErrorMessage
    Opts.set_showErrorMessage set_showErrorMessage ;;
  booleanField "showInputMessage" Opts.showInputMessage
    Opts.set_showInputMessage set_showInputMessage ;;
  enumField "type" Opts.type type_enums set_type.

(** [new DataValidation(opts)]: the caller's object as the constructor
    leaves it, and the instance or the error thrown. *)
Definition constructor `{Builtins} (o : Opts.t) : Opts.t * result t :=
  let '(s, r) := constructor_body {| opts := o; this := fresh |} in
  (opts s, let* _ := r in Ok (this s)).

(** *** Serialization *)

Definition att_boolToInt `{Utils} (name : string) (v : jsval)
    (x : Xml.builder) : result Xml.builder :=
  if is_undefined v then Ok x
  else let* i := boolToInt v in Ok (Xml.att name i x).

Definition att_defined (name : string) (v : jsval) (x : Xml.builder)
    : Xml.builder :=
  Xml.att_if (negb (is_undefined v)) name v x.

Definition addToXMLele `{Utils} (d : t) (ele : Xml.builder)
    : result Xml.builder :=
  let valEle := Xml.ele "dataValidation" ele in
  let valEle := att_defined "type" (type d) valEle in
  let valEle := att_defined "errorStyle" (errorStyle d) valEle in
  let valEle := att_defined "imeMode" (imeMode d) valEle in
  let valEle := att_defined "operator" (operator d) valEle in
  let* valEle := att_boolToInt "allowBlank" (allowBlank d) valEle in
  let valEle :=
    Xml.att_if (strict_eq (showDropDown d) (JBool false))
      "showDropDown" (JNum 1) valEle in
  let* valEle :=
    att_boolToInt "showInputMessage" (showInputMessage d) valEle in
  let* valEle :=
    att_boolToInt "showErrorMessage" (showErrorMessage d) valEle in
  let valEle := att_defined "errorTitle" (errorTitle d) valEle in
  let valEle := att_defined "error" (error d) valEle in
  let valEle := att_defined "promptTitle" (promptTitle d) valEle in
  let valEle := att_defined "prompt" (prompt d) valEle in
  let valEle := att_defined "sqref" (sqref d) valEle in
  let* valEle :=
    if negb (is_undefined (formula1 d)) then
      let* f1 := cleanFormula (formula1 d) in
      let valEle := Xml.text f1 (Xml.ele "formula1" valEle) in
      if negb (is_undefined (formula2 d)) then
        let valEle := Xml.up valEle in
        let* f2 := cleanFormula (formula2 d) in
        Ok (Xml.text f2 (Xml.ele "formula2" valEle))
      else Ok valEle
    else Ok valEle in
  Ok (Xml.up valEle).

End DataValidation.

(** [class DataValidationCollection] *)
Module DataValidationCollection.

Definition t : Type := list DataValidation.t.

Definition length (items : t) : Z := Z.of_nat (List.length items).

(** [add(opts)]: the collection, the caller's [opts] and the new rule. *)
Definition add `{Builtins} (o : DataValidationConstructorOpts.t) (items : t)
    : DataValidationConstructorOpts.t * result (t * DataValidation.t) :=
  let '(o', r) := DataValidation.constructor o in
  (o', let* thisValidation := r in
       Ok (items ++ [thisValidation], thisValidation)).

Fixpoint forEach_addToXMLele `{Utils} (items : t) (valsEle : Xml.builder)
    : result Xml.builder :=
  match items with
  | [] => Ok valsEle
  | val :: rest =>
      let* valsEle := DataValidation.addToXMLele val valsEle in
      forEach_addToXMLele rest (Xml.up valsEle)
  end.

Definition addToXMLele `{Utils} (items : t) (ele : Xml.builder)
    : result Xml.builder :=
  let valsEle :=
    Xml.att "count" (JNum (length items)) (Xml.ele "dataValidations" ele) in
  forEach_addToXMLele items valsEle.

End DataValidationCollection.

(** ** [lib/classes/definedNameCollection] *)

Module DefinedNameCollection.

(** The option bag handed to [addDefinedName]. *)
Record DefinedName : Type := {
  hidden : jsval;
  localSheetId : jsval;
  name : jsval;
  refFormula : jsval
}.

Definition t : Type := list DefinedName.

(** Modelled from the spec: [DefinedNameCollection.addDefinedName] is
    outside the source at hand; the entry is appended unconditionally,
    duplicates are kept and nothing is merged. *)
Definition addDefinedName (entry : DefinedName) (c : t) : t := c ++ [entry].

End DefinedNameCollection.

(** ** [lib/style/style] *)

(** Modelled from the spec: [Style], its [toObject] and the [JSON.stringify]
    of it are outside the source at hand.  The lookup key of a style is a
    deterministic canonical serialization of its fields: structurally equal
    values, whatever the order of their fields and of the fields of their
    nested objects, have the same key, and values that differ have different
    keys.  The key is taken to depend on the options alone, not on the
    workbook the style is built for. *)
Class StyleClass : Type := {
  StyleOpts : Type;
  structurally_equal : StyleOpts -> StyleOpts -> Prop;
  lookupKey : StyleOpts -> string;
  lookupKey_canonical :
    forall a b, structurally_equal a b <-> lookupKey a = lookupKey b
}.

Module Style.
Section Style.
Context `{StyleClass}.

(** A [Style] instance: what it was built from, and [ids.cellXfs]. *)
Record t : Type := mk {
  opts : StyleOpts;
  ids_cellXfs : jsval
}.

(** [new Style(wb, opts)] *)
Definition new (o : StyleOpts) : t :=
  {| opts := o; ids_cellXfs := JUndefined |}.

(** [JSON.stringify(thisStyle.toObject())] *)
Definition toKey (s : t) : string := lookupKey (opts s).

Definition set_ids_cellXfs (v : jsval) (s : t) : t :=
  {| opts := opts s; ids_cellXfs := v |}.
End Style.
End Style.

(** ** [lib/workbook/workbook] *)

Module Workbook.
Section Workbook.
Context `{StyleClass}.

(** The tables of [class Workbook] that the operations below touch.
    [stylesLookup[key]] and [styles[index]] hold the same object, so
    each holds the style as the last write to it left it. *)
Record t : Type := mk {
  sharedStrings : list jsval;
  styles : list Style.t;
  stylesLookup : gmap string Style.t;
  definedNameCollection : DefinedNameCollection.t
}.

Definition set_definedNameCollection (c : DefinedNameCollection.t)
    (wb : t) : t :=
  {| sharedStrings := sharedStrings wb; styles := styles wb;
     stylesLookup := stylesLookup wb; definedNameCollection := c |}.

(** [createStyle(opts)]: the workbook afterwards and the style
    returned. *)
Definition createStyle (o : StyleOpts) (wb : t) : t * Style.t :=
  let thisStyle := Style.new o in
  let lookupKey := Style.toKey thisStyle in
  match stylesLookup wb !! lookupKey with
  | Some existing => (wb, existing)
  | None =>
      let index := Z.of_nat (length (styles wb)) in
      let thisStyle := Style.set_ids_cellXfs (JNum index) thisStyle in
      ({| sharedStrings := sharedStrings wb;
          styles := styles wb ++ [thisStyle];
          stylesLookup := <[lookupKey := thisStyle]> (stylesLookup wb);
          definedNameCollection := definedNameCollection wb |},
       thisStyle)
  end.

(** [getStringIndex(val)] *)
Definition getStringIndex (val : jsval) (wb : t) : t * Z :=
  let wb :=
    if indexOf (sharedStrings wb) val <? 0 then
      {| sharedStrings := sharedStrings wb ++ [val];
         styles := styles wb;
         stylesLookup := stylesLookup wb;
         definedNameCollection := definedNameCollection wb |}
    else wb in
  (wb, indexOf (sharedStrings wb) val).

(** [new Workbook(opts)], with the options of the default style. *)
Definition constructor (defaultFont : StyleOpts) : t :=
  fst (createStyle defaultFont
         {| sharedStrings := []; styles := []; stylesLookup := ∅;
            definedNameCollection := [] |}).

(** The calls a client makes on the tables. *)
Inductive op : Type :=
| CreateStyle (o : StyleOpts)
| GetStringIndex (val : jsval)
| AddDefinedName (entry : DefinedNameCollection.DefinedName).

Definition step (wb : t) (c : op) : t :=
  match c with
  | CreateStyle o => fst (createStyle o wb)
  | GetStringIndex val => fst (getStringIndex val wb)
  | AddDefinedName entry =>
      set_definedNameCollection
        (DefinedNameCollection.addDefinedName entry
           (definedNameCollection wb)) wb
  end.

Definition run (wb : t) (calls : list op) : t := foldl step wb calls.

(** The workbooks a client can hold. *)
Definition reachable (wb : t) : Prop :=
  exists defaultFont calls, wb = run (constructor defaultFont) calls.

End Workbook.
End Workbook.

(** ** The worksheet model read by [lib/worksheet/builder] *)

Module Row.

(** [class Row], as far as the builder reads it. *)
Record t : Type := mk {
  r : jsval;
  spans : jsval;
  s : jsval;
  customFormat : jsval;
  ht : jsval;
  hidden : jsval;
  customHeight : jsval;
  outlineLevel : jsval;
  collapsed : jsval;
  thickTop : jsval;
  thickBot : jsval;
  cellRefs : list string
}.

Definition set_cellRefs (l : list string) (row : t) : t :=
  mk (r row) (spans row) (s row) (customFormat row) (ht row) (hidden row)
     (customHeight row) (outlineLevel row) (collapsed row) (thickTop row)
     (thickBot row) l.

End Row.

(** Classes of the worksheet that the builder only calls into.  Their
    [addToXMLele] writes to the document it is handed and may throw; it has
    no access to the worksheet. *)
Class Collaborators : Type := {
  (** [Row.firstColumn] and [Row.lastColumn] (getters) *)
  firstColumn : Row.t -> jsval;
  lastColumn : Row.t -> jsval;
  (** [Cell] and its [addToXMLele(rEle)] *)
  Cell : Type;
  Cell_addToXMLele : Cell -> Xml.builder -> result Xml.builder;
  (** [cfRulesCollection] and [hyperlinkCollection] *)
  CfRulesCollection : Type;
  CfRulesCollection_addToXMLele :
    CfRulesCollection -> Xml.builder -> result Xml.builder;
  HyperlinkCollection : Type;
  HyperlinkCollection_addToXMLele :
    HyperlinkCollection -> Xml.builder -> result Xml.builder;
  (** the table [types.paperSize] *)
  paperSize : jsval -> jsval
}.

Module Worksheet.

(** [ws.opts.autoFilter] *)
Record AutoFilter : Type := {
  startRow : jsval;
  endRow : jsval;
  startCol : jsval;
  endCol : jsval;
  ref : jsval
}.

(** [ws.opts]; [pane] is [sheetView.pane]. *)
Record Opts : Type := {
  printOptions : object;
  outline : object;
  autoFilter : AutoFilter;
  pageSetup : object;
  sheetView : object;
  pane : object;
  sheetFormat : object;
  sheetProtection : object;
  margins : object;
  headerFooter : object
}.

(** An entry of [ws.relationships]: a [Hyperlink] or a marker such as
    ['drawing']. *)
Inductive relationship : Type :=
| RelHyperlink (location : jsval)
| RelMarker (v : jsval).

Section Worksheet.
Context `{Collaborators}.

(** [class Worksheet], as far as the builder reads it.  The owning
    workbook [ws.wb] is shared by the worksheets and is kept beside the
    worksheet (see [promiseObj] below). *)
Record t : Type := {
  opts : Opts;
  name : jsval;
  sheetId : jsval;
  localSheetId : jsval;
  lastUsedRow : jsval;
  lastUsedCol : jsval;
  columnCount : Z;
  cols : list (string * object);
  rows : gmap Z Row.t;
  cells : gmap string Cell;
  mergedCells : option (list jsval);
  cfRulesCollection : CfRulesCollection;
  hyperlinkCollection : HyperlinkCollection;
  dataValidationCollection : DataValidationCollection.t;
  drawingCollection_isEmpty : bool;
  relationships : list relationship
}.

Definition set_rows (m : gmap Z Row.t) (ws : t) : t :=
  {| opts := opts ws; name := name ws; sheetId := sheetId ws;
     localSheetId := localSheetId ws; lastUsedRow := lastUsedRow ws;
     lastUsedCol := lastUsedCol ws; columnCount := columnCount ws;
     cols := cols ws; rows := m; cells := cells ws;
     mergedCells := mergedCells ws;
     cfRulesCollection := cfRulesCollection ws;
     hyperlinkCollection := hyperlinkCollection ws;
     dataValidationCollection := dataValidationCollection ws;
     drawingCollection_isEmpty := drawingCollection_isEmpty ws;
     relationships := relationships ws |}.

Definition set_opts (o : Opts) (ws : t) : t :=
  {| opts := o; name := name ws; sheetId := sheetId ws;
     localSheetId := localSheetId ws; lastUsedRow := lastUsedRow ws;
     lastUsedCol := lastUsedCol ws; columnCount := columnCount ws;
     cols := cols ws; rows := rows ws; cells := cells ws;
     mergedCells := mergedCells ws;
     cfRulesCollection := cfRulesCollection ws;
     hyperlinkCollection := hyperlinkCollection ws;
     dataValidationCollection := dataValidationCollection ws;
     drawingCollection_isEmpty := drawingCollection_isEmpty ws;
     relationships := relationships ws |}.

Definition set_sheetProtection (o : object) (ws : t) : t :=
  set_opts
    {| printOptions := printOptions (opts ws);
       outline := outline (opts ws);
       autoFilter := autoFilter (opts ws);
       pageSetup := pageSetup (opts ws);
       sheetView := sheetView (opts ws);
       pane := pane (opts ws);
       sheetFormat := sheetFormat (opts ws);
       sheetProtection := o;
       margins := margins (opts ws);
       headerFooter := headerFooter (opts ws) |} ws.

Definition set_autoFilter (a : AutoFilter) (ws : t) : t :=
  set_opts
    {| printOptions := printOptions (opts ws);
       outline := outline (opts ws);
       autoFilter := a;
       pageSetup := pageSetup (opts ws);
       sheetView := sheetView (opts ws);
       pane := pane (opts ws);
       sheetFormat := sheetFormat (opts ws);
       sheetProtection := sheetProtection (opts ws);
       margins := margins (opts ws);
       headerFooter := headerFooter (opts ws) |} ws.

(** [Object.keys(ws.rows)]: row numbers, ascending. *)
Definition rows_keys (ws : t) : list Z :=
  merge_sort Z.le (elements (dom (rows ws))).

End Worksheet.

Definition set_startCol (v : jsval) (a : AutoFilter) : AutoFilter :=
  {| startRow := startRow a; endRow := endRow a; startCol := v;
     endCol := endCol a; ref := ref a |}.
Definition set_endCol (v : jsval) (a : AutoFilter) : AutoFilter :=
  {| startRow := startRow a; endRow := endRow a; startCol := startCol a;
     endCol := v; ref := ref a |}.
Definition set_endRow (v : jsval) (a : AutoFilter) : AutoFilter :=
  {| startRow := startRow a; endRow := v; startCol := startCol a;
     endCol := endCol a; ref := ref a |}.

End Worksheet.

(** ** [lib/worksheet/builder] *)

Module Builder.
Section Builder.
Context `{Utils} `{Collaborators} `{StyleClass}.

Import Worksheet.

(** [promiseObj = { ws, xml }], with the workbook [ws.wb] that the
    worksheets share held beside the worksheet. *)
Record promiseObj : Type := {
  ws : Worksheet.t;
  wb : Workbook.t;
  xml : Xml.builder
}.

Definition with_xml (x : Xml.builder) (p : promiseObj) : promiseObj :=
  {| ws := ws p; wb := wb p; xml := x |}.

Definition non_null (v : jsval) : bool := negb (is_null v).

(** [Object.keys(o).forEach((k) => { if (o[k] !== null) flag = true })] *)
Definition any_non_null (o : object) : bool :=
  existsb (fun k => non_null (get k o)) (keys o).

(** [v !== null ? x.att(name, v) : null] *)
Definition att_non_null (name : string) (v : jsval) (x : Xml.builder)
    : Xml.builder :=
  Xml.att_if (non_null v) name v x.

(** [v !== null ? x.att(name, utils.boolToInt(v)) : null] *)
Definition att_non_null_boolToInt (name : string) (v : jsval)
    (x : Xml.builder) : result Xml.builder :=
  if non_null v then let* i := boolToInt v in Ok (Xml.att name i x)
  else Ok x.

(** [v !== null ? x.ele(name).text(v).up() : null] *)
Definition ele_text_non_null (name : string) (v : jsval)
    (x : Xml.builder) : Xml.builder :=
  if non_null v then x |> Xml.ele name |> Xml.text v |> Xml.up else x.

Definition one_if_true (v : jsval) : jsval :=
  if strict_eq v (JBool true) then JNum 1 else JNum 0.

Definition _addSheetPr (p : promiseObj) : result promiseObj :=
  let o := opts (ws p) in
  if non_null (get "fitToHeight" (printOptions o))
     || non_null (get "fitToWidth" (printOptions o))
     || non_null (get "summaryBelow" (outline o))
     || non_null (ref (autoFilter o))
     || truthy (get "summaryRight" (outline o))
  then
    let ele := Xml.ele "sheetPr" (xml p) in
    let ele :=
      if truthy (ref (autoFilter o)) then
        ele |> Xml.att "enableFormatConditionsCalculation" (JNum 1)
            |> Xml.att "filterMode" (JNum 1)
      else ele in
    let ele :=
      if non_null (get "summaryBelow" (outline o))
         || non_null (get "summaryRight" (outline o))
      then
        ele |> Xml.ele "outlinePr"
            |> Xml.att "applyStyles" (JNum 1)
            |> Xml.att "summaryBelow"
                 (one_if_true (get "summaryBelow" (outline o)))
            |> Xml.att "summaryRight"
                 (one_if_true (get "summaryRight" (outline o)))
            |> Xml.up
      else ele in
    let ele :=
      if non_null (get "fitToHeight" (pageSetup o))
         || non_null (get "fitToWidth" (pageSetup o))
      then
        ele |> Xml.ele "pageSetUpPr" |> Xml.att "fitToPage" (JNum 1)
            |> Xml.up
      else ele in
    Ok (with_xml (Xml.up ele) p)
  else Ok p.

Definition _addDimension (p : promiseObj) : result promiseObj :=
  let firstCell := "A1" in
  let lastCell :=
    getExcelAlpha (lastUsedCol (ws p)) +:+ ToString (lastUsedRow (ws p))
  in
  Ok (with_xml
        (xml p |> Xml.ele "dimension"
               |> Xml.att "ref" (JStr (firstCell +:+ ":" +:+ lastCell))
               |> Xml.up) p).

Definition _addSheetViews (p : promiseObj) : result promiseObj :=
  let o := sheetView (opts (ws p)) in
  let o_pane := pane (opts (ws p)) in
  let ele := Xml.ele "sheetViews" (xml p) in
  let sv :=
    ele |> Xml.ele "sheetView"
        |> Xml.att "showGridLines" (get "showGridLines" o)
        |> Xml.att "tabSelected" (get "tabSelected" o)
        |> Xml.att "workbookViewId" (get "workbookViewId" o)
        |> Xml.att "rightToLeft" (get "rightToLeft" o)
        |> Xml.att "zoomScale" (get "zoomScale" o)
        |> Xml.att "zoomScaleNormal" (get "zoomScaleNormal" o)
        |> Xml.att "zoomScalePageLayoutView"
             (get "zoomScalePageLayoutView" o) in
  let modifiedPaneParams :=
    filter (fun k => non_null (get k o_pane) = true) (keys o_pane) in
  let sv :=
    if 0 <? Z.of_nat (length modifiedPaneParams) then
      sv |> Xml.ele "pane"
         |> att_non_null "xSplit" (get "xSplit" o_pane)
         |> att_non_null "ySplit" (get "ySplit" o_pane)
         |> att_non_null "topLeftCell" (get "topLeftCell" o_pane)
         |> att_non_null "activePane" (get "activePane" o_pane)
         |> att_non_null "state" (get "state" o_pane)
         |> Xml.up
    else sv in
  Ok (with_xml (sv |> Xml.up |> Xml.up) p).

Definition _addSheetFormatPr (p : promiseObj) : result promiseObj :=
  let o := sheetFormat (opts (ws p)) in
  let ele := Xml.ele "sheetFormatPr" (xml p) in
  let ele := att_non_null "baseColWidth" (get "baseColWidth" o) ele in
  let ele :=
    att_non_null "defaultColWidth" (get "defaultColWidth" o) ele in
  let ele :=
    if non_null (get "defaultRowHeight" o) then
      Xml.att "defaultRowHeight" (get "defaultRowHeight" o) ele
    else Xml.att "defaultRowHeight" (JNum 16) ele in
  let* ele :=
    att_non_null_boolToInt "thickBottom" (get "thickBottom" o) ele in
  let* ele := att_non_null_boolToInt "thickTop" (get "thickTop" o) ele in
  let ele :=
    if is_number (get "defaultRowHeight" o) then
      Xml.att "customHeight" (JStr "1") ele
    else ele in
  Ok (with_xml (Xml.up ele) p).

Definition addCol (col : object) (colsEle : Xml.builder)
    : result Xml.builder :=
  let colEle := Xml.ele "col" colsEle in
  let colEle := att_non_null "min" (get "min" col) colEle in
  let colEle := att_non_null "max" (get "max" col) colEle in
  let colEle := att_non_null "width" (get "width" col) colEle in
  let colEle := att_non_null "style" (get "style" col) colEle in
  let* colEle :=
    att_non_null_boolToInt "hidden" (get "hidden" col) colEle in
  let* colEle :=
    att_non_null_boolToInt "customWidth" (get "customWidth" col) colEle in
  let colEle :=
    att_non_null "outlineLevel" (get "outlineLevel" col) colEle in
  let* colEle :=
    att_non_null_boolToInt "collapsed" (get "collapsed" col) colEle in
  Ok (Xml.up colEle).

(** [for (const colId in ws.cols)] *)
Fixpoint forIn_cols (cs : list (string * object)) (colsEle : Xml.builder)
    : result Xml.builder :=
  match cs with
  | [] => Ok colsEle
  | (_, col) :: rest =>
      let* colsEle := addCol col colsEle in forIn_cols rest colsEle
  end.

Definition _addCols (p : promiseObj) : result promiseObj :=
  if 0 <? columnCount (ws p) then
    let colsEle := Xml.ele "cols" (xml p) in
    let* colsEle := forIn_cols (cols (ws p)) colsEle in
    Ok (with_xml (Xml.up colsEle) p)
  else Ok p.

(** *** Sheet data *)

(** [Array.prototype.sort(compare)]: [x] is put before the first [y]
    with [compare(x, y) <= 0] (a stable insertion sort; for a comparator
    that is an order, every stable sort returns this list). *)
Fixpoint sort_insert (compare : string -> string -> Z) (x : string)
    (l : list string) : list string :=
  match l with
  | [] => [x]
  | y :: l' =>
      if compare x y <=? 0 then x :: y :: l'
      else y :: sort_insert compare x l'
  end.

Definition sort (compare : string -> string -> Z) (l : list string)
    : list string :=
  foldr (sort_insert compare) [] l.

(** [for (i ...) ws.cells[thisRow.cellRefs[i]].addToXMLele(rEle)] *)
Fixpoint addCells (cs : gmap string Cell) (refs : list string)
    (rEle : Xml.builder) : result Xml.builder :=
  match refs with
  | [] => Ok rEle
  | c :: rest =>
      match cs !! c with
      | Some cell =>
          let* rEle := Cell_addToXMLele cell rEle in
          addCells cs rest rEle
      | None =>
          Throw (TypeError
            "Cannot read property 'addToXMLele' of undefined")
      end
  end.

(** The worksheet and the [sheetData] element while rows are written. *)
Definition sheetDataState : Type := (Worksheet.t * Xml.builder)%type.

(** One turn of the [for] loop of [processRows]. *)
Definition processRow (key : Z) (st : sheetDataState)
    : result sheetDataState :=
  let '(w, ele) := st in
  match rows w !! key with
  | None =>
      Throw (TypeError "Cannot read property 'cellRefs' of undefined")
  | Some thisRow =>
      let thisRow :=
        Row.set_cellRefs (sort sortCellRefs (Row.cellRefs thisRow))
          thisRow in
      let w := set_rows (<[key := thisRow]> (rows w)) w in
      let rEle := Xml.ele "row" ele in
      let rEle := Xml.att "r" (Row.r thisRow) rEle in
      let rEle := Xml.att "spans" (Row.spans thisRow) rEle in
      let rEle := att_non_null "s" (Row.s thisRow) rEle in
      let rEle :=
        att_non_null "customFormat" (Row.customFormat thisRow) rEle in
      let rEle := att_non_null "ht" (Row.ht thisRow) rEle in
      let rEle := att_non_null "hidden" (Row.hidden thisRow) rEle in
      let rEle :=
        if strict_eq (Row.customHeight thisRow) (JBool true)
           || is_number (get "defaultRowHeight" (sheetFormat (opts w)))
        then Xml.att "customHeight" (JNum 1) rEle
        else rEle in
      let rEle :=
        att_non_null "outlineLevel" (Row.outlineLevel thisRow) rEle in
      let rEle :=
        att_non_null "collapsed" (Row.collapsed thisRow) rEle in
      let rEle := att_non_null "thickTop" (Row.thickTop thisRow) rEle in
      let rEle := att_non_null "thickBot" (Row.thickBot thisRow) rEle in
      let* rEle := addCells (cells w) (Row.cellRefs thisRow) rEle in
      Ok (w, Xml.up rEle)
  end.

(** The [for] loop of [processRows(theseRows)]. *)
Fixpoint processRows_for (theseRows : list Z) (st : sheetDataState)
    : result sheetDataState :=
  match theseRows with
  | [] => Ok st
  | key :: rest =>
      let* st := processRow key st in processRows_for rest st
  end.

(** A value together with the equation that names it. *)
Definition inspect {A : Type} (a : A) : {b : A | a = b} :=
  exist _ a eq_refl.

(** [processNextRows] and [processRows], which call each other until
    [rows.splice(0, chunk)] comes back empty; [pending] is what is left
    of the array [rows]. *)
Equations? processNextRows (chunk : nat) (pending : list Z)
    (st : sheetDataState) : result sheetDataState
    by wf (length pending) lt :=
  processNextRows chunk pending st with inspect (take chunk pending) := {
    | exist _ [] _ => Ok (st.1, Xml.up st.2)
    | exist _ (key :: rest) Hsplice =>
        let* st := processRows_for (key :: rest) st in
        processNextRows chunk (drop chunk pending) st }.
Proof.
  destruct chunk as [|n]; [discriminate|].
  destruct pending as [|k ks]; [discriminate|].
  rewrite length_drop. simpl. lia.
Defined.

Definition _addSheetData (p : promiseObj) : result promiseObj :=
  let ele := Xml.ele "sheetData" (xml p) in
  let pending := rows_keys (ws p) in
  let* st := processNextRows 500 pending (ws p, ele) in
  Ok {| ws := st.1; wb := wb p; xml := st.2 |}.

(** *** Sheet protection *)

(** [o[k] = o[k] !== null ? o[k] : true] *)
Definition default_true (k : string) (o : object) : object :=
  set k (if non_null (get k o) then get k o else JBool true) o.

(** [Object.keys(o).forEach((k) => { if (o[k] !== null) ... })] over
    the [sheetProtection] element. *)
Fixpoint forEach_protection (o : object) (ks : list string)
    (ele : Xml.builder) : result Xml.builder :=
  match ks with
  | [] => Ok ele
  | k :: rest =>
      let* ele :=
        if non_null (get k o) then
          if String.eqb k "password" then
            Ok (Xml.att "password" (getHashOfPassword (get k o)) ele)
          else
            let* i := boolToInt (get k o) in Ok (Xml.att k i ele)
        else Ok ele in
      forEach_protection o rest ele
  end.

Definition _addSheetProtection (p : promiseObj) : result promiseObj :=
  let o := sheetProtection (opts (ws p)) in
  let includeSheetProtection := any_non_null o in
  if includeSheetProtection then
    let o := default_true "sheet" o in
    let o := default_true "objects" o in
    let o := default_true "scenarios" o in
    let ele := Xml.ele "sheetProtection" (xml p) in
    let* ele := forEach_protection o (keys o) ele in
    Ok {| ws := set_sheetProtection o (ws p); wb := wb p;
          xml := Xml.up ele |}
  else Ok p.

(** *** Auto filter *)

(** One more than the largest populated row number (and at least 0):
    the scan below cannot pass it. *)
Definition rows_bound (m : gmap Z Row.t) : Z :=
  foldr (fun k acc => Z.max (k + 1) acc) 0 (elements (dom m)).

(** [while (firstEmptyRow === undefined) { if (!ws.rows[curRow])
    firstEmptyRow = curRow; else curRow += 1; }] *)
Equations? firstEmptyRow (m : gmap Z Row.t) (curRow : Z) : Z
    by wf (Z.to_nat (rows_bound m - curRow)) lt :=
  firstEmptyRow m curRow with inspect (m !! curRow) := {
    | exist _ None _ => curRow
    | exist _ (Some _) Hrow => firstEmptyRow m (curRow + 1) }.
Proof.
  assert (Hin : curRow ∈ elements (dom m))
    by (apply elem_of_elements, elem_of_dom; eauto).
  assert (Hlt : curRow + 1 <= rows_bound m).
  { unfold rows_bound. induction (elements (dom m)) as [|k ks IH];
      [inversion Hin|].
    simpl. apply elem_of_cons in Hin as [->|Hin]; [lia|].
    specialize (IH Hin). lia. }
  lia.
Defined.

Definition numberOrNull (v : jsval) : jsval :=
  if is_number v then v else JNull.

Definition _addAutoFilter (p : promiseObj) : result promiseObj :=
  let o := autoFilter (opts (ws p)) in
  match startRow o with
  | JNum start =>
      let ele := Xml.ele "autoFilter" (xml p) in
      let filterRow := rows (ws p) !! start in
      let o := set_startCol (numberOrNull (startCol o)) o in
      let o := set_endCol (numberOrNull (endCol o)) o in
      let o :=
        if negb (is_number (endRow o)) then
          set_endRow (JNum (firstEmptyRow (rows (ws p)) start - 1)) o
        else o in
      let* o :=
        if negb (is_number (startCol o)) || negb (is_number (endCol o))
        then
          match filterRow with
          | Some row =>
              Ok (o |> set_startCol (firstColumn row)
                    |> set_endCol (lastColumn row))
          | None =>
              Throw (TypeError
                "Cannot read property 'firstColumn' of undefined")
          end
        else Ok o in
      let startCell :=
        getExcelAlpha (startCol o) +:+ ToString (startRow o) in
      let endCell := getExcelAlpha (endCol o) +:+ ToString (endRow o) in
      let ele :=
        Xml.att "ref" (JStr (startCell +:+ ":" +:+ endCell)) ele in
      let names :=
        DefinedNameCollection.addDefinedName
          {| DefinedNameCollection.hidden := JNum 1;
             DefinedNameCollection.localSheetId := localSheetId (ws p);
             DefinedNameCollection.name := JStr "_xlnm._FilterDatabase";
             DefinedNameCollection.refFormula :=
               JStr ("'" +:+ ToString (name (ws p)) +:+ "'!" +:+ "$"
                       +:+ getExcelAlpha (startCol o) +:+ "$"
                       +:+ ToString (startRow o) +:+ ":" +:+ "$"
                       +:+ getExcelAlpha (endCol o) +:+ "$"
                       +:+ ToString (endRow o)) |}
          (Workbook.definedNameCollection (wb p)) in
      Ok {| ws := set_autoFilter o (ws p);
            wb := Workbook.set_definedNameCollection names (wb p);
            xml := Xml.up ele |}
  | _ => Ok p
  end.

(** *** The stages after the auto filter *)

Definition _addMergeCells (p : promiseObj) : result promiseObj :=
  match mergedCells (ws p) with
  | Some l =>
      if 0 <? Z.of_nat (length l) then
        let ele :=
          xml p |> Xml.ele "mergeCells"
                |> Xml.att "count" (JNum (Z.of_nat (length l))) in
        let ele :=
          foldl (fun ele cr =>
                   ele |> Xml.ele "mergeCell" |> Xml.att "ref" cr
                       |> Xml.up) ele l in
        Ok (with_xml (Xml.up ele) p)
      else Ok p
  | None => Ok p
  end.

Definition _addConditionalFormatting (p : promiseObj)
    : result promiseObj :=
  let* x :=
    CfRulesCollection_addToXMLele (cfRulesCollection (ws p)) (xml p) in
  Ok (with_xml x p).

Definition _addHyperlinks (p : promiseObj) : result promiseObj :=
  let* x :=
    HyperlinkCollection_addToXMLele (hyperlinkCollection (ws p)) (xml p)
  in
  Ok (with_xml x p).

Definition _addDataValidations (p : promiseObj) : result promiseObj :=
  if 0 <? DataValidationCollection.length
            (dataValidationCollection (ws p)) then
    let* x :=
      DataValidationCollection.addToXMLele
        (dataValidationCollection (ws p)) (xml p) in
    Ok (with_xml x p)
  else Ok p.

(** [v === true ? x.att(name, 1) : null] *)
Definition att_one_if_true (name : string) (v : jsval) (x : Xml.builder)
    : Xml.builder :=
  Xml.att_if (strict_eq v (JBool true)) name (JNum 1) x.

Definition _addPrintOptions (p : promiseObj) : result promiseObj :=
  let o := printOptions (opts (ws p)) in
  let addPrintOptions := any_non_null o in
  if addPrintOptions then
    let poEle := Xml.ele "printOptions" (xml p) in
    let poEle :=
      att_one_if_true "horizontalCentered" (get "centerHorizontal" o)
        poEle in
    let poEle :=
      att_one_if_true "verticalCentered" (get "centerVertical" o) poEle in
    let poEle :=
      att_one_if_true "headings" (get "printHeadings" o) poEle in
    let poEle :=
      if strict_eq (get "printGridLines" o) (JBool true) then
        poEle |> Xml.att "gridLines" (JNum 1)
              |> Xml.att "gridLinesSet" (JNum 1)
      else poEle in
    Ok (with_xml (Xml.up poEle) p)
  else Ok p.

Definition _addPageMargins (p : promiseObj) : result promiseObj :=
  let o := margins (opts (ws p)) in
  Ok (with_xml
        (xml p |> Xml.ele "pageMargins"
               |> Xml.att "left" (get "left" o)
               |> Xml.att "right" (get "right" o)
               |> Xml.att "top" (get "top" o)
               |> Xml.att "bottom" (get "bottom" o)
               |> Xml.att "header" (get "header" o)
               |> Xml.att "footer" (get "footer" o)
               |> Xml.up) p).

Definition _addPageSetup (p : promiseObj) : result promiseObj :=
  let o := pageSetup (opts (ws p)) in
  let addPageSetup := any_non_null o in
  if addPageSetup then
    let psEle := Xml.ele "pageSetup" (xml p) in
    let psEle :=
      if non_null (get "paperSize" o) then
        Xml.att "paperSize" (paperSize (get "paperSize" o)) psEle
      else psEle in
    let psEle := att_non_null "paperHeight" (get "paperHeight" o) psEle in
    let psEle := att_non_null "paperWidth" (get "paperWidth" o) psEle in
    let psEle := att_non_null "scale" (get "scale" o) psEle in
    let psEle :=
      att_non_null "firstPageNumber" (get "firstPageNumber" o) psEle in
    let psEle := att_non_null "fitToWidth" (get "fitToWidth" o) psEle in
    let psEle := att_non_null "fitToHeight" (get "fitToHeight" o) psEle in
    let psEle := att_non_null "pageOrder" (get "pageOrder" o) psEle in
    let psEle := att_non_null "orientation" (get "orientation" o) psEle in
    let* psEle :=
      att_non_null_boolToInt "usePrinterDefaults"
        (get "usePrinterDefaults" o) psEle in
    let* psEle :=
      att_non_null_boolToInt "blackAndWhite" (get "blackAndWhite" o)
        psEle in
    let* psEle := att_non_null_boolToInt "draft" (get "draft" o) psEle in
    let psEle :=
      att_non_null "cellComments" (get "cellComments" o) psEle in
    let* psEle :=
      att_non_null_boolToInt "useFirstPageNumber"
        (get "useFirstPageNumber" o) psEle in
    let psEle := att_non_null "errors" (get "errors" o) psEle in
    let psEle :=
      att_non_null "horizontalDpi" (get "horizontalDpi" o) psEle in
    let psEle := att_non_null "verticalDpi" (get "verticalDpi" o) psEle in
    let psEle := att_non_null "copies" (get "copies" o) psEle in
    Ok (with_xml (Xml.up psEle) p)
  else Ok p.

Definition _addHeaderFooter (p : promiseObj) : result promiseObj :=
  let o := headerFooter (opts (ws p)) in
  let addHeaderFooter := any_non_null o in
  if addHeaderFooter then
    let hfEle := Xml.ele "headerFooter" (xml p) in
    let* hfEle :=
      att_non_null_boolToInt "alignWithMargins"
        (get "alignWithMargins" o) hfEle in
    let* hfEle :=
      att_non_null_boolToInt "differentFirst" (get "differentFirst" o)
        hfEle in
    let* hfEle :=
      att_non_null_boolToInt "differentOddEven"
        (get "differentOddEven" o) hfEle in
    let* hfEle :=
      att_non_null_boolToInt "scaleWithDoc" (get "scaleWithDoc" o) hfEle
    in
    let hfEle := ele_text_non_null "oddHeader" (get "oddHeader" o) hfEle in
    let hfEle := ele_text_non_null "oddFooter" (get "oddFooter" o) hfEle in
    let hfEle :=
      ele_text_non_null "evenHeader" (get "evenHeader" o) hfEle in
    let hfEle :=
      ele_text_non_null "evenFooter" (get "evenFooter" o) hfEle in
    let hfEle :=
      ele_text_non_null "firstHeader" (get "firstHeader" o) hfEle in
    let hfEle :=
      ele_text_non_null "firstFooter" (get "firstFooter" o) hfEle in
    Ok (with_xml (Xml.up hfEle) p)
  else Ok p.

(** [ws.relationships.indexOf('drawing')] *)
Fixpoint relationships_indexOf (i : Z) (l : list relationship)
    (v : jsval) : Z :=
  match l with
  | [] => -1
  | RelMarker w :: l' =>
      if strict_eq w v then i else relationships_indexOf (i + 1) l' v
  | RelHyperlink _ :: l' => relationships_indexOf (i + 1) l' v
  end.

Definition _addDrawing (p : promiseObj) : result promiseObj :=
  if negb (drawingCollection_isEmpty (ws p)) then
    let dId :=
      relationships_indexOf 0 (relationships (ws p)) (JStr "drawing") + 1
    in
    Ok (with_xml
          (xml p |> Xml.ele "drawing"
                 |> Xml.att "r:id" (JStr ("rId" +:+ ToString (JNum dId)))
                 |> Xml.up) p)
  else Ok p.

(** *** [sheetXML(ws)]

    The stages run in the order of the promise chain; a stage that
    throws ends the chain without a document.  The result is the
    document, with the worksheet and the workbook as the stages left
    them. *)
Definition sheetXML (w : Worksheet.t) (b : Workbook.t)
    : result promiseObj :=
  let wsXML :=
    [] |> Xml.ele "worksheet"
       |> Xml.att "mc:Ignorable" (JStr "x14ac")
       |> Xml.att "xmlns"
            (JStr "http://schemas.openxmlformats.org/spreadsheetml/2006/main")
       |> Xml.att "xmlns:mc"
            (JStr "http://schemas.openxmlformats.org/markup-compatibility/2006")
       |> Xml.att "xmlns:r"
            (JStr "http://schemas.openxmlformats.org/officeDocument/2006/relationships")
       |> Xml.att "xmlns:x14ac"
            (JStr "http://schemas.microsoft.com/office/spreadsheetml/2009/9/ac")
  in
  let promiseObj := {| ws := w; wb := b; xml := wsXML |} in
  let* p := _addSheetPr promiseObj in
  let* p := _addDimension p in
  let* p := _addSheetViews p in
  let* p := _addSheetFormatPr p in
  let* p := _addCols p in
  let* p := _addSheetData p in
  let* p := _addSheetProtection p in
  let* p := _addAutoFilter p in
  let* p := _addMergeCells p in
  let* p := _addConditionalFormatting p in
  let* p := _addDataValidations p in
  let* p := _addHyperlinks p in
  let* p := _addPrintOptions p in
  let* p := _addPageMargins p in
  let* p := _addPageSetup p in
  let* p := _addHeaderFooter p in
  let* p := _addDrawing p in
  Ok (with_xml (Xml.finish (xml p)) p).

End Builder.
End Builder.

(** ** The sheet-data stage, with and without batches *)

Module SheetData.
Section SheetData.
Context `{Utils} `{Collaborators} `{StyleClass}.

Import Builder.

(** [_addSheetData] with the batch size as an argument; the source has
    the constant 500. *)
Definition chunked (chunk : nat) (p : promiseObj) : result promiseObj :=
  let ele := Xml.ele "sheetData" (xml p) in
  let pending := Worksheet.rows_keys (ws p) in
  let* st := processNextRows chunk pending (ws p, ele) in
  Ok {| ws := st.1; wb := wb p; xml := st.2 |}.

(** The same stage as one traversal of all the rows: the [for] loop of
    [processRows] over every key, then [ele.up()]. *)
Definition unchunked (p : promiseObj) : result promiseObj :=
  let ele := Xml.ele "sheetData" (xml p) in
  let* st := processRows_for (Worksheet.rows_keys (ws p)) (ws p, ele) in
  Ok {| ws := st.1; wb := wb p; xml := Xml.up st.2 |}.

(** A row after the stage: its cell references sorted in place. *)
Definition sorted_row (row : Row.t) : Row.t :=
  Row.set_cellRefs (sort sortCellRefs (Row.cellRefs row)) row.

End SheetData.
End SheetData.

(** ** What the constructor computes, as functions of the caller's options

    The statements on the constructor are phrased with these;
    [DataValidationFacts.constructor_run] relates them to the
    constructor. *)

Module DataValidationSpec.

Import DataValidationConstructorOpts.

Definition defined (v : jsval) : bool := negb (is_undefined v).

(** The value a flag is left with: [true] when [Number(v) === 1], [false]
    when [Number(v) === 0], itself otherwise. *)
Definition flag_norm `{Builtins} (v : jsval) : jsval :=
  if is_undefined v then v
  else if Number_is v 1 then JBool true
  else if Number_is v 0 then JBool false
  else v.

Definition flag_ok `{Builtins} (v : jsval) : bool :=
  is_undefined v || Number_is v 1 || Number_is v 0.

Definition enum_ok (enums : list jsval) (v : jsval) : bool :=
  is_undefined v || negb (indexOf enums v <? 0).

Definition text_ok (v : jsval) : bool :=
  is_undefined v || bool_decide (typeof v = TString).

(** [show] once the two text fields that force it have been seen. *)
Definition forced (text title show : jsval) : jsval :=
  if defined text || defined title then JBool true else show.

Definition effective_showErrorMessage (o : t) : jsval :=
  forced (error o) (errorTitle o) (showErrorMessage o).

Definition effective_showInputMessage (o : t) : jsval :=
  forced (prompt o) (promptTitle o) (showInputMessage o).

(** Every check of the constructor, in the order it makes them. *)
Definition valid `{Builtins} (o : t) : bool :=
  defined (sqref o)
  && flag_ok (allowBlank o)
  && enum_ok DataValidation.errorStyle_enums (errorStyle o)
  && text_ok (error o)
  && text_ok (errorTitle o)
  && enum_ok DataValidation.imeMode_enums (imeMode o)
  && enum_ok DataValidation.operator_enums (operator o)
  && text_ok (prompt o)
  && text_ok (promptTitle o)
  && flag_ok (showDropDown o)
  && flag_ok (effective_showErrorMessage o)
  && flag_ok (effective_showInputMessage o)
  && enum_ok DataValidation.type_enums (type o).

(** The caller's object after a construction that succeeded. *)
Definition opts_after `{Builtins} (o : t) : t :=
  {| sqref := sqref o; formulas := formulas o;
     allowBlank := flag_norm (allowBlank o);
     error := error o; errorStyle := errorStyle o;
     errorTitle := errorTitle o; imeMode := imeMode o;
     operator := operator o; prompt := prompt o;
     promptTitle := promptTitle o;
     showDropDown := flag_norm (showDropDown o);
     showErrorMessage := flag_norm (effective_showErrorMessage o);
     showInputMessage := flag_norm (effective_showInputMessage o);
     type := type o |}.

Definition formula (i : nat) (o : t) : jsval :=
  match formulas o with
  | Some l => nth i l JUndefined
  | None => JUndefined
  end.

(** The instance a construction that succeeded returns. *)
Definition instance `{Builtins} (o : t) : DataValidation.t :=
  {| DataValidation.sqref := sqref o;
     DataValidation.formula1 := formula 0 o;
     DataValidation.formula2 := formula 1 o;
     DataValidation.allowBlank := flag_norm (allowBlank o);
     DataValidation.errorStyle := errorStyle o;
     DataValidation.error := error o;
     DataValidation.showErrorMessage :=
       flag_norm (effective_showErrorMessage o);
     DataValidation.errorTitle := errorTitle o;
     DataValidation.imeMode := imeMode o;
     DataValidation.operator := operator o;
     DataValidation.prompt := prompt o;
     DataValidation.showInputMessage :=
       flag_norm (effective_showInputMessage o);
     DataValidation.promptTitle := promptTitle o;
     DataValidation.showDropDown := flag_norm (showDropDown o);
     DataValidation.type := type o |}.

(** *** The rejection rule in the words of the specification *)

(** "a value that is not [true], [false], [1] or [0]" *)
Definition not_a_flag (v : jsval) : Prop :=
  v <> JUndefined /\ v <> JBool true /\ v <> JBool false
  /\ v <> JNum 1 /\ v <> JNum 0.

(** "holds a value outside its fixed closed set" *)
Definition outside (enums : list jsval) (v : jsval) : Prop :=
  v <> JUndefined /\ ~ In v enums.

(** "is not a string" *)
Definition not_text (v : jsval) : Prop :=
  v <> JUndefined /\ typeof v <> TString.

Definition bad_enum (o : t) : Prop :=
  outside DataValidation.errorStyle_enums (errorStyle o)
  \/ outside DataValidation.imeMode_enums (imeMode o)
  \/ outside DataValidation.operator_enums (operator o)
  \/ outside DataValidation.type_enums (type o).

Definition bad_text (o : t) : Prop :=
  not_text (error o) \/ not_text (errorTitle o)
  \/ not_text (prompt o) \/ not_text (promptTitle o).

(** The rule as the specification gives it: any of the four flags. *)
Definition rejected_as_specified (o : t) : Prop :=
  sqref o = JUndefined
  \/ bad_enum o
  \/ (not_a_flag (allowBlank o) \/ not_a_flag (showDropDown o)
      \/ not_a_flag (showErrorMessage o)
      \/ not_a_flag (showInputMessage o))
  \/ bad_text o.

(** The rule of the constructor: a message flag counts only when none of
    its two texts is given. *)
Definition rejected (o : t) : Prop :=
  sqref o = JUndefined
  \/ bad_enum o
  \/ (not_a_flag (allowBlank o) \/ not_a_flag (showDropDown o)
      \/ (error o = JUndefined /\ errorTitle o = JUndefined
          /\ not_a_flag (showErrorMessage o))
      \/ (prompt o = JUndefined /\ promptTitle o = JUndefined
          /\ not_a_flag (showInputMessage o)))
  \/ bad_text o.

(** A flag that is absent, a boolean or a number. *)
Definition plain_flag (v : jsval) : Prop :=
  typeof v = TUndefined \/ typeof v = TBoolean \/ typeof v = TNumber.

Definition plain_flags (o : t) : Prop :=
  plain_flag (allowBlank o) /\ plain_flag (showDropDown o)
  /\ plain_flag (showErrorMessage o) /\ plain_flag (showInputMessage o).

End DataValidationSpec.

(** ** The calls [DataValidation.addToXMLele] makes on the document *)

Module DataValidationCalls.
Section Calls.
Context `{Utils}.

Import DataValidation.

(** A flag attribute: written when the field is set, with the value
    [utils.boolToInt] gives. *)
Definition flag_att (name : string) (v : jsval) (c : Xml.call) : Prop :=
  exists i, v <> JUndefined /\ boolToInt v = Ok i /\ c = Xml.Att name i.

(** A plain attribute: written when the field is set. *)
Definition plain_att (name : string) (v : jsval) (c : Xml.call) : Prop :=
  v <> JUndefined /\ c = Xml.Att name v.

(** The text of a formula element. *)
Definition formula_text (f : jsval) (c : Xml.call) : Prop :=
  exists v, cleanFormula f = Ok v /\ c = Xml.Text v.

(** [c] is one of the calls made for the rule [d]. *)
Definition emitted (d : t) (c : Xml.call) : Prop :=
  c = Xml.Ele "dataValidation"
  \/ plain_att "type" (type d) c
  \/ plain_att "errorStyle" (errorStyle d) c
  \/ plain_att "imeMode" (imeMode d) c
  \/ plain_att "operator" (operator d) c
  \/ flag_att "allowBlank" (allowBlank d) c
  \/ (showDropDown d = JBool false /\ c = Xml.Att "showDropDown" (JNum 1))
  \/ flag_att "showInputMessage" (showInputMessage d) c
  \/ flag_att "showErrorMessage" (showErrorMessage d) c
  \/ plain_att "errorTitle" (errorTitle d) c
  \/ plain_att "error" (error d) c
  \/ plain_att "promptTitle" (promptTitle d) c
  \/ plain_att "prompt" (prompt d) c
  \/ plain_att "sqref" (sqref d) c
  \/ (formula1 d <> JUndefined
      /\ (c = Xml.Ele "formula1"
          \/ formula_text (formula1 d) c
          \/ (formula2 d <> JUndefined
              /\ (c = Xml.Up \/ c = Xml.Ele "formula2"
                  \/ formula_text (formula2 d) c))))
  \/ c = Xml.Up.

End Calls.
End DataValidationCalls.

(** ** The two tables of styles agree *)

Module WorkbookSpec.
Section WorkbookSpec.
Context `{StyleClass}.

Import Workbook.

(** Every style of the array carries its position as [ids.cellXfs] and
    is the one filed under its key, and the lookup table files nothing
    else. *)
Definition registry_ok (wb : t) : Prop :=
  (forall (i : nat) (s : Style.t),
     styles wb !! i = Some s ->
     Style.ids_cellXfs s = JNum (Z.of_nat i)
     /\ stylesLookup wb !! Style.toKey s = Some s)
  /\ (forall (k : string) (s : Style.t),
        stylesLookup wb !! k = Some s ->
        k = Style.toKey s /\ exists i, styles wb !! i = Some s).

End WorkbookSpec.
End WorkbookSpec.

(** ** What the auto-filter stage writes *)

Module AutoFilterSpec.
Section AutoFilterSpec.
Context `{Utils} `{Collaborators}.

(** [A5:C7] from the resolved columns and rows. *)
Definition range_ref (sc : jsval) (start : Z) (ec er : jsval) : string :=
  (getExcelAlpha sc +:+ pretty start) +:+ ":"
    +:+ (getExcelAlpha ec +:+ ToString er).

(** The defined name of the filter: ['Sheet1'!$A$5:$C$7], hidden, local
    to the sheet. *)
Definition filter_database (w : Worksheet.t) (sc : jsval) (start : Z)
    (ec er : jsval) : DefinedNameCollection.DefinedName :=
  {| DefinedNameCollection.hidden := JNum 1;
     DefinedNameCollection.localSheetId := Worksheet.localSheetId w;
     DefinedNameCollection.name := JStr "_xlnm._FilterDatabase";
     DefinedNameCollection.refFormula :=
       JStr ("'" +:+ ToString (Worksheet.name w) +:+ "'!$"
               +:+ getExcelAlpha sc +:+ "$" +:+ pretty start +:+ ":$"
               +:+ getExcelAlpha ec +:+ "$" +:+ ToString er) |}.

(** The filter options with the resolved bounds written back. *)
Definition resolved (o : Worksheet.AutoFilter) (start : Z)
    (sc ec er : jsval) : Worksheet.AutoFilter :=
  {| Worksheet.startRow := JNum start; Worksheet.endRow := er;
     Worksheet.startCol := sc; Worksheet.endCol := ec;
     Worksheet.ref := Worksheet.ref o |}.

End AutoFilterSpec.
End AutoFilterSpec.

(** ** What serialization writes back into the model *)

Module PipelineSpec.
Section PipelineSpec.
Context `{Utils} `{Collaborators}.

(** The protection options once the stage has run: [sheet], [objects]
    and [scenarios] default to [true] when any protection is set. *)
Definition protection_defaults (o : object) : object :=
  if Builder.any_non_null o then
    Builder.default_true "scenarios"
      (Builder.default_true "objects" (Builder.default_true "sheet" o))
  else o.

(** The worksheet with its three writes: sorted cell references,
    protection defaults, resolved filter. *)
Definition written_back (w : Worksheet.t) (af : Worksheet.AutoFilter)
    : Worksheet.t :=
  Worksheet.set_rows (SheetData.sorted_row <$> Worksheet.rows w)
    (Worksheet.set_autoFilter af
       (Worksheet.set_sheetProtection
          (protection_defaults
             (Worksheet.sheetProtection (Worksheet.opts w))) w)).

(** A stage that only reads the worksheet and the workbook. *)
Definition read_only `{StyleClass}
    (stage : Builder.promiseObj -> result Builder.promiseObj) : Prop :=
  forall p p',
    stage p = Ok p' ->
    Builder.ws p' = Builder.ws p /\ Builder.wb p' = Builder.wb p.

End PipelineSpec.
End PipelineSpec.

(** ** Instances used in the examples *)

Module Reference.

(** [StringToNumber] on unsigned decimal literals and the empty string;
    every other string is left as [NaN]. *)
Fixpoint digits (s : string) (acc : Z) : option Z :=
  match s with
  | EmptyString => Some acc
  | String c s' =>
      let n := Z.of_nat (nat_of_ascii c) in
      if (48 <=? n) && (n <=? 57) then digits s' (10 * acc + (n - 48))
      else None
  end.

Definition builtins : Builtins := {| StringToNumber := fun s => digits s 0 |}.

(** Column letters: 1 is A, 26 is Z, 27 is AA. *)
Fixpoint alpha (fuel : nat) (n : Z) (acc : string) : string :=
  match fuel with
  | O => acc
  | S fuel' =>
      if n <=? 0 then acc
      else
        alpha fuel' ((n - 1) / 26)
          (String (ascii_of_nat (Z.to_nat (65 + (n - 1) mod 26))) acc)
  end.

Definition utils : Utils :=
  {| getExcelAlpha :=
       fun v => match v with
                | JNum n => alpha 8 n EmptyString
                | _ => EmptyString
                end;
     boolToInt :=
       fun v => match v with
                | JBool true | JNum 1 => Ok (JNum 1)
                | JBool false | JNum 0 => Ok (JNum 0)
                | _ =>
                    Throw (TypeError
                      "Value sent to boolToInt must be true, false, 1 or 0")
                end;
     getHashOfPassword := fun v => JStr (ToString v);
     sortCellRefs :=
       fun a b => match String.compare a b with
                  | Lt => -1
                  | Eq => 0
                  | Gt => 1
                  end |}.

(** Cells that write their text, rows filled from column A on, and empty
    rule and link collections. *)
Definition collaborators : Collaborators :=
  {| firstColumn := fun _ => JNum 1;
     lastColumn :=
       fun row => JNum (Z.max 1 (Z.of_nat (length (Row.cellRefs row))));
     Cell := string;
     Cell_addToXMLele :=
       fun c x => Ok (x |> Xml.ele "c" |> Xml.text (JStr c) |> Xml.up);
     CfRulesCollection := unit;
     CfRulesCollection_addToXMLele := fun _ x => Ok x;
     HyperlinkCollection := unit;
     HyperlinkCollection_addToXMLele := fun _ x => Ok x;
     paperSize := fun v => v |}.

(** Styles as finite maps from field names to values: the order in which
    the fields were written is not part of the value, and the key is the
    code of the map. *)
Program Definition styles : StyleClass :=
  {| StyleOpts := gmap string string;
     structurally_equal := eq;
     lookupKey := fun m => pretty (encode m) |}.
Next Obligation.
  intros a b. split; [intros ->; reflexivity|].
  intros Heq. apply (inj pretty) in Heq. apply (inj encode) in Heq.
  exact Heq.
Qed.

End Reference.

(** ** Worksheets and rules used in the examples *)

Module Examples.

Module Opts := DataValidationConstructorOpts.

(** [{ sqref: 'A1' }] *)
Definition on_A1 : Opts.t := Opts.set_sqref (JStr "A1") Opts.empty.

(** [{ sqref: 'A1', error: 'Bad input', showErrorMessage: false }] *)
Definition bad_input : Opts.t :=
  Opts.set_showErrorMessage (JBool false)
    (Opts.set_error (JStr "Bad input") on_A1).

(** [{ sqref: 'A1', error: 'x', showErrorMessage: false, type: 'bogus' }] *)
Definition bad_type : Opts.t :=
  Opts.set_type (JStr "bogus")
    (Opts.set_showErrorMessage (JBool false)
       (Opts.set_error (JStr "x") on_A1)).

(** A rule with [showDropDown: false] and the list formula
    [Option A]. *)
Definition dropdown_rule : DataValidation.t :=
  DataValidation.set_formula1 (JStr "Option A")
    (DataValidation.set_showDropDown (JBool false)
       (DataValidation.set_sqref (JStr "A1") DataValidation.fresh)).

Definition row (n : Z) (refs : list string) : Row.t :=
  {| Row.r := JNum n; Row.spans := JStr "1:3"; Row.s := JNull;
     Row.customFormat := JNull; Row.ht := JNull; Row.hidden := JNull;
     Row.customHeight := JNull; Row.outlineLevel := JNull;
     Row.collapsed := JNull; Row.thickTop := JNull; Row.thickBot := JNull;
     Row.cellRefs := refs |}.

Definition no_filter : Worksheet.AutoFilter :=
  {| Worksheet.startRow := JNull; Worksheet.endRow := JNull;
     Worksheet.startCol := JNull; Worksheet.endCol := JNull;
     Worksheet.ref := JNull |}.

Definition nulls (ks : list string) : object :=
  map (fun k => (k, JNull)) ks.

(** The options of a worksheet as they are before the client sets any:
    every field is there and is [null], but for the view and the
    margins. *)
Definition sheet_opts (a : Worksheet.AutoFilter) : Worksheet.Opts :=
  {| Worksheet.printOptions :=
       nulls ["centerHorizontal"; "centerVertical"; "printGridLines";
              "printHeadings"];
     Worksheet.outline := nulls ["summaryBelow"; "summaryRight"];
     Worksheet.autoFilter := a;
     Worksheet.pageSetup :=
       nulls ["fitToHeight"; "fitToWidth"; "orientation"; "paperSize"];
     Worksheet.sheetView :=
       [("showGridLines", JNum 1); ("tabSelected", JNum 0);
        ("workbookViewId", JNum 0); ("rightToLeft", JNum 0);
        ("zoomScale", JNum 100); ("zoomScaleNormal", JNum 100);
        ("zoomScalePageLayoutView", JNum 100)];
     Worksheet.pane :=
       nulls ["activePane"; "state"; "topLeftCell"; "xSplit"; "ySplit"];
     Worksheet.sheetFormat :=
       nulls ["baseColWidth"; "defaultColWidth"; "defaultRowHeight";
              "thickBottom"; "thickTop"];
     Worksheet.sheetProtection :=
       nulls ["autoFilter"; "objects"; "password"; "scenarios"; "sheet";
              "sort"];
     Worksheet.margins :=
       [("bottom", JNum 1); ("footer", JNum 1); ("header", JNum 1);
        ("left", JNum 1); ("right", JNum 1); ("top", JNum 1)];
     Worksheet.headerFooter :=
       nulls ["alignWithMargins"; "oddFooter"; "oddHeader"] |}.

(** A sheet named [Sheet1] with the given rows, cells and filter. *)
Definition sheet (a : Worksheet.AutoFilter) (rs : list (Z * Row.t))
    (cs : list (string * string))
    : Worksheet.t (H := Reference.collaborators) :=
  {| Worksheet.opts := sheet_opts a;
     Worksheet.name := JStr "Sheet1";
     Worksheet.sheetId := JNum 1;
     Worksheet.localSheetId := JNum 0;
     Worksheet.lastUsedRow := JNum 7;
     Worksheet.lastUsedCol := JNum 3;
     Worksheet.columnCount := 0;
     Worksheet.cols := [];
     Worksheet.rows := list_to_map rs;
     Worksheet.cells :=
       (list_to_map cs : gmap string (@Cell Reference.collaborators));
     Worksheet.mergedCells := Some [];
     Worksheet.cfRulesCollection :=
       (tt : @CfRulesCollection Reference.collaborators);
     Worksheet.hyperlinkCollection :=
       (tt : @HyperlinkCollection Reference.collaborators);
     Worksheet.dataValidationCollection := [];
     Worksheet.drawingCollection_isEmpty := true;
     Worksheet.relationships := [] |}.

(** Rows 5, 6 and 7, three cells each, written out of order in row 5. *)
Definition rows_5_6_7 : list (Z * Row.t) :=
  [(5, row 5 ["C5"; "A5"; "B5"]); (6, row 6 ["A6"; "B6"; "C6"]);
   (7, row 7 ["A7"; "B7"; "C7"])].

Definition cells_5_6_7 : list (string * string) :=
  [("A5", "a"); ("B5", "b"); ("C5", "c"); ("A6", "1"); ("B6", "2");
   ("C6", "3"); ("A7", "4"); ("B7", "5"); ("C7", "6")].

(** [startRow: 5], nothing else given. *)
Definition filter_from_5 : Worksheet.AutoFilter :=
  {| Worksheet.startRow := JNum 5; Worksheet.endRow := JNull;
     Worksheet.startCol := JNull; Worksheet.endCol := JNull;
     Worksheet.ref := JNull |}.

(** [startRow: 5] with columns 1 to 3 given. *)
Definition filter_from_5_cols : Worksheet.AutoFilter :=
  {| Worksheet.startRow := JNum 5; Worksheet.endRow := JNull;
     Worksheet.startCol := JNum 1; Worksheet.endCol := JNum 3;
     Worksheet.ref := JNull |}.

Definition filtered_sheet : Worksheet.t :=
  sheet filter_from_5 rows_5_6_7 cells_5_6_7.

(** The filter is configured and the sheet has no rows at all. *)
Definition empty_filtered_sheet : Worksheet.t :=
  sheet filter_from_5_cols [] [].

Definition empty_sheet_no_cols : Worksheet.t :=
  sheet filter_from_5 [] [].

(** Rows 1 to 1200, no filter. *)
Definition long_sheet : Worksheet.t :=
  sheet no_filter (map (fun n => (n, row n [])) (seqZ 1 1200)) [].

Definition workbook : Workbook.t (H := Reference.styles) :=
  Workbook.constructor (H := Reference.styles) (∅ : gmap string string).

Definition promise (w : Worksheet.t)
    : Builder.promiseObj (H0 := Reference.collaborators)
        (H1 := Reference.styles) :=
  {| Builder.ws := w; Builder.wb := workbook; Builder.xml := [] |}.

End Examples.

(** ** Counting the calls of a document *)

Module XmlCalls.

Definition is_ele (name : string) (c : Xml.call) : bool :=
  bool_decide (c = Xml.Ele name).

(** How many times [ele(name)] was called. *)
Fixpoint count_ele (name : string) (x : Xml.builder) : nat :=
  match x with
  | [] => O
  | c :: x' =>
      if is_ele name c then S (count_ele name x') else count_ele name x'
  end.

(** The [ele] calls minus the [up] calls: the elements the calls entered
    and did not leave. *)
Fixpoint opened (x : Xml.builder) : Z :=
  match x with
  | [] => 0
  | Xml.Ele _ :: x' => opened x' + 1
  | Xml.Up :: x' => opened x' - 1
  | _ :: x' => opened x'
  end.

(** The names of the attributes set, in the order of the calls. *)
Fixpoint att_names (x : Xml.builder) : list string :=
  match x with
  | [] => []
  | Xml.Att name _ :: x' => name :: att_names x'
  | _ :: x' => att_names x'
  end.

End XmlCalls.

(** ** The shape of a rule the constructor has accepted *)

Module DataValidationShape.

Import DataValidation.

(** Absent, or a boolean. *)
Definition flag (v : jsval) : Prop :=
  v = JUndefined \/ typeof v = TBoolean.

(** Absent, or one of the listed values. *)
Definition one_of (enums : list jsval) (v : jsval) : Prop :=
  v = JUndefined \/ v ∈ enums.

(** Absent, or a string. *)
Definition text (v : jsval) : Prop :=
  v = JUndefined \/ typeof v = TString.

Definition well_formed (d : t) : Prop :=
  sqref d <> JUndefined
  /\ flag (allowBlank d) /\ flag (showDropDown d)
  /\ flag (showErrorMessage d) /\ flag (showInputMessage d)
  /\ one_of errorStyle_enums (errorStyle d)
  /\ one_of imeMode_enums (imeMode d)
  /\ one_of operator_enums (operator d)
  /\ one_of type_enums (type d)
  /\ text (error d) /\ text (errorTitle d)
  /\ text (prompt d) /\ text (promptTitle d).

(** A formula [cleanFormula] can handle: a number or a string. *)
Definition formula_ok (f : jsval) : Prop :=
  typeof f = TNumber \/ typeof f = TString.

(** The formulas of a rule that can be written: none, one, or two. *)
Definition formulas_ok (d : t) : Prop :=
  formula1 d = JUndefined
  \/ (formula_ok (formula1 d)
      /\ (formula2 d = JUndefined \/ formula_ok (formula2 d))).

(** The attributes of a [dataValidation] element, in the order in which
    [addToXMLele] looks at the fields. *)
Definition attribute_order : list string :=
  ["type"; "errorStyle"; "imeMode"; "operator"; "allowBlank";
   "showDropDown"; "showInputMessage"; "showErrorMessage"; "errorTitle";
   "error"; "promptTitle"; "prompt"; "sqref"].

(** How many rules have no first formula. *)
Definition bare (items : list t) : nat :=
  length (List.filter (fun d => is_undefined (formula1 d)) items).

(** The caller's options, but for the four flags the constructor
    normalizes. *)
Definition same_but_flags (o o' : Opts.t) : Prop :=
  Opts.sqref o' = Opts.sqref o
  /\ Opts.formulas o' = Opts.formulas o
  /\ Opts.error o' = Opts.error o
  /\ Opts.errorStyle o' = Opts.errorStyle o
  /\ Opts.errorTitle o' = Opts.errorTitle o
  /\ Opts.imeMode o' = Opts.imeMode o
  /\ Opts.operator o' = Opts.operator o
  /\ Opts.prompt o' = Opts.prompt o
  /\ Opts.promptTitle o' = Opts.promptTitle o
  /\ Opts.type o' = Opts.type o.

(** A property of the caller's options that a step of the constructor
    keeps, whether the step returns or throws. *)
Definition preserves {A} (P : Opts.t -> Prop) (m : M A) : Prop :=
  forall s : frame, P (opts s) -> P (opts (m s).1).

End DataValidationShape.

(** ** Rows that name a cell the worksheet does not have *)

Module SheetDataShape.
Section SheetDataShape.
Context `{Collaborators}.

(** The row at [key] lists a cell reference that is not a key of
    [ws.cells]. *)
Definition missing_at (w : Worksheet.t) (key : Z) : Prop :=
  exists (row : Row.t) (ref : string),
    Worksheet.rows w !! key = Some row
    /\ ref ∈ Row.cellRefs row
    /\ Worksheet.cells w !! ref = None.

Definition missing_cell (w : Worksheet.t) : Prop :=
  exists key : Z, missing_at w key.

End SheetDataShape.
End SheetDataShape.

(** ** [Workbook.setSelectedTab] *)

Module WorkbookSheets.
Section WorkbookSheets.
Context `{Collaborators}.

(** [s.opts.sheetView.tabSelected = v] *)
Definition set_tabSelected (v : jsval) (s : Worksheet.t) : Worksheet.t :=
  Worksheet.set_opts
    {| Worksheet.printOptions := Worksheet.printOptions (Worksheet.opts s);
       Worksheet.outline := Worksheet.outline (Worksheet.opts s);
       Worksheet.autoFilter := Worksheet.autoFilter (Worksheet.opts s);
       Worksheet.pageSetup := Worksheet.pageSetup (Worksheet.opts s);
       Worksheet.sheetView :=
         set "tabSelected" v (Worksheet.sheetView (Worksheet.opts s));
       Worksheet.pane := Worksheet.pane (Worksheet.opts s);
       Worksheet.sheetFormat := Worksheet.sheetFormat (Worksheet.opts s);
       Worksheet.sheetProtection :=
         Worksheet.sheetProtection (Worksheet.opts s);
       Worksheet.margins := Worksheet.margins (Worksheet.opts s);
       Worksheet.headerFooter :=
         Worksheet.headerFooter (Worksheet.opts s) |} s.

(** [setSelectedTab(id)] over the array [this.sheets]: every sheet is
    written, the ones with that [sheetId] with [1], the others with
    [0]. *)
Definition setSelectedTab (id : jsval) (sheets : list Worksheet.t)
    : list Worksheet.t :=
  map (fun s =>
         if strict_eq (Worksheet.sheetId s) id
         then set_tabSelected (JNum 1) s
         else set_tabSelected (JNum 0) s) sheets.

(** [sheet.opts.sheetView.tabSelected] *)
Definition tabSelected (s : Worksheet.t) : jsval :=
  get "tabSelected" (Worksheet.sheetView (Worksheet.opts s)).

End WorkbookSheets.
End WorkbookSheets.

(** ** [relsXML]: the relationships part of a worksheet *)

Module Rels.

(** The tree [xmlbuilder.create] builds: [ele] adds a child to the node
    it is called on and returns the child, [att] sets an attribute of the
    node it is called on. *)
#[warnings="-register-all"] Inductive node : Type :=
| Node (name : string) (attributes : object) (children : list node).

Definition name (n : node) : string :=
  match n with Node nm _ _ => nm end.
Definition attributes (n : node) : object :=
  match n with Node _ atts _ => atts end.
Definition children (n : node) : list node :=
  match n with Node _ _ ch => ch end.

(** [n.att(name, value)] *)
Definition att (k : string) (v : jsval) (n : node) : node :=
  match n with Node nm atts ch => Node nm (set k v atts) ch end.

(** [parent.ele(name)...], once the child is complete. *)
Definition add_child (c : node) (parent : node) : node :=
  match parent with Node nm atts ch => Node nm atts (ch ++ [c]) end.

(** The document [xmlbuilder.create(name, declaration)] starts. *)
Record document : Type := {
  version : string;
  encoding : string;
  standalone : bool;
  root : node
}.

(** A promise: [resolve] settles it once, later calls are ignored. *)
Inductive promise (A : Type) : Type :=
| Pending
| Resolved (value : A).
Arguments Pending {A}.
Arguments Resolved {A} value.

Definition resolve {A} (v : A) (s : promise A) : promise A :=
  match s with
  | Pending => Resolved v
  | Resolved _ => s
  end.

Section Rels.
Context `{Collaborators}.

(** ['rId' + (i + 1)] *)
Definition rId (i : nat) : string :=
  "rId" +:+ ToString (JNum (Z.of_nat i + 1)).

(** One turn of [ws.relationships.forEach((r, i) => ...)]: the
    [Relationship] element added for [r], if any. *)
Definition relationship_node (sheetId : jsval) (i : nat)
    (r : Worksheet.relationship) : option node :=
  match r with
  | Worksheet.RelHyperlink location =>
      Some (Node "Relationship" [] []
              |> att "Id" (JStr (rId i))
              |> att "Target" location
              |> att "TargetMode" (JStr "External")
              |> att "Type"
                   (JStr "http://schemas.openxmlformats.org/officeDocument/2006/relationships/hyperlink"))
  | Worksheet.RelMarker v =>
      if strict_eq v (JStr "drawing") then
        Some (Node "Relationship" [] []
                |> att "Id" (JStr (rId i))
                |> att "Target"
                     (JStr (("../drawings/drawing" +:+ ToString sheetId)
                              +:+ ".xml"))
                |> att "Type"
                     (JStr "http://schemas.openxmlformats.org/officeDocument/2006/relationships/drawing"))
      else None
  end.

Fixpoint forEach_relationships (sheetId : jsval) (i : nat)
    (l : list Worksheet.relationship) (relXML : node) : node :=
  match l with
  | [] => relXML
  | r :: rest =>
      let relXML :=
        match relationship_node sheetId i r with
        | Some c => add_child c relXML
        | None => relXML
        end in
      forEach_relationships sheetId (S i) rest relXML
  end.

(** [relsXML(ws)]: what the promise it returns is resolved with, the
    document ([relXML.doc()], before [end()] prints it) or [undefined]
    ([None]).  There is no [return] after the first [resolve()]: the
    document is built in any case. *)
Definition relsXML (ws : Worksheet.t) : promise (option document) :=
  let settled := Pending in
  let sheetRelRequired :=
    0 <? Z.of_nat (length (Worksheet.relationships ws)) in
  let settled :=
    if negb sheetRelRequired then resolve None settled else settled in
  let relXML :=
    Node "Relationships" [] []
      |> att "xmlns"
           (JStr "http://schemas.openxmlformats.org/package/2006/relationships")
  in
  let relXML :=
    forEach_relationships (Worksheet.sheetId ws) 0
      (Worksheet.relationships ws) relXML in
  let xmlString :=
    {| version := "1.0"; encoding := "UTF-8"; standalone := true;
       root := relXML |} in
  resolve (Some xmlString) settled.

(** The value of an attribute of a node. *)
Definition attribute (k : string) (n : node) : jsval :=
  get k (attributes n).

End Rels.
End Rels.

(** ** The blocks of a worksheet document *)

Module Blocks.












End Blocks.

(** ** More worksheets for the examples *)

Module MoreExamples.

(** [Examples.sheet] with the password, the merged ranges, the drawing
    and the relationships given. *)
Definition sheet_with (password : jsval) (merged : option (list jsval))
    (has_drawing : bool) (rels : list Worksheet.relationship)
    : Worksheet.t (H := Reference.collaborators) :=
  let w := Examples.sheet Examples.no_filter [] [] in
  Worksheet.set_sheetProtection
    (set "password" password
       (Worksheet.sheetProtection (Worksheet.opts w)))
    {| Worksheet.opts := Worksheet.opts w;
       Worksheet.name := Worksheet.name w;
       Worksheet.sheetId := Worksheet.sheetId w;
       Worksheet.localSheetId := Worksheet.localSheetId w;
       Worksheet.lastUsedRow := Worksheet.lastUsedRow w;
       Worksheet.lastUsedCol := Worksheet.lastUsedCol w;
       Worksheet.columnCount := Worksheet.columnCount w;
       Worksheet.cols := Worksheet.cols w;
       Worksheet.rows := Worksheet.rows w;
       Worksheet.cells := Worksheet.cells w;
       Worksheet.mergedCells := merged;
       Worksheet.cfRulesCollection := Worksheet.cfRulesCollection w;
       Worksheet.hyperlinkCollection := Worksheet.hyperlinkCollection w;
       Worksheet.dataValidationCollection := [];
       Worksheet.drawingCollection_isEmpty := negb has_drawing;
       Worksheet.relationships := rels |}.

(** A sheet protected with a password. *)
Definition protected_sheet : Worksheet.t :=
  sheet_with (JStr "secret") None false [].

(** A sheet with two merged ranges. *)
Definition merged_sheet : Worksheet.t :=
  sheet_with JNull (Some [JStr "A1:B2"; JStr "C1:C3"]) false [].

(** A sheet with a link and a drawing. *)
Definition drawing_sheet : Worksheet.t :=
  sheet_with JNull None true
    [Worksheet.RelHyperlink (JStr "https://example.org");
     Worksheet.RelMarker (JStr "drawing")].

End MoreExamples.

(** ** The elements a document leaves open *)

Module Nesting.

Import XmlCalls DataValidationShape.



(** [x'] is [x] and calls after it that never leave an element that
    was open at [x]: after each of them, as many elements are open as
    at [x], or more. *)
Definition kept (x x' : Xml.builder) : Prop :=
  exists calls,
    x' = x ++ calls
    /\ forall pre, pre `prefix_of` calls -> 0 <= opened pre.



End Nesting.

(** ** A stage run on a worksheet that was serialized before *)

Module Rerun.
Section Rerun.
Context `{Utils} `{Collaborators} `{StyleClass}.

Import Builder.

(** A stage that makes the same calls, and changes nothing, when the
    three things [sheetXML] writes into a worksheet are replaced: the
    rows, the protection options and the bounds of the filter. *)
Definition unaffected (stage : promiseObj -> result promiseObj) : Prop :=
  forall (p p1 : promiseObj) (m : gmap Z Row.t) (a : Worksheet.AutoFilter)
      (o : object) (b2 : Workbook.t),
    Worksheet.ref a
    = Worksheet.ref (Worksheet.autoFilter (Worksheet.opts (ws p))) ->
    stage p = Ok p1 ->
    let w2 :=
      Worksheet.set_rows m
        (Worksheet.set_autoFilter a
           (Worksheet.set_sheetProtection o (ws p))) in
    stage {| ws := w2; wb := b2; xml := xml p |}
    = Ok {| ws := w2; wb := b2; xml := xml p1 |}.

End Rerun.
End Rerun.

(** ** Worksheets with rules, for the examples *)

Module RuleExamples.





End RuleExamples.

(** * Properties *)

(** ** Arrays *)

Module JSFacts.

Lemma indexOf_from_spec (l : list jsval) (v : jsval) (i : Z) :
  0 <= i ->
  ((indexOf_from i l v <? 0) = true <-> ~ In v l)
  /\ (indexOf_from i l v < 0 \/ i <= indexOf_from i l v).
Proof.
  revert i. induction l as [|w l IH]; intros i Hi; cbn.
  - split; [|lia]. split; [tauto|reflexivity].
  - unfold strict_eq. case_bool_decide as Hw.
    + subst w. split; [|lia]. split; [|tauto].
      intros Hneg. apply Z.ltb_lt in Hneg. lia.
    + destruct (IH (i + 1) ltac:(lia)) as [IH1 IH2].
      split; [|lia]. rewrite IH1. intuition congruence.
Qed.

Lemma indexOf_from_shift (l : list jsval) (v : jsval) (i : Z) :
  v ∈ l -> indexOf_from i l v = i + indexOf_from 0 l v.
Proof.
  revert i. induction l as [|w l IH]; intros i Hin; [inversion Hin|].
  cbn. unfold strict_eq. case_bool_decide as Hw; [lia|].
  apply elem_of_cons in Hin as [->|Hin]; [congruence|].
  rewrite (IH (i + 1) Hin), (IH (0 + 1) Hin). lia.
Qed.

Lemma indexOf_absent (l : list jsval) (v : jsval) :
  (indexOf l v <? 0) = true <-> v ∉ l.
Proof.
  unfold indexOf.
  destruct (indexOf_from_spec l v 0 ltac:(lia)) as [-> _].
  rewrite list_elem_of_In. reflexivity.
Qed.

Lemma indexOf_present (l : list jsval) (v : jsval) :
  (indexOf l v <? 0) = false <-> v ∈ l.
Proof.
  rewrite <- not_true_iff_false, indexOf_absent.
  split; [apply dec_stable|tauto].
Qed.

(** The index found is a position of the value. *)
Lemma indexOf_lookup (l : list jsval) (v : jsval) :
  v ∈ l ->
  0 <= indexOf l v /\ l !! Z.to_nat (indexOf l v) = Some v.
Proof.
  unfold indexOf. induction l as [|w l IH]; intros Hin; [inversion Hin|].
  cbn. unfold strict_eq. case_bool_decide as Hw.
  - subst w. split; [lia|reflexivity].
  - apply elem_of_cons in Hin as [->|Hin]; [congruence|].
    destruct (IH Hin) as [IH0 IHl].
    rewrite (indexOf_from_shift l v (0 + 1) Hin). split; [lia|].
    replace (Z.to_nat (0 + 1 + indexOf_from 0 l v))
      with (S (Z.to_nat (indexOf_from 0 l v))) by lia.
    exact IHl.
Qed.

Lemma indexOf_bound (l : list jsval) (v : jsval) :
  v ∈ l -> 0 <= indexOf l v < Z.of_nat (length l).
Proof.
  intros Hin. destruct (indexOf_lookup l v Hin) as [H0 Hl].
  apply lookup_lt_Some in Hl. lia.
Qed.

(** Appending does not move the first occurrence. *)
Lemma indexOf_app_present (l l' : list jsval) (v : jsval) :
  v ∈ l -> indexOf (l ++ l') v = indexOf l v.
Proof.
  unfold indexOf. generalize 0.
  induction l as [|w l IH]; intros i Hin; [inversion Hin|].
  cbn. unfold strict_eq. case_bool_decide as Hw; [reflexivity|].
  apply elem_of_cons in Hin as [->|Hin]; [congruence|].
  apply IH, Hin.
Qed.

Lemma indexOf_app_new (l : list jsval) (v : jsval) :
  v ∉ l -> indexOf (l ++ [v]) v = Z.of_nat (length l).
Proof.
  unfold indexOf.
  assert (Hgen : forall i, v ∉ l ->
            indexOf_from i (l ++ [v]) v = i + Z.of_nat (length l)).
  { induction l as [|w l IH]; intros i Hnin; cbn.
    - unfold strict_eq. rewrite bool_decide_eq_true_2 by reflexivity. lia.
    - apply not_elem_of_cons in Hnin as [Hne Hnin].
      unfold strict_eq. rewrite bool_decide_eq_false_2 by congruence.
      rewrite (IH (i + 1) Hnin). lia. }
  intros Hnin. rewrite (Hgen 0 Hnin). lia.
Qed.

Lemma returns_Ok {A} (m : result A) :
  returns m = true -> exists a, m = Ok a.
Proof. destruct m as [a|e]; [eauto|discriminate]. Qed.

End JSFacts.


(** ** The constructor of [DataValidation] *)

Module DataValidationFacts.

Import DataValidation DataValidationSpec.

Section Blocks.
Context `{Builtins}.

Lemma Number_is_true_0 : Number_is (JBool true) 0 = false.
Proof. reflexivity. Qed.

Lemma flag_ok_boolean (v : jsval) :
  typeof v = TBoolean -> Number_is v 1 || Number_is v 0 = true.
Proof. destruct v as [| |[|]| |]; try discriminate; reflexivity. Qed.

(** A flag block: what it leaves in both objects, or the throw. *)
Lemma booleanField_run (name : string) (field : Opts.t -> jsval)
    (set_opts : jsval -> Opts.t -> Opts.t)
    (set_this : jsval -> t -> t) (get_this : t -> jsval)
    (o : Opts.t) (d : t) :
  (forall v o, field (set_opts v o) = v) ->
  (forall o, set_opts (field o) o = o) ->
  (forall d, set_this (get_this d) d = d) ->
  booleanField name field set_opts set_this {| opts := o; this := d |} =
    if flag_ok (field o) then
      ({| opts := set_opts (flag_norm (field o)) o;
          this :=
            set_this (if is_undefined (field o) then get_this d
                      else flag_norm (field o)) d |}, Ok tt)
    else
      ({| opts := o; this := d |},
       Throw (TypeError ("DataValidation " +:+ name
                           +:+ " must be true, false, 1 or 0"))).
Proof.
  intros Hgs Hido Hidt.
  unfold booleanField, flag_ok, flag_norm, seq, read, when, ret,
    assign_opts, assign_this, throw. cbn [opts this].
  destruct (is_undefined (field o)) eqn:Hu; cbn [negb orb].
  { rewrite Hido, Hidt. reflexivity. }
  cbn beta iota delta [opts this].
  destruct (Number_is (field o) 1) eqn:H1; cbn [opts this orb].
  { rewrite !Hgs, Number_is_true_0. cbn [opts this].
    rewrite !Hgs. reflexivity. }
  destruct (Number_is (field o) 0) eqn:H0; cbn [opts this].
  { rewrite !Hgs. reflexivity. }
  case_bool_decide as Hty; cbn [negb]; [|reflexivity].
  apply flag_ok_boolean in Hty. rewrite H1, H0 in Hty. discriminate.
Qed.

Lemma enumField_run (name : string) (field : Opts.t -> jsval)
    (enums : list jsval) (set_this : jsval -> t -> t)
    (get_this : t -> jsval) (o : Opts.t) (d : t) :
  (forall d, set_this (get_this d) d = d) ->
  enumField name field enums set_this {| opts := o; this := d |} =
    if enum_ok enums (field o) then
      ({| opts := o;
          this :=
            set_this (if is_undefined (field o) then get_this d
                      else field o) d |}, Ok tt)
    else
      ({| opts := o; this := d |},
       Throw (TypeError ("DataValidation " +:+ name
                           +:+ " must be one of " +:+ join ", " enums))).
Proof.
  intros Hidt.
  unfold enumField, enum_ok, seq, read, when, ret, assign_this, throw.
  cbn [opts this].
  destruct (is_undefined (field o)); cbn [negb orb].
  { rewrite Hidt. reflexivity. }
  destruct (indexOf enums (field o) <? 0); reflexivity.
Qed.

Lemma textField_run (name : string) (field : Opts.t -> jsval)
    (set_this : jsval -> t -> t) (get_this : t -> jsval)
    (set_opts_show : jsval -> Opts.t -> Opts.t)
    (show : Opts.t -> jsval)
    (set_this_show : jsval -> t -> t) (get_this_show : t -> jsval)
    (o : Opts.t) (d : t) :
  (forall o, set_opts_show (show o) o = o) ->
  (forall d, set_this (get_this d) d = d) ->
  (forall d, set_this_show (get_this_show d) d = d) ->
  textField name field set_this set_opts_show set_this_show
      {| opts := o; this := d |} =
    if text_ok (field o) then
      ({| opts :=
            set_opts_show
              (if is_undefined (field o) then show o else JBool true) o;
          this :=
            set_this_show
              (if is_undefined (field o)
               then get_this_show
                      (set_this (if is_undefined (field o)
                                 then get_this d else field o) d)
               else JBool true)
              (set_this (if is_undefined (field o) then get_this d
                         else field o) d) |}, Ok tt)
    else
      ({| opts := o; this := d |},
       Throw (TypeError ("DataValidation " +:+ name
                           +:+ " must be a string"))).
Proof.
  intros Hido Hidt Hids.
  unfold textField, text_ok, seq, read, when, ret, assign_this,
    assign_opts, throw.
  cbn [opts this].
  destruct (is_undefined (field o)); cbn [negb orb].
  { rewrite Hido, Hidt, Hids. reflexivity. }
  case_bool_decide; reflexivity.
Qed.

Lemma formulaField_run (i : nat) (set_this : jsval -> t -> t)
    (get_this : t -> jsval) (o : Opts.t) (d : t) :
  (forall d, set_this (get_this d) d = d) ->
  formulaField i set_this {| opts := o; this := d |} =
    ({| opts := o;
        this :=
          set_this (if is_undefined (formula i o) then get_this d
                    else formula i o) d |}, Ok tt).
Proof.
  intros Hidt. unfold formulaField, formula, when, ret, assign_this.
  cbn [opts this].
  destruct (Opts.formulas o) as [l|]; cbn.
  - destruct (is_undefined (nth i l JUndefined)); cbn;
      [rewrite Hidt|]; reflexivity.
  - change (is_undefined JUndefined) with true. cbn iota.
    rewrite Hidt. reflexivity.
Qed.

End Blocks.

Section Run.
Context `{Builtins}.

Lemma seq_run {A B} (m : M A) (k : A -> M B) (st : frame) :
  seq m k st =
    match m st with
    | (s', Ok a) => k a s'
    | (s', Throw e) => (s', Throw e)
    end.
Proof. reflexivity. Qed.

Lemma forced_nested (text title show : jsval) :
  (if is_undefined title
   then if is_undefined text then show else JBool true
   else JBool true) = forced text title show.
Proof.
  unfold forced, defined.
  destruct (is_undefined title), (is_undefined text); reflexivity.
Qed.

Lemma flag_norm_undefined (v : jsval) :
  (if is_undefined v then JUndefined else flag_norm v) = flag_norm v.
Proof.
  unfold flag_norm. destruct (is_undefined v) eqn:E; [|reflexivity].
  unfold is_undefined, strict_eq in E.
  apply bool_decide_eq_true in E. congruence.
Qed.

Lemma value_or_undefined (v : jsval) :
  (if is_undefined v then JUndefined else v) = v.
Proof.
  destruct (is_undefined v) eqn:E; [|reflexivity].
  unfold is_undefined, strict_eq in E.
  apply bool_decide_eq_true in E. congruence.
Qed.

Lemma flag_norm_forced (text title show : jsval) :
  (if is_undefined (forced text title show)
   then if is_undefined title
        then if is_undefined text then JUndefined else JBool true
        else JBool true
   else flag_norm (forced text title show))
  = flag_norm (forced text title show).
Proof.
  unfold forced, defined.
  destruct (is_undefined title), (is_undefined text);
    try reflexivity.
  cbn [negb orb]. apply flag_norm_undefined.
Qed.

#[local] Arguments flag_ok : simpl never.
#[local] Arguments flag_norm : simpl never.
#[local] Arguments enum_ok : simpl never.
#[local] Arguments text_ok : simpl never.
#[local] Arguments forced : simpl never.
#[local] Arguments is_undefined : simpl never.
#[local] Arguments formula : simpl never.
#[local] Arguments String.append : simpl never.
#[local] Arguments join : simpl never.
#[local] Arguments enumField : simpl never.
#[local] Arguments booleanField : simpl never.
#[local] Arguments textField : simpl never.

Ltac laws :=
  first [ reflexivity | intros []; reflexivity
        | intros ? []; reflexivity ].

(** The constructor against its functional description. *)
Lemma constructor_run (o : Opts.t) :
  match constructor o with
  | (o', Ok d) => valid o = true /\ o' = opts_after o /\ d = instance o
  | (_, Throw _) => valid o = false
  end.
Proof.
  unfold constructor, constructor_body, valid.
  rewrite seq_run. unfold seq at 1, read at 1. cbn [opts this].
  unfold defined.
  destruct (is_undefined (Opts.sqref o)) eqn:Hsqref;
    [reflexivity|].
  unfold assign_this at 1. cbn [opts this negb andb].
  rewrite seq_run, formulaField_run with (get_this := formula1) by laws.
  rewrite seq_run, formulaField_run with (get_this := formula2) by laws.
  rewrite seq_run, booleanField_run with (get_this := allowBlank)
    by laws.
  cbn.
  destruct (flag_ok (Opts.allowBlank o)) eqn:H1; [|reflexivity].
  rewrite seq_run, enumField_run with (get_this := errorStyle) by laws.
  cbn.
  destruct (enum_ok errorStyle_enums (Opts.errorStyle o)) eqn:H2;
    [|reflexivity].
  rewrite seq_run,
    textField_run with (get_this := error) (show := Opts.showErrorMessage)
      (get_this_show := showErrorMessage) by laws.
  cbn.
  destruct (text_ok (Opts.error o)) eqn:H3; [|reflexivity].
  rewrite seq_run,
    textField_run with (get_this := errorTitle)
      (show := Opts.showErrorMessage)
      (get_this_show := showErrorMessage) by laws.
  cbn.
  destruct (text_ok (Opts.errorTitle o)) eqn:H4; [|reflexivity].
  rewrite seq_run, enumField_run with (get_this := imeMode) by laws.
  cbn.
  destruct (enum_ok imeMode_enums (Opts.imeMode o)) eqn:H5;
    [|reflexivity].
  rewrite seq_run, enumField_run with (get_this := operator) by laws.
  cbn.
  destruct (enum_ok operator_enums (Opts.operator o)) eqn:H6;
    [|reflexivity].
  rewrite seq_run,
    textField_run with (get_this := prompt)
      (show := Opts.showInputMessage)
      (get_this_show := showInputMessage) by laws.
  cbn.
  destruct (text_ok (Opts.prompt o)) eqn:H7; [|reflexivity].
  rewrite seq_run,
    textField_run with (get_this := promptTitle)
      (show := Opts.showInputMessage)
      (get_this_show := showInputMessage) by laws.
  cbn.
  destruct (text_ok (Opts.promptTitle o)) eqn:H8; [|reflexivity].
  rewrite seq_run, booleanField_run with (get_this := showDropDown)
    by laws.
  cbn.
  destruct (flag_ok (Opts.showDropDown o)) eqn:H9; [|reflexivity].
  rewrite seq_run, booleanField_run with (get_this := showErrorMessage)
    by laws.
  cbn.
  rewrite !(forced_nested (Opts.error o) (Opts.errorTitle o)
              (Opts.showErrorMessage o)).
  fold (effective_showErrorMessage o).
  destruct (flag_ok (effective_showErrorMessage o)) eqn:H10;
    [|reflexivity].
  rewrite seq_run, booleanField_run with (get_this := showInputMessage)
    by laws.
  cbn.
  rewrite !(forced_nested (Opts.prompt o) (Opts.promptTitle o)
              (Opts.showInputMessage o)).
  fold (effective_showInputMessage o).
  destruct (flag_ok (effective_showInputMessage o)) eqn:H11;
    [|reflexivity].
  rewrite enumField_run with (get_this := type) by laws.
  cbn.
  destruct (enum_ok type_enums (Opts.type o)) eqn:H12; [|reflexivity].
  cbn. split; [reflexivity|]. split.
  - destruct o; reflexivity.
  - unfold instance, effective_showErrorMessage,
      effective_showInputMessage.
    rewrite (flag_norm_forced (Opts.error o)),
      (flag_norm_forced (Opts.prompt o)),
      (flag_norm_undefined (Opts.allowBlank o)),
      (flag_norm_undefined (Opts.showDropDown o)),
      (value_or_undefined (Opts.type o)),
      (value_or_undefined (Opts.operator o)),
      (value_or_undefined (Opts.imeMode o)),
      (value_or_undefined (Opts.errorStyle o)),
      (value_or_undefined (Opts.error o)),
      (value_or_undefined (Opts.errorTitle o)),
      (value_or_undefined (Opts.prompt o)),
      (value_or_undefined (Opts.promptTitle o)),
      (value_or_undefined (formula 0 o)),
      (value_or_undefined (formula 1 o)).
    reflexivity.
Qed.

Lemma constructor_valid (o : Opts.t) :
  valid o = true ->
  constructor o = (opts_after o, Ok (instance o)).
Proof.
  intros Hv. pose proof (constructor_run o) as Hrun.
  destruct (constructor o) as [o' [d|e]].
  - destruct Hrun as (_ & -> & ->). reflexivity.
  - congruence.
Qed.

Lemma constructor_invalid (o : Opts.t) :
  valid o = false -> throws (constructor o).2.
Proof.
  intros Hv. pose proof (constructor_run o) as Hrun.
  destruct (constructor o) as [o' [d|e]]; cbn.
  - destruct Hrun as (Hrun & _). congruence.
  - exact I.
Qed.

Lemma constructor_throws_valid (o : Opts.t) :
  throws (constructor o).2 <-> valid o = false.
Proof.
  split; [|apply constructor_invalid].
  pose proof (constructor_run o) as Hrun.
  destruct (constructor o) as [o' [d|e]]; cbn; [tauto|auto].
Qed.

Lemma constructor_ok_inv (o o' : Opts.t) (d : t) :
  constructor o = (o', Ok d) ->
  valid o = true /\ o' = opts_after o /\ d = instance o.
Proof.
  intros Heq. pose proof (constructor_run o) as Hrun.
  rewrite Heq in Hrun. exact Hrun.
Qed.

End Run.

Section Reflection.
Context `{Builtins}.

Lemma is_undefined_true (v : jsval) :
  is_undefined v = true <-> v = JUndefined.
Proof. unfold is_undefined, strict_eq. apply bool_decide_eq_true. Qed.

Lemma is_undefined_false (v : jsval) :
  is_undefined v = false <-> v <> JUndefined.
Proof. unfold is_undefined, strict_eq. apply bool_decide_eq_false. Qed.

Lemma defined_false (v : jsval) : defined v = false <-> v = JUndefined.
Proof.
  unfold defined. rewrite negb_false_iff. apply is_undefined_true.
Qed.

Lemma enum_ok_false (enums : list jsval) (v : jsval) :
  enum_ok enums v = false <-> outside enums v.
Proof.
  unfold enum_ok, outside, indexOf.
  rewrite orb_false_iff, negb_false_iff, is_undefined_false.
  destruct (JSFacts.indexOf_from_spec enums v 0 ltac:(lia)) as [-> _].
  reflexivity.
Qed.

Lemma text_ok_false (v : jsval) : text_ok v = false <-> not_text v.
Proof.
  unfold text_ok, not_text.
  rewrite orb_false_iff, is_undefined_false, bool_decide_eq_false.
  reflexivity.
Qed.

Lemma flag_ok_false (v : jsval) :
  plain_flag v -> (flag_ok v = false <-> not_a_flag v).
Proof.
  unfold plain_flag, flag_ok, not_a_flag, Number_is.
  destruct v as [| |[|]|n|s]; cbn; intros Hp.
  - split; [discriminate|]. intros [Hu _]. contradiction.
  - destruct Hp as [?|[?|?]]; discriminate.
  - split; [discriminate|]. intros (_ & Ht & _). contradiction.
  - split; [discriminate|]. intros (_ & _ & Hf & _). contradiction.
  - unfold is_undefined, strict_eq.
    rewrite !orb_false_iff, !bool_decide_eq_false.
    split.
    + intros [[_ H1] H0]. repeat split; congruence.
    + intros (_ & _ & _ & H1 & H0). repeat split; congruence.
  - destruct Hp as [?|[?|?]]; discriminate.
Qed.

Lemma flag_ok_forced_false (text title show : jsval) :
  plain_flag show ->
  (flag_ok (forced text title show) = false <->
   text = JUndefined /\ title = JUndefined /\ not_a_flag show).
Proof.
  intros Hp. unfold forced, defined.
  destruct (is_undefined text) eqn:Et, (is_undefined title) eqn:El;
    cbn [negb orb].
  - apply is_undefined_true in Et, El. rewrite flag_ok_false by exact Hp.
    tauto.
  - apply is_undefined_false in El. split; [discriminate|tauto].
  - apply is_undefined_false in Et. split; [discriminate|tauto].
  - apply is_undefined_false in Et. split; [discriminate|tauto].
Qed.

Lemma valid_false_rejected (o : Opts.t) :
  plain_flags o -> (valid o = false <-> rejected o).
Proof.
  intros (Hab & Hsd & Hse & Hsi).
  unfold valid, rejected, bad_enum, bad_text,
    effective_showErrorMessage, effective_showInputMessage.
  rewrite !andb_false_iff, defined_false, !enum_ok_false,
    !text_ok_false, !flag_ok_forced_false, !flag_ok_false by assumption.
  tauto.
Qed.

Lemma flag_norm_true : flag_norm (JBool true) = JBool true.
Proof. reflexivity. Qed.

Lemma forced_defined (text title show : jsval) :
  text <> JUndefined \/ title <> JUndefined ->
  forced text title show = JBool true.
Proof.
  intros Hd. unfold forced, defined.
  destruct Hd as [Hd|Hd]; apply is_undefined_false in Hd; rewrite Hd;
    [reflexivity|].
  cbn [negb]. rewrite orb_true_r. reflexivity.
Qed.

End Reflection.

End DataValidationFacts.

(** ** Claims on the constructor of [DataValidation] *)

Module DataValidationClaims.

Import DataValidation DataValidationSpec DataValidationFacts.
Import Examples.

Section Claims.
Context `{Builtins}.

(** C4, as amended.  With flags that are absent, booleans or numbers,
    [new DataValidation(opts)] throws exactly when [sqref] is absent, or
    an enumerated field is outside its list, or a text field is not a
    string, or [allowBlank] or [showDropDown] is not [true], [false],
    [1] or [0], or [showErrorMessage] is none of these while neither
    [error] nor [errorTitle] is given, or [showInputMessage] is none of
    these while neither [prompt] nor [promptTitle] is given.
    [allowBlank: 2] throws; [allowBlank: 1] is accepted and the rule
    holds [true]. *)
Theorem constructor_throws_iff_rejected :
  (forall o : Opts.t,
     plain_flags o -> (throws (constructor o).2 <-> rejected o))
  /\ (forall o : Opts.t,
        Opts.allowBlank o = JNum 2 -> throws (constructor o).2)
  /\ (forall (o o' : Opts.t) (d : t),
        Opts.allowBlank o = JNum 1 ->
        constructor o = (o', Ok d) ->
        allowBlank d = JBool true).
Proof.
  split; [|split].
  - intros o Hplain.
    rewrite constructor_throws_valid.
    apply valid_false_rejected, Hplain.
  - intros o Hab. apply constructor_invalid.
    unfold valid. rewrite Hab.
    change (flag_ok (JNum 2)) with false.
    rewrite andb_false_r. reflexivity.
  - intros o o' d Hab Hrun.
    apply constructor_ok_inv in Hrun as (_ & _ & ->).
    cbn. rewrite Hab. reflexivity.
Qed.

(** C5.  When the constructor accepts the options, a rule built with
    [error] or [errorTitle] has [showErrorMessage === true], and one
    built with [prompt] or [promptTitle] has [showInputMessage === true],
    whatever the caller passed for these two flags. *)
Theorem text_forces_show_on_rule (o o' : Opts.t) (d : t) :
  constructor o = (o', Ok d) ->
  (Opts.error o <> JUndefined \/ Opts.errorTitle o <> JUndefined ->
   showErrorMessage d = JBool true)
  /\ (Opts.prompt o <> JUndefined \/ Opts.promptTitle o <> JUndefined ->
      showInputMessage d = JBool true).
Proof.
  intros Hrun. apply constructor_ok_inv in Hrun as (_ & _ & ->).
  split; intros Hd; cbn;
    unfold effective_showErrorMessage, effective_showInputMessage;
    rewrite forced_defined by exact Hd; reflexivity.
Qed.

(** C10.  The constructor writes to the object it was given: after a
    construction with [error] or [errorTitle], the caller's
    [opts.showErrorMessage] is [true], and after one with [prompt] or
    [promptTitle] the caller's [opts.showInputMessage] is [true], also
    when the caller had passed [false]. *)
Theorem text_forces_show_on_opts (o o' : Opts.t) (d : t) :
  constructor o = (o', Ok d) ->
  (Opts.error o <> JUndefined \/ Opts.errorTitle o <> JUndefined ->
   Opts.showErrorMessage o' = JBool true)
  /\ (Opts.prompt o <> JUndefined \/ Opts.promptTitle o <> JUndefined ->
      Opts.showInputMessage o' = JBool true).
Proof.
  intros Hrun. apply constructor_ok_inv in Hrun as (_ & -> & _).
  split; intros Hd; cbn;
    unfold effective_showErrorMessage, effective_showInputMessage;
    rewrite forced_defined by exact Hd; reflexivity.
Qed.

End Claims.

(** [{ sqref: 'A1', allowBlank: 2 }] is rejected under the rule of C4. *)
Lemma constructor_throws_iff_rejected_witness :
  let o := Opts.set_allowBlank (JNum 2) on_A1 in
  plain_flags o /\ rejected o
  /\ throws (constructor (H := Reference.builtins) o).2.
Proof.
  intros o.
  assert (Hplain : plain_flags o).
  { subst o. unfold plain_flags, plain_flag. cbn. tauto. }
  assert (Hrej : rejected o).
  { subst o. right. right. left. left. repeat split; discriminate. }
  split; [exact Hplain|]. split; [exact Hrej|].
  apply (proj1 (constructor_throws_iff_rejected (H := Reference.builtins))
           o Hplain).
  exact Hrej.
Defined.

(** C4 as stated fails on [{ sqref: 'A1', error: 'x', showErrorMessage: 2 }]:
    the flag is none of [true], [false], [1], [0], and the rule is
    built. *)
Lemma rejected_as_specified_counterexample :
  let o :=
    Opts.set_showErrorMessage (JNum 2) (Opts.set_error (JStr "x") on_A1) in
  ~ (throws (constructor (H := Reference.builtins) o).2
     <-> rejected_as_specified o).
Proof.
  intros o [_ Hback]. subst o.
  apply Hback.
  right. right. left. right. right. left.
  repeat split; discriminate.
Qed.

(** A flag given as [null] is accepted as [false], whatever the numeric
    value of strings. *)
Example allowBlank_null_accepted `{Builtins} :
  (constructor (Opts.set_allowBlank JNull on_A1)).2
  = Ok (set_allowBlank (JBool false) (set_sqref (JStr "A1") fresh)).
Proof. reflexivity. Qed.

(** [type: 'bogus'] is rejected, after [error] has already written
    [true] over the [false] of the caller. *)
Example opts_written_before_throw :
  (constructor (H := Reference.builtins) bad_type).2
    = Throw (TypeError
        "DataValidation type must be one of none, whole, decimal, list, date, time, textLength, custom")
  /\ Opts.showErrorMessage bad_type = JBool false
  /\ Opts.showErrorMessage (constructor (H := Reference.builtins) bad_type).1
     = JBool true.
Proof. repeat split; reflexivity. Qed.

Lemma text_forces_show_on_rule_witness :
  constructor (H := Reference.builtins) bad_input
    = (opts_after (H := Reference.builtins) bad_input,
       Ok (instance (H := Reference.builtins) bad_input))
  /\ Opts.error bad_input <> JUndefined
  /\ showErrorMessage (instance (H := Reference.builtins) bad_input)
     = JBool true.
Proof.
  split; [reflexivity|]. split; [discriminate|].
  apply (proj1 (text_forces_show_on_rule (H := Reference.builtins)
                  bad_input _ _ eq_refl)).
  left. discriminate.
Defined.

Lemma text_forces_show_on_opts_witness :
  constructor (H := Reference.builtins) bad_input
    = (opts_after (H := Reference.builtins) bad_input,
       Ok (instance (H := Reference.builtins) bad_input))
  /\ Opts.showErrorMessage bad_input = JBool false
  /\ Opts.showErrorMessage (opts_after (H := Reference.builtins) bad_input)
     = JBool true.
Proof.
  split; [reflexivity|]. split; [reflexivity|].
  apply (proj1 (text_forces_show_on_opts (H := Reference.builtins)
                  bad_input _ _ eq_refl)).
  left. discriminate.
Defined.

End DataValidationClaims.

(** ** Serialization of a [DataValidation] *)

Module DataValidationXml.

Import DataValidation.

Lemma elem_of_ele (c : Xml.call) (name : string) (x : Xml.builder) :
  c ∈ Xml.ele name x <-> c ∈ x \/ c = Xml.Ele name.
Proof. unfold Xml.ele. rewrite elem_of_app, list_elem_of_singleton. tauto. Qed.

Lemma elem_of_att (c : Xml.call) (name : string) (v : jsval)
    (x : Xml.builder) :
  c ∈ Xml.att name v x <-> c ∈ x \/ c = Xml.Att name v.
Proof. unfold Xml.att. rewrite elem_of_app, list_elem_of_singleton. tauto. Qed.

Lemma elem_of_text (c : Xml.call) (v : jsval) (x : Xml.builder) :
  c ∈ Xml.text v x <-> c ∈ x \/ c = Xml.Text v.
Proof. unfold Xml.text. rewrite elem_of_app, list_elem_of_singleton. tauto. Qed.

Lemma elem_of_up (c : Xml.call) (x : Xml.builder) :
  c ∈ Xml.up x <-> c ∈ x \/ c = Xml.Up.
Proof. unfold Xml.up. rewrite elem_of_app, list_elem_of_singleton. tauto. Qed.

Lemma elem_of_att_if (c : Xml.call) (b : bool) (name : string) (v : jsval)
    (x : Xml.builder) :
  c ∈ Xml.att_if b name v x <-> c ∈ x \/ (b = true /\ c = Xml.Att name v).
Proof.
  unfold Xml.att_if. destruct b; [rewrite elem_of_att|]; intuition congruence.
Qed.

Lemma elem_of_att_defined (c : Xml.call) (name : string) (v : jsval)
    (x : Xml.builder) :
  c ∈ att_defined name v x
  <-> c ∈ x \/ (v <> JUndefined /\ c = Xml.Att name v).
Proof.
  unfold att_defined. rewrite elem_of_att_if, negb_true_iff.
  rewrite DataValidationFacts.is_undefined_false. reflexivity.
Qed.

Section Serialization.
Context `{Utils}.

Lemma elem_of_att_boolToInt (c : Xml.call) (name : string) (v : jsval)
    (x x' : Xml.builder) :
  att_boolToInt name v x = Ok x' ->
  c ∈ x' <->
  c ∈ x \/ (exists i, v <> JUndefined /\ boolToInt v = Ok i
                      /\ c = Xml.Att name i).
Proof.
  unfold att_boolToInt.
  destruct (is_undefined v) eqn:Hu.
  - intros [= <-]. apply DataValidationFacts.is_undefined_true in Hu.
    split; [tauto|]. intros [?|(i & ? & _)]; [assumption|congruence].
  - apply DataValidationFacts.is_undefined_false in Hu.
    destruct (boolToInt v) as [i|e]; cbn; [|discriminate].
    intros [= <-]. rewrite elem_of_att. split.
    + intros [?| ->]; [tauto|]. right. exists i. auto.
    + intros [?|(j & _ & [= <-] & ->)]; tauto.
Qed.

(** The calls made for the two formulas. *)
Lemma elem_of_formulas (c : Xml.call) (d : t) (x x' : Xml.builder) :
  (if negb (is_undefined (formula1 d)) then
     let* f1 := cleanFormula (formula1 d) in
     let valEle := Xml.text f1 (Xml.ele "formula1" x) in
     if negb (is_undefined (formula2 d)) then
       let valEle := Xml.up valEle in
       let* f2 := cleanFormula (formula2 d) in
       Ok (Xml.text f2 (Xml.ele "formula2" valEle))
     else Ok valEle
   else Ok x) = Ok x' ->
  c ∈ x' <->
  c ∈ x
  \/ (formula1 d <> JUndefined
      /\ (c = Xml.Ele "formula1"
          \/ (exists f1, cleanFormula (formula1 d) = Ok f1
                         /\ c = Xml.Text f1)
          \/ (formula2 d <> JUndefined
              /\ (c = Xml.Up \/ c = Xml.Ele "formula2"
                  \/ exists f2, cleanFormula (formula2 d) = Ok f2
                                /\ c = Xml.Text f2)))).
Proof.
  destruct (is_undefined (formula1 d)) eqn:H1; cbn [negb].
  { intros [= <-]. apply DataValidationFacts.is_undefined_true in H1.
    split; [tauto|]. intros [?|[? _]]; [assumption|congruence]. }
  apply DataValidationFacts.is_undefined_false in H1.
  destruct (cleanFormula (formula1 d)) as [f1|e]; cbn; [|discriminate].
  destruct (is_undefined (formula2 d)) eqn:H2; cbn [negb].
  { intros [= <-]. apply DataValidationFacts.is_undefined_true in H2.
    rewrite elem_of_text, elem_of_ele. split.
    - intros [[?| ->]| ->]; [tauto|tauto|].
      right. split; [assumption|]. right. left. eauto.
    - intros [?|[_ [->|[(g & [= <-] & ->)|[? _]]]]];
        [tauto|tauto|tauto|congruence]. }
  apply DataValidationFacts.is_undefined_false in H2.
  destruct (cleanFormula (formula2 d)) as [f2|e]; cbn; [|discriminate].
  intros [= <-].
  rewrite elem_of_text, elem_of_ele, elem_of_up, elem_of_text,
    elem_of_ele.
  split.
  - intros [[[[[?| ->]| ->]| ->]| ->]| ->]; [tauto|tauto| | | |].
    + right. split; [assumption|]. right. left. eauto.
    + right. split; [assumption|]. right. right. tauto.
    + right. split; [assumption|]. right. right. tauto.
    + right. split; [assumption|]. right. right.
      split; [assumption|]. right. right. eauto.
  - intros [?|[_ [->|[(g & [= <-] & ->)
                      |[_ [->|[->|(g & [= <-] & ->)]]]]]]]; tauto.
Qed.

Lemma strict_eq_true (v w : jsval) : strict_eq v w = true <-> v = w.
Proof. unfold strict_eq. apply bool_decide_eq_true. Qed.

(** Every call of a serialization that succeeds, and no other. *)
Lemma addToXMLele_calls (d : t) (ele x : Xml.builder) :
  addToXMLele d ele = Ok x ->
  forall c, c ∈ x <-> c ∈ ele \/ DataValidationCalls.emitted d c.
Proof.
  unfold addToXMLele. cbv zeta. intros Hrun c.
  destruct (att_boolToInt "allowBlank" _ _) as [x1|] eqn:E1;
    cbn [bind] in Hrun; [|discriminate].
  destruct (att_boolToInt "showInputMessage" _ _) as [x2|] eqn:E2;
    cbn [bind] in Hrun; [|discriminate].
  destruct (att_boolToInt "showErrorMessage" _ _) as [x3|] eqn:E3;
    cbn [bind] in Hrun; [|discriminate].
  match type of Hrun with
  | bind ?m _ = _ => destruct m as [x4|] eqn:E4
  end; cbn [bind] in Hrun; [|discriminate].
  injection Hrun as <-.
  rewrite elem_of_up, (elem_of_formulas c d _ _ E4).
  rewrite !elem_of_att_defined.
  rewrite (elem_of_att_boolToInt c _ _ _ _ E3),
    (elem_of_att_boolToInt c _ _ _ _ E2).
  rewrite elem_of_att_if, strict_eq_true.
  rewrite (elem_of_att_boolToInt c _ _ _ _ E1).
  rewrite !elem_of_att_defined, elem_of_ele.
  unfold DataValidationCalls.emitted, DataValidationCalls.flag_att,
    DataValidationCalls.plain_att, DataValidationCalls.formula_text.
  tauto.
Qed.

End Serialization.

End DataValidationXml.

(** ** Claims on formula text and on the [showDropDown] attribute *)

Module DataValidationXmlClaims.

Import DataValidation DataValidationXml.

Lemma cleanFormula_number (n : Z) : cleanFormula (JNum n) = Ok (JNum n).
Proof. reflexivity. Qed.

Lemma cleanFormula_reference (s : string) :
  cleanFormula (JStr (String "="%char s)) = Ok (JStr (String "="%char s)).
Proof. unfold cleanFormula. cbn. destruct s; reflexivity. Qed.

Lemma cleanFormula_literal (s : string) :
  (forall s', s <> String "="%char s') ->
  cleanFormula (JStr s) = Ok (JStr (dquote +:+ s +:+ dquote)).
Proof.
  intros Hs. unfold cleanFormula. cbn [is_number typeof first_char bind].
  replace (is_number (JStr s)) with false by reflexivity.
  cbn [first_char bind].
  unfold strict_eq. case_bool_decide as Heq; [|reflexivity].
  exfalso. injection Heq as Heq.
  destruct s as [|c s]; [discriminate|].
  unfold substr in Heq. cbn in Heq.
  destruct s; injection Heq as ->; eapply Hs; reflexivity.
Qed.

(** C6.  [cleanFormula] returns a number as it is, a string that begins
    with [=] as it is, and any other string between two double quotes:
    [5] gives [5], [=SUM(A1:A2)] gives itself, [Option A] gives
    ["Option A"] with the quotes.  The text written under [formula1] and
    [formula2] is the formula so cleaned, and nothing else is written as
    text. *)
Theorem formula_text_is_cleaned :
  (forall n : Z, cleanFormula (JNum n) = Ok (JNum n))
  /\ (forall s : string,
        cleanFormula (JStr (String "="%char s))
        = Ok (JStr (String "="%char s)))
  /\ (forall s : string,
        (forall s', s <> String "="%char s') ->
        cleanFormula (JStr s) = Ok (JStr (dquote +:+ s +:+ dquote)))
  /\ cleanFormula (JNum 5) = Ok (JNum 5)
  /\ cleanFormula (JStr "=SUM(A1:A2)") = Ok (JStr "=SUM(A1:A2)")
  /\ cleanFormula (JStr "Option A")
     = Ok (JStr (String "034"%char ("Option A" +:+ String "034"%char
                                                     EmptyString)))
  /\ (forall (U : Utils) (d : t) (ele x : Xml.builder) (v : jsval),
        addToXMLele d ele = Ok x ->
        Xml.Text v ∈ x <->
        Xml.Text v ∈ ele
        \/ (formula1 d <> JUndefined
            /\ (cleanFormula (formula1 d) = Ok v
                \/ (formula2 d <> JUndefined
                    /\ cleanFormula (formula2 d) = Ok v)))).
Proof.
  split; [exact cleanFormula_number|].
  split; [exact cleanFormula_reference|].
  split; [exact cleanFormula_literal|].
  split; [reflexivity|]. split; [reflexivity|]. split; [reflexivity|].
  intros U d ele x v Hrun.
  rewrite (addToXMLele_calls d ele x Hrun).
  unfold DataValidationCalls.emitted, DataValidationCalls.flag_att,
    DataValidationCalls.plain_att, DataValidationCalls.formula_text.
  split.
  - intros [?|Hd]; [tauto|]. right.
    repeat (destruct Hd as [Hd|Hd]);
      try discriminate Hd;
      try (destruct Hd as (? & ? & ? & [=]));
      try (destruct Hd as (? & [=])).
    destruct Hd as (H1 & [Hd|[(w & Hw & [= <-])|(H2 & Hd)]]);
      [discriminate Hd|tauto|].
    destruct Hd as [Hd|[Hd|(w & Hw & [= <-])]];
      [discriminate Hd|discriminate Hd|tauto].
  - intros [?|(H1 & [Hv|(H2 & Hv)])]; [tauto| |];
      right; do 14 right; left; (split; [assumption|]).
    + right. left. eauto.
    + right. right. split; [assumption|]. right. right. eauto.
Qed.

(** C7.  A serialization that succeeds writes the [showDropDown] attribute
    exactly when the field of the rule is [false], and then with the value
    [1]; with [true] or [undefined] it writes none. *)
Theorem showDropDown_written_iff_false `{Utils} (d : t)
    (ele x : Xml.builder) (v : jsval) :
  addToXMLele d ele = Ok x ->
  Xml.Att "showDropDown" v ∈ x <->
  Xml.Att "showDropDown" v ∈ ele
  \/ (showDropDown d = JBool false /\ v = JNum 1).
Proof.
  intros Hrun. rewrite (addToXMLele_calls d ele x Hrun).
  unfold DataValidationCalls.emitted, DataValidationCalls.flag_att,
    DataValidationCalls.plain_att, DataValidationCalls.formula_text.
  split.
  - intros [?|Hd]; [tauto|]. right.
    repeat (destruct Hd as [Hd|Hd]);
      try discriminate Hd;
      try (destruct Hd as (? & ? & ? & [=]));
      try (destruct Hd as (? & [=]));
      try tauto.
    destruct Hd as (H1 & [Hd|[(w & Hw & [=])|(H2 & Hd)]]);
      [discriminate Hd|].
    destruct Hd as [Hd|[Hd|(w & Hw & [=])]]; discriminate Hd.
  - intros [?|[Hf ->]]; [tauto|]. right. do 6 right. left. tauto.
Qed.

(** The rule [{ sqref: 'A1', showDropDown: false, formulas: ['Option A'] }]
    as it is written. *)
Example dropdown_rule_calls :
  addToXMLele (H := Reference.utils) Examples.dropdown_rule [] =
    Ok [Xml.Ele "dataValidation"; Xml.Att "showDropDown" (JNum 1);
        Xml.Att "sqref" (JStr "A1"); Xml.Ele "formula1";
        Xml.Text (JStr (dquote +:+ "Option A" +:+ dquote)); Xml.Up].
Proof. reflexivity. Qed.

Lemma formula_text_is_cleaned_witness :
  (forall s', "Option A" <> String "="%char s')
  /\ cleanFormula (JStr "Option A")
     = Ok (JStr (dquote +:+ "Option A" +:+ dquote))
  /\ Xml.Text (JStr (dquote +:+ "Option A" +:+ dquote))
     ∈ [Xml.Ele "dataValidation"; Xml.Att "showDropDown" (JNum 1);
        Xml.Att "sqref" (JStr "A1"); Xml.Ele "formula1";
        Xml.Text (JStr (dquote +:+ "Option A" +:+ dquote)); Xml.Up].
Proof.
  assert (Hlit : forall s', "Option A" <> String "="%char s')
    by (intros s'; discriminate).
  split; [exact Hlit|].
  destruct formula_text_is_cleaned as (_ & _ & Hquote & _ & _ & _ & Htext).
  split; [apply Hquote, Hlit|].
  apply (proj2 (Htext Reference.utils Examples.dropdown_rule [] _ _
                  dropdown_rule_calls)).
  right. split; [discriminate|]. left. reflexivity.
Defined.

Lemma showDropDown_written_iff_false_witness :
  addToXMLele (H := Reference.utils) Examples.dropdown_rule [] =
    Ok [Xml.Ele "dataValidation"; Xml.Att "showDropDown" (JNum 1);
        Xml.Att "sqref" (JStr "A1"); Xml.Ele "formula1";
        Xml.Text (JStr (dquote +:+ "Option A" +:+ dquote)); Xml.Up]
  /\ Xml.Att "showDropDown" (JNum 1)
     ∈ [Xml.Ele "dataValidation"; Xml.Att "showDropDown" (JNum 1);
        Xml.Att "sqref" (JStr "A1"); Xml.Ele "formula1";
        Xml.Text (JStr (dquote +:+ "Option A" +:+ dquote)); Xml.Up].
Proof.
  split; [reflexivity|].
  apply (proj2 (showDropDown_written_iff_false (H := Reference.utils)
                  Examples.dropdown_rule [] _ (JNum 1)
                  dropdown_rule_calls)).
  right. split; reflexivity.
Defined.

End DataValidationXmlClaims.

(** ** The interning tables of the workbook *)

Module WorkbookFacts.
Section WorkbookFacts.
Context `{StyleClass}.

Import Workbook WorkbookSpec.

(** *** Shared strings *)

Lemma getStringIndex_present (val : jsval) (wb : t) :
  val ∈ sharedStrings wb ->
  getStringIndex val wb = (wb, indexOf (sharedStrings wb) val).
Proof.
  intros Hin. unfold getStringIndex.
  apply JSFacts.indexOf_present in Hin. rewrite Hin. reflexivity.
Qed.

Lemma getStringIndex_absent (val : jsval) (wb : t) :
  val ∉ sharedStrings wb ->
  getStringIndex val wb =
    ({| sharedStrings := sharedStrings wb ++ [val];
        styles := styles wb;
        stylesLookup := stylesLookup wb;
        definedNameCollection := definedNameCollection wb |},
     Z.of_nat (length (sharedStrings wb))).
Proof.
  intros Hnin. unfold getStringIndex.
  rewrite (proj2 (JSFacts.indexOf_absent _ _) Hnin). cbn.
  rewrite JSFacts.indexOf_app_new by exact Hnin. reflexivity.
Qed.

Lemma getStringIndex_strings (val : jsval) (wb : t) :
  exists extra,
    sharedStrings (getStringIndex val wb).1 = sharedStrings wb ++ extra
    /\ val ∈ sharedStrings (getStringIndex val wb).1.
Proof.
  destruct (decide (val ∈ sharedStrings wb)) as [Hin|Hnin].
  - rewrite getStringIndex_present by exact Hin. exists [].
    cbn. rewrite app_nil_r. auto.
  - rewrite getStringIndex_absent by exact Hnin. exists [val].
    cbn. split; [reflexivity|]. apply elem_of_app. right.
    apply list_elem_of_singleton. reflexivity.
Qed.

(** *** Styles *)

Lemma createStyle_hit (o : StyleOpts) (wb : t) (s : Style.t) :
  stylesLookup wb !! lookupKey o = Some s ->
  createStyle o wb = (wb, s).
Proof.
  intros Hs. unfold createStyle, Style.toKey, Style.new.
  cbn [Style.opts]. rewrite Hs. reflexivity.
Qed.

Lemma createStyle_miss (o : StyleOpts) (wb : t) :
  stylesLookup wb !! lookupKey o = None ->
  let s :=
    Style.set_ids_cellXfs (JNum (Z.of_nat (length (styles wb))))
      (Style.new o) in
  createStyle o wb =
    ({| sharedStrings := sharedStrings wb;
        styles := styles wb ++ [s];
        stylesLookup := <[lookupKey o := s]> (stylesLookup wb);
        definedNameCollection := definedNameCollection wb |}, s).
Proof.
  intros Hs. unfold createStyle, Style.toKey, Style.new.
  cbn [Style.opts]. rewrite Hs. reflexivity.
Qed.

(** After [createStyle], the style returned is filed under the key. *)
Lemma createStyle_filed (o : StyleOpts) (wb : t) :
  stylesLookup (createStyle o wb).1 !! lookupKey o
  = Some (createStyle o wb).2.
Proof.
  destruct (stylesLookup wb !! lookupKey o) as [s|] eqn:Hs.
  - rewrite (createStyle_hit o wb s Hs). exact Hs.
  - rewrite (createStyle_miss o wb Hs). cbn. apply lookup_insert_eq.
Qed.

(** *** Nothing that was registered moves *)

Lemma step_strings (wb : t) (c : op) :
  exists extra, sharedStrings (step wb c) = sharedStrings wb ++ extra.
Proof.
  destruct c as [o|val|entry]; cbn.
  - exists []. rewrite app_nil_r. unfold createStyle.
    destruct (stylesLookup wb !! _); reflexivity.
  - destruct (getStringIndex_strings val wb) as (extra & He & _).
    eauto.
  - exists []. rewrite app_nil_r. reflexivity.
Qed.

Lemma step_styles (wb : t) (c : op) :
  exists extra, styles (step wb c) = styles wb ++ extra.
Proof.
  destruct c as [o|val|entry]; cbn.
  - unfold createStyle.
    destruct (stylesLookup wb !! _); cbn; [exists []|eauto].
    rewrite app_nil_r. reflexivity.
  - exists []. rewrite app_nil_r. unfold getStringIndex.
    destruct (_ <? _); reflexivity.
  - exists []. rewrite app_nil_r. reflexivity.
Qed.

Lemma step_lookup (wb : t) (c : op) (k : string) (s : Style.t) :
  stylesLookup wb !! k = Some s -> stylesLookup (step wb c) !! k = Some s.
Proof.
  intros Hs. destruct c as [o|val|entry]; cbn.
  - destruct (stylesLookup wb !! lookupKey o) as [s'|] eqn:Ho.
    + rewrite (createStyle_hit o wb s' Ho). exact Hs.
    + rewrite (createStyle_miss o wb Ho). cbn.
      rewrite lookup_insert_ne; [exact Hs|congruence].
  - unfold getStringIndex. destruct (_ <? _); exact Hs.
  - exact Hs.
Qed.

Lemma run_strings (calls : list op) (wb : t) :
  exists extra, sharedStrings (run wb calls) = sharedStrings wb ++ extra.
Proof.
  revert wb. induction calls as [|c calls IH]; intros wb; cbn.
  - exists []. rewrite app_nil_r. reflexivity.
  - destruct (IH (step wb c)) as (e2 & He2).
    destruct (step_strings wb c) as (e1 & He1).
    exists (e1 ++ e2). unfold run in He2. rewrite He2, He1.
    rewrite app_assoc. reflexivity.
Qed.

Lemma run_styles (calls : list op) (wb : t) :
  exists extra, styles (run wb calls) = styles wb ++ extra.
Proof.
  revert wb. induction calls as [|c calls IH]; intros wb; cbn.
  - exists []. rewrite app_nil_r. reflexivity.
  - destruct (IH (step wb c)) as (e2 & He2).
    destruct (step_styles wb c) as (e1 & He1).
    exists (e1 ++ e2). unfold run in He2. rewrite He2, He1.
    rewrite app_assoc. reflexivity.
Qed.

Lemma run_lookup (calls : list op) (wb : t) (k : string) (s : Style.t) :
  stylesLookup wb !! k = Some s ->
  stylesLookup (run wb calls) !! k = Some s.
Proof.
  revert wb. induction calls as [|c calls IH]; intros wb Hs; cbn.
  - exact Hs.
  - apply IH, step_lookup, Hs.
Qed.

(** *** The two style tables stay in step *)

Lemma registry_ok_step (wb : t) (c : op) :
  registry_ok wb -> registry_ok (step wb c).
Proof.
  intros [Harr Hlook]. destruct c as [o|val|entry]; cbn.
  - destruct (stylesLookup wb !! lookupKey o) as [s|] eqn:Hs.
    { rewrite (createStyle_hit o wb s Hs). split; assumption. }
    rewrite (createStyle_miss o wb Hs). unfold registry_ok.
    cbn [fst stylesLookup styles]. split.
    + intros i s Hi. apply lookup_app_Some in Hi as [Hi|[Hlen Hi]].
      * destruct (Harr i s Hi) as [Hid Hk]. split; [exact Hid|].
        rewrite lookup_insert_ne; [exact Hk|].
        intros Heq. rewrite <- Heq in Hk. congruence.
      * apply list_lookup_singleton_Some in Hi as [Hi <-].
        cbn. split; [f_equal; lia|].
        unfold Style.toKey. cbn. apply lookup_insert_eq.
    + intros k s Hk.
      destruct (decide (lookupKey o = k)) as [<-|Hne].
      * rewrite lookup_insert_eq in Hk. injection Hk as <-.
        split; [reflexivity|].
        exists (length (styles wb)).
        rewrite lookup_app_r, Nat.sub_diag by lia. reflexivity.
      * rewrite lookup_insert_ne in Hk by exact Hne.
        destruct (Hlook k s Hk) as [-> (i & Hi)].
        split; [reflexivity|]. exists i.
        apply lookup_app_l_Some, Hi.
  - unfold getStringIndex. destruct (_ <? _); split; assumption.
  - split; assumption.
Qed.

Lemma registry_ok_reachable (wb : t) : reachable wb -> registry_ok wb.
Proof.
  intros (font & calls & ->). unfold run.
  assert (Hinit : registry_ok (constructor font)).
  { unfold constructor.
    change (registry_ok
              (step {| sharedStrings := []; styles := [];
                       stylesLookup := ∅; definedNameCollection := [] |}
                    (CreateStyle font))).
    apply registry_ok_step. split.
    - intros i s Hi. inversion Hi.
    - intros k s Hk. cbn in Hk. rewrite lookup_empty in Hk.
      discriminate. }
  revert Hinit. generalize (constructor font).
  induction calls as [|c calls IH]; intros wb Hok; cbn; [exact Hok|].
  apply IH, registry_ok_step, Hok.
Qed.

End WorkbookFacts.
End WorkbookFacts.

(** ** Claim on interning *)

Module WorkbookClaims.

Import Workbook WorkbookSpec WorkbookFacts.

(** C2.  Interning is idempotent and append-only.  A second
    [createStyle] with a structurally equal value returns the style the
    first returned, index included, and a second [getStringIndex] with the
    same value returns the same index, whatever calls were made in
    between.  A value structurally different from every registered style
    (a string that is not in the table) is appended and gets the next
    index, larger than every index given before.  No call moves or drops
    an entry, so no index is reused or compacted. *)
Theorem interning_idempotent_append_only `{StyleClass} :
  (forall (wb : t) (a b : StyleOpts) (calls : list op),
     structurally_equal a b ->
     createStyle b (run (createStyle a wb).1 calls)
     = (run (createStyle a wb).1 calls, (createStyle a wb).2))
  /\ (forall (wb : t) (val : jsval) (calls : list op),
        getStringIndex val (run (getStringIndex val wb).1 calls)
        = (run (getStringIndex val wb).1 calls, (getStringIndex val wb).2))
  /\ (forall (wb : t) (a : StyleOpts),
        reachable wb ->
        (forall s, s ∈ styles wb -> ~ structurally_equal (Style.opts s) a) ->
        styles (createStyle a wb).1 = styles wb ++ [(createStyle a wb).2]
        /\ Style.ids_cellXfs (createStyle a wb).2
           = JNum (Z.of_nat (length (styles wb)))
        /\ (forall (i : nat) (s : Style.t),
              styles wb !! i = Some s ->
              Style.ids_cellXfs s = JNum (Z.of_nat i)
              /\ (i < length (styles wb))%nat))
  /\ (forall (wb : t) (val : jsval),
        val ∉ sharedStrings wb ->
        sharedStrings (getStringIndex val wb).1 = sharedStrings wb ++ [val]
        /\ (getStringIndex val wb).2
           = Z.of_nat (length (sharedStrings wb))
        /\ (forall w, w ∈ sharedStrings wb ->
              0 <= indexOf (sharedStrings wb) w
                < (getStringIndex val wb).2))
  /\ (forall (wb : t) (calls : list op) (i : nat),
        (forall s, styles wb !! i = Some s ->
                   styles (run wb calls) !! i = Some s)
        /\ (forall v, sharedStrings wb !! i = Some v ->
                      sharedStrings (run wb calls) !! i = Some v)).
Proof.
  split; [|split; [|split; [|split]]].
  - intros wb a b calls Hab.
    apply createStyle_hit.
    apply lookupKey_canonical in Hab. rewrite <- Hab.
    apply run_lookup, createStyle_filed.
  - intros wb val calls.
    destruct (getStringIndex_strings val wb) as (e1 & He1 & Hin).
    destruct (run_strings calls (getStringIndex val wb).1) as (e2 & He2).
    assert (Hidx : (getStringIndex val wb).2
                   = indexOf (sharedStrings (getStringIndex val wb).1) val)
      by reflexivity.
    rewrite getStringIndex_present
      by (rewrite He2; apply elem_of_app; auto).
    rewrite He2, JSFacts.indexOf_app_present by exact Hin.
    rewrite Hidx. reflexivity.
  - intros wb a Hreach Hnew.
    apply registry_ok_reachable in Hreach as [Harr Hlook].
    assert (Hnone : stylesLookup wb !! lookupKey a = None).
    { destruct (stylesLookup wb !! lookupKey a) as [s|] eqn:Hs;
        [|reflexivity].
      exfalso.
      destruct (Hlook _ _ Hs) as [Hk (i & Hi)].
      apply (Hnew s); [eapply list_elem_of_lookup_2, Hi|].
      apply lookupKey_canonical. symmetry. exact Hk. }
    rewrite (createStyle_miss a wb Hnone). cbn [fst snd styles].
    split; [reflexivity|]. split; [reflexivity|].
    intros i s Hi. split; [apply (Harr i s Hi)|].
    apply lookup_lt_Some in Hi. exact Hi.
  - intros wb val Hnew.
    rewrite getStringIndex_absent by exact Hnew. cbn [fst snd sharedStrings].
    split; [reflexivity|]. split; [reflexivity|].
    intros w Hw. apply JSFacts.indexOf_bound, Hw.
  - intros wb calls i. split.
    + intros s Hs. destruct (run_styles calls wb) as (extra & ->).
      apply lookup_app_l_Some, Hs.
    + intros v Hv. destruct (run_strings calls wb) as (extra & ->).
      apply lookup_app_l_Some, Hv.
Qed.

(** The same two fields written in the two orders, a call for some other
    style in between: one style, one index. *)
Lemma interning_idempotent_append_only_witness :
  let a : @StyleOpts Reference.styles :=
    <["bold" := "true"]> (<["size" := "12"]> (∅ : gmap string string)) in
  let b : @StyleOpts Reference.styles :=
    <["size" := "12"]> (<["bold" := "true"]> (∅ : gmap string string)) in
  let wb :=
    Workbook.constructor (H := Reference.styles)
      (∅ : gmap string string) in
  let calls :=
    [CreateStyle (H := Reference.styles)
       ({["size" := "14"]} : gmap string string)] in
  structurally_equal (StyleClass := Reference.styles) a b
  /\ createStyle b (run (createStyle a wb).1 calls)
     = (run (createStyle a wb).1 calls, (createStyle a wb).2).
Proof.
  intros a b wb calls.
  assert (Hab : structurally_equal (StyleClass := Reference.styles) a b).
  { subst a b. cbn. apply (insert_insert_ne (M := gmap string)).
    discriminate. }
  split; [exact Hab|].
  apply (proj1 (interning_idempotent_append_only (H := Reference.styles))
           wb a b calls Hab).
Defined.

End WorkbookClaims.

(** ** The sheet-data stage *)

Module SheetDataFacts.
Section SheetDataFacts.
Context `{Utils} `{Collaborators} `{StyleClass}.

Import Builder.

Lemma processRows_for_app (l1 l2 : list Z) (st : sheetDataState) :
  processRows_for (l1 ++ l2) st =
    (let* st' := processRows_for l1 st in processRows_for l2 st').
Proof.
  revert st. induction l1 as [|k l1 IH]; intros st; cbn; [reflexivity|].
  destruct (processRow k st) as [st'|e]; cbn; [apply IH|reflexivity].
Qed.

(** The batches together are one pass over the keys. *)
Lemma processNextRows_linear (chunk : nat) (pending : list Z)
    (st : sheetDataState) :
  (0 < chunk)%nat ->
  processNextRows chunk pending st =
    (let* st' := processRows_for pending st in
     Ok (st'.1, Xml.up st'.2)).
Proof.
  intros Hchunk. funelim (processNextRows chunk pending st).
  - assert (Hnil : pending = []).
    { destruct chunk; [lia|]. destruct pending; [reflexivity|].
      discriminate. }
    subst pending. reflexivity.
  - clear Heqcall.
    replace (processRows_for pending st)
      with (processRows_for (take chunk pending ++ drop chunk pending) st)
      by (rewrite take_drop; reflexivity).
    rewrite processRows_for_app, Hsplice.
    destruct (processRows_for (key :: rest) st) as [st'|e];
      [|reflexivity].
    cbn [bind]. auto.
Qed.

(** *** What the stage writes into the worksheet *)

Lemma sort_insert_Permutation (compare : string -> string -> Z)
    (x : string) (l : list string) :
  sort_insert compare x l ≡ₚ x :: l.
Proof.
  induction l as [|y l IH]; cbn; [reflexivity|].
  destruct (compare x y <=? 0); [reflexivity|].
  rewrite IH. apply Permutation_swap.
Qed.

(** Sorting keeps the references and changes only their order. *)
Lemma sort_Permutation (compare : string -> string -> Z)
    (l : list string) :
  sort compare l ≡ₚ l.
Proof.
  unfold sort. induction l as [|x l IH]; cbn; [reflexivity|].
  rewrite sort_insert_Permutation, IH. reflexivity.
Qed.

Lemma set_rows_id (w : Worksheet.t) :
  Worksheet.set_rows (Worksheet.rows w) w = w.
Proof. destruct w; reflexivity. Qed.

Lemma processRow_frame (key : Z) (w w' : Worksheet.t)
    (ele ele' : Xml.builder) :
  processRow key (w, ele) = Ok (w', ele') ->
  w' = Worksheet.set_rows
         (alter SheetData.sorted_row key (Worksheet.rows w)) w.
Proof.
  unfold processRow.
  destruct (Worksheet.rows w !! key) as [thisRow|] eqn:Hrow;
    [|discriminate].
  cbv zeta. destruct (addCells _ _ _) as [rEle|]; cbn [bind];
    [|discriminate].
  intros Heq. injection Heq as Hw _. subst w'. f_equal.
  apply map_eq. intros k. rewrite lookup_alter, lookup_insert.
  destruct (decide (key = k)) as [->|Hne]; [|reflexivity].
  rewrite Hrow. reflexivity.
Qed.

Lemma processRows_for_frame (l : list Z) (w w' : Worksheet.t)
    (ele ele' : Xml.builder) :
  processRows_for l (w, ele) = Ok (w', ele') ->
  w' = Worksheet.set_rows
         (foldl (fun m k => alter SheetData.sorted_row k m)
            (Worksheet.rows w) l) w.
Proof.
  revert w ele.
  induction l as [|k l IH]; intros w ele; cbn [processRows_for foldl].
  - intros Heq. injection Heq as Hw _. subst w'. symmetry.
    apply set_rows_id.
  - destruct (processRow k (w, ele)) as [[w1 ele1]|] eqn:Hk;
      cbn [bind]; [|discriminate].
    intros Hrest. apply IH in Hrest. rewrite Hrest.
    apply processRow_frame in Hk. rewrite Hk. reflexivity.
Qed.

Lemma foldl_alter_lookup {A} (f : A -> A) (l : list Z) (m : gmap Z A)
    (k : Z) :
  NoDup l ->
  foldl (fun m k => alter f k m) m l !! k =
    if decide (k ∈ l) then f <$> m !! k else m !! k.
Proof.
  revert m. induction l as [|x l IH]; intros m Hnd; cbn.
  - destruct (decide (k ∈ [])) as [Hin|_]; [inversion Hin|reflexivity].
  - apply NoDup_cons in Hnd as [Hx Hnd]. rewrite (IH _ Hnd).
    rewrite lookup_alter.
    destruct (decide (k ∈ l)) as [Hin|Hnin].
    + destruct (decide (x = k)) as [->|Hne]; [contradiction|].
      rewrite decide_True by (apply elem_of_cons; auto). reflexivity.
    + destruct (decide (x = k)) as [->|Hne].
      * rewrite decide_True by (apply elem_of_cons; auto). reflexivity.
      * rewrite decide_False; [reflexivity|].
        intros Hin. apply elem_of_cons in Hin as [->|Hin]; tauto.
Qed.

Lemma rows_keys_spec (w : Worksheet.t) :
  NoDup (Worksheet.rows_keys w)
  /\ (forall k, k ∈ Worksheet.rows_keys w
                <-> is_Some (Worksheet.rows w !! k)).
Proof.
  unfold Worksheet.rows_keys. split.
  - rewrite merge_sort_Permutation. apply NoDup_elements.
  - intros k. rewrite merge_sort_Permutation, elem_of_elements.
    apply elem_of_dom.
Qed.

Lemma foldl_alter_all (w : Worksheet.t) :
  foldl (fun m k => alter SheetData.sorted_row k m) (Worksheet.rows w)
    (Worksheet.rows_keys w)
  = SheetData.sorted_row <$> Worksheet.rows w.
Proof.
  destruct (rows_keys_spec w) as [Hnd Hin].
  apply map_eq. intros k.
  rewrite (foldl_alter_lookup _ _ _ _ Hnd), lookup_fmap.
  destruct (decide (k ∈ Worksheet.rows_keys w)) as [Hk|Hk];
    [reflexivity|].
  destruct (Worksheet.rows w !! k) eqn:Hrow; [|reflexivity].
  exfalso. apply Hk, Hin. eauto.
Qed.

(** The stage sorts the cell references of every row and leaves the
    rest of the worksheet, and the workbook, as they were. *)
Lemma addSheetData_frame (p p' : promiseObj) :
  _addSheetData p = Ok p' ->
  ws p' = Worksheet.set_rows
            (SheetData.sorted_row <$> Worksheet.rows (ws p)) (ws p)
  /\ wb p' = wb p.
Proof.
  unfold _addSheetData. cbv zeta.
  rewrite processNextRows_linear by lia.
  destruct (processRows_for _ _) as [[w1 ele1]|] eqn:Hfor;
    cbn [bind]; [|discriminate].
  intros [= <-]. cbn. split; [|reflexivity].
  apply processRows_for_frame in Hfor. rewrite Hfor.
  rewrite foldl_alter_all. reflexivity.
Qed.

End SheetDataFacts.
End SheetDataFacts.

(** ** The auto-filter stage *)

Module AutoFilterFacts.
Section AutoFilterFacts.
Context `{Utils} `{Collaborators} `{StyleClass}.

Import Builder Worksheet.

(** The scan stops at the first row number, from [curRow] on, that has
    no row. *)
Lemma firstEmptyRow_spec (m : gmap Z Row.t) (curRow : Z) :
  curRow <= firstEmptyRow m curRow
  /\ m !! firstEmptyRow m curRow = None
  /\ (forall r, curRow <= r < firstEmptyRow m curRow -> is_Some (m !! r)).
Proof.
  funelim (firstEmptyRow m curRow).
  - match goal with
    | IH : _ /\ _ /\ _ |- _ => destruct IH as (Hle & Hnone & Hall)
    end.
    split; [lia|]. split; [exact Hnone|].
    intros r Hr. destruct (decide (r = curRow)) as [->|Hne].
    + rewrite Hrow. eauto.
    + apply Hall. lia.
  - split; [lia|]. split; [assumption|]. intros r Hr. lia.
Qed.

Lemma firstEmptyRow_unique (m : gmap Z Row.t) (curRow f : Z) :
  curRow <= f -> m !! f = None ->
  (forall r, curRow <= r < f -> is_Some (m !! r)) ->
  firstEmptyRow m curRow = f.
Proof.
  intros Hle Hnone Hall.
  destruct (firstEmptyRow_spec m curRow) as (Hle' & Hnone' & Hall').
  destruct (Z.lt_trichotomy (firstEmptyRow m curRow) f) as [Hlt|[Heq|Hgt]].
  - destruct (Hall (firstEmptyRow m curRow)) as [x Hx]; [lia|].
    congruence.
  - exact Heq.
  - destruct (Hall' f) as [x Hx]; [lia|]. congruence.
Qed.

Lemma firstEmptyRow_absent (m : gmap Z Row.t) (curRow : Z) :
  m !! curRow = None -> firstEmptyRow m curRow = curRow.
Proof.
  intros Hnone. apply firstEmptyRow_unique; [lia|exact Hnone|].
  intros r Hr. lia.
Qed.

(** The scan looks at no more row numbers than there are rows, plus
    one. *)
Lemma firstEmptyRow_bound (m : gmap Z Row.t) (curRow : Z) :
  firstEmptyRow m curRow <= curRow + Z.of_nat (size m).
Proof.
  destruct (firstEmptyRow_spec m curRow) as (Hle & _ & Hall).
  set (f := firstEmptyRow m curRow) in *.
  assert (Hsub : (list_to_set (seqZ curRow (f - curRow)) : gset Z)
                 ⊆ dom m).
  { intros r Hr. apply elem_of_list_to_set, elem_of_seqZ in Hr.
    apply elem_of_dom, Hall. lia. }
  apply subseteq_size in Hsub.
  rewrite size_list_to_set in Hsub by apply NoDup_seqZ.
  rewrite length_seqZ, size_dom in Hsub. lia.
Qed.

Lemma numberOrNull_number (v : jsval) :
  is_number v = true -> numberOrNull v = v.
Proof. unfold numberOrNull. intros ->. reflexivity. Qed.

Lemma numberOrNull_other (v : jsval) :
  is_number v = false -> numberOrNull v = JNull.
Proof. unfold numberOrNull. intros ->. reflexivity. Qed.

Lemma is_number_numberOrNull (v : jsval) :
  is_number (numberOrNull v) = is_number v.
Proof.
  unfold numberOrNull. destruct (is_number v) eqn:E; [exact E|].
  reflexivity.
Qed.

(** The stage on a configured filter, step by step: the end row, then
    the columns, then the attribute and the defined name. *)
Lemma addAutoFilter_run (p : promiseObj) (start : Z) :
  let o := autoFilter (opts (ws p)) in
  let er :=
    if is_number (endRow o) then endRow o
    else JNum (firstEmptyRow (rows (ws p)) start - 1) in
  startRow o = JNum start ->
  _addAutoFilter p =
    if is_number (startCol o) && is_number (endCol o) then
      Ok {| ws :=
              set_autoFilter
                (AutoFilterSpec.resolved o start (startCol o) (endCol o)
                   er) (ws p);
            wb :=
              Workbook.set_definedNameCollection
                (Workbook.definedNameCollection (wb p)
                   ++ [AutoFilterSpec.filter_database (ws p) (startCol o)
                         start (endCol o) er]) (wb p);
            xml :=
              xml p
                ++ [Xml.Ele "autoFilter";
                    Xml.Att "ref"
                      (JStr (AutoFilterSpec.range_ref (startCol o) start
                               (endCol o) er));
                    Xml.Up] |}
    else
      match rows (ws p) !! start with
      | Some row =>
          Ok {| ws :=
                  set_autoFilter
                    (AutoFilterSpec.resolved o start (firstColumn row)
                       (lastColumn row) er) (ws p);
                wb :=
                  Workbook.set_definedNameCollection
                    (Workbook.definedNameCollection (wb p)
                       ++ [AutoFilterSpec.filter_database (ws p)
                             (firstColumn row) start (lastColumn row) er])
                    (wb p);
                xml :=
                  xml p
                    ++ [Xml.Ele "autoFilter";
                        Xml.Att "ref"
                          (JStr (AutoFilterSpec.range_ref
                                   (firstColumn row) start
                                   (lastColumn row) er));
                        Xml.Up] |}
      | None =>
          Throw (TypeError
            "Cannot read property 'firstColumn' of undefined")
      end.
Proof.
  intros o er Hstart. unfold _addAutoFilter. fold o. rewrite Hstart.
  cbn [endRow startCol endCol set_startCol set_endCol set_endRow
       startRow].
  assert (Her :
    (if negb (is_number (endRow o)) then
       set_endRow (JNum (firstEmptyRow (rows (ws p)) start - 1))
         (set_endCol (numberOrNull (endCol o))
            (set_startCol (numberOrNull (startCol o)) o))
     else set_endCol (numberOrNull (endCol o))
            (set_startCol (numberOrNull (startCol o)) o))
    = {| startRow := JNum start; endRow := er;
         startCol := numberOrNull (startCol o);
         endCol := numberOrNull (endCol o); ref := ref o |}).
  { subst er. unfold set_endRow, set_endCol, set_startCol.
    cbn [endRow startCol endCol startRow ref]. rewrite Hstart.
    destruct (is_number (endRow o)); cbn [negb]; [|reflexivity].
    f_equal. }
  rewrite Her. clear Her.
  cbn [endRow startCol endCol startRow ref].
  rewrite !is_number_numberOrNull.
  destruct (is_number (startCol o)) eqn:Hsc;
    destruct (is_number (endCol o)) eqn:Hec; cbn [negb orb andb bind].
  - rewrite (numberOrNull_number _ Hsc), (numberOrNull_number _ Hec).
    unfold Xml.up, Xml.att, Xml.ele. rewrite <- !app_assoc.
    reflexivity.
  - destruct (rows (ws p) !! start) as [row|]; [|reflexivity].
    cbn [bind]. unfold Xml.up, Xml.att, Xml.ele. rewrite <- !app_assoc.
    reflexivity.
  - destruct (rows (ws p) !! start) as [row|]; [|reflexivity].
    cbn [bind]. unfold Xml.up, Xml.att, Xml.ele. rewrite <- !app_assoc.
    reflexivity.
  - destruct (rows (ws p) !! start) as [row|]; [|reflexivity].
    cbn [bind]. unfold Xml.up, Xml.att, Xml.ele. rewrite <- !app_assoc.
    reflexivity.
Qed.

End AutoFilterFacts.
End AutoFilterFacts.

(** ** The pipeline as a whole *)

Module PipelineFacts.
Section PipelineFacts.
Context `{Utils} `{Collaborators} `{StyleClass}.

Import Builder PipelineSpec.

Ltac read_only_step Hrun :=
  lazymatch type of Hrun with
  | Ok _ = Ok _ => injection Hrun as <-; split; reflexivity
  | Throw _ = Ok _ => discriminate Hrun
  | bind ?m _ = _ =>
      destruct m eqn:?; cbn [bind] in Hrun; [|discriminate Hrun]
  | (if ?c then _ else _) = _ => destruct c
  | match ?x with _ => _ end = _ => destruct x
  end.

Ltac read_only_tac :=
  let Hrun := fresh "Hrun" in
  intros ? ? Hrun; cbv zeta in Hrun; repeat read_only_step Hrun.

Lemma addSheetPr_read_only : read_only _addSheetPr.
Proof. unfold read_only, _addSheetPr. read_only_tac. Qed.

Lemma addDimension_read_only : read_only _addDimension.
Proof. unfold read_only, _addDimension. read_only_tac. Qed.

Lemma addSheetViews_read_only : read_only _addSheetViews.
Proof. unfold read_only, _addSheetViews. read_only_tac. Qed.

Lemma addSheetFormatPr_read_only : read_only _addSheetFormatPr.
Proof. unfold read_only, _addSheetFormatPr. read_only_tac. Qed.

Lemma addCols_read_only : read_only _addCols.
Proof. unfold read_only, _addCols. read_only_tac. Qed.

Lemma addMergeCells_read_only : read_only _addMergeCells.
Proof. unfold read_only, _addMergeCells. read_only_tac. Qed.

Lemma addConditionalFormatting_read_only :
  read_only _addConditionalFormatting.
Proof. unfold read_only, _addConditionalFormatting. read_only_tac. Qed.

Lemma addDataValidations_read_only : read_only _addDataValidations.
Proof. unfold read_only, _addDataValidations. read_only_tac. Qed.

Lemma addHyperlinks_read_only : read_only _addHyperlinks.
Proof. unfold read_only, _addHyperlinks. read_only_tac. Qed.

Lemma addPrintOptions_read_only : read_only _addPrintOptions.
Proof. unfold read_only, _addPrintOptions. read_only_tac. Qed.

Lemma addPageMargins_read_only : read_only _addPageMargins.
Proof. unfold read_only, _addPageMargins. read_only_tac. Qed.

Lemma addPageSetup_read_only : read_only _addPageSetup.
Proof. unfold read_only, _addPageSetup. read_only_tac. Qed.

Lemma addHeaderFooter_read_only : read_only _addHeaderFooter.
Proof. unfold read_only, _addHeaderFooter. read_only_tac. Qed.

Lemma addDrawing_read_only : read_only _addDrawing.
Proof. unfold read_only, _addDrawing. read_only_tac. Qed.

Lemma set_sheetProtection_id (w : Worksheet.t) :
  Worksheet.set_sheetProtection
    (Worksheet.sheetProtection (Worksheet.opts w)) w = w.
Proof. destruct w as [[] ]; reflexivity. Qed.


Lemma set_definedNameCollection_id (b : Workbook.t) :
  Workbook.set_definedNameCollection
    (Workbook.definedNameCollection b) b = b.
Proof. destruct b; reflexivity. Qed.

(** The protection stage writes the defaults and nothing else. *)
Lemma addSheetProtection_frame (p p' : promiseObj) :
  _addSheetProtection p = Ok p' ->
  ws p' = Worksheet.set_sheetProtection
            (protection_defaults
               (Worksheet.sheetProtection (Worksheet.opts (ws p))))
            (ws p)
  /\ wb p' = wb p.
Proof.
  unfold _addSheetProtection, protection_defaults. cbv zeta.
  destruct (any_non_null _).
  - destruct (forEach_protection _ _ _); cbn [bind]; [|discriminate].
    intros [= <-]. split; reflexivity.
  - intros [= <-]. rewrite set_sheetProtection_id. split; reflexivity.
Qed.

(** The filter stage writes the resolved bounds and appends one defined
    name, or does nothing. *)
Lemma addAutoFilter_frame (p p' : promiseObj) :
  _addAutoFilter p = Ok p' ->
  let o := Worksheet.autoFilter (Worksheet.opts (ws p)) in
  (ws p' = ws p /\ wb p' = wb p)
  \/ (exists start sc ec er,
        Worksheet.startRow o = JNum start
        /\ ws p' = Worksheet.set_autoFilter
                     (AutoFilterSpec.resolved o start sc ec er) (ws p)
        /\ wb p' = Workbook.set_definedNameCollection
                     (Workbook.definedNameCollection (wb p)
                        ++ [AutoFilterSpec.filter_database (ws p) sc
                              start ec er]) (wb p)).
Proof.
  intros Hrun o.
  destruct (Worksheet.startRow o) as [| | |start|] eqn:Hstart;
    try (left; unfold _addAutoFilter in Hrun; fold o in Hrun;
         rewrite Hstart in Hrun; injection Hrun as <-;
         split; reflexivity).
  right. rewrite (AutoFilterFacts.addAutoFilter_run p start Hstart)
    in Hrun.
  fold o in Hrun.
  destruct (_ && _).
  - injection Hrun as <-. do 4 eexists. split; [reflexivity|].
    split; reflexivity.
  - destruct (Worksheet.rows (ws p) !! start) as [row|];
      [|discriminate].
    injection Hrun as <-. do 4 eexists. split; [reflexivity|].
    split; reflexivity.
Qed.

Lemma get_set_ne (k k' : string) (v : jsval) (o : object) :
  k <> k' -> get k' (set k v o) = get k' o.
Proof.
  intros Hne. induction o as [|[k0 v0] o IH]; cbn.
  - destruct (String.eqb_spec k k'); [contradiction|reflexivity].
  - destruct (String.eqb_spec k0 k) as [->|Hk0]; cbn.
    + destruct (String.eqb_spec k k'); [contradiction|reflexivity].
    + destruct (String.eqb_spec k0 k'); [reflexivity|exact IH].
Qed.

(** The defaults touch the three fields [sheet], [objects] and
    [scenarios] only. *)
Lemma protection_defaults_other (o : object) (k : string) :
  k <> "sheet" -> k <> "objects" -> k <> "scenarios" ->
  get k (protection_defaults o) = get k o.
Proof.
  intros Hsheet Hobjects Hscenarios.
  unfold protection_defaults, default_true.
  destruct (any_non_null o); [|reflexivity].
  rewrite !get_set_ne by congruence. reflexivity.
Qed.

(** [sheetXML]: what it leaves in the worksheet and in the workbook. *)
Lemma sheetXML_frame (w : Worksheet.t) (b : Workbook.t)
    (p : promiseObj) :
  sheetXML w b = Ok p ->
  let o := Worksheet.autoFilter (Worksheet.opts w) in
  (ws p = written_back w o /\ wb p = b)
  \/ (exists start sc ec er,
        Worksheet.startRow o = JNum start
        /\ ws p = written_back w (AutoFilterSpec.resolved o start sc ec er)
        /\ wb p = Workbook.set_definedNameCollection
                    (Workbook.definedNameCollection b
                       ++ [AutoFilterSpec.filter_database w sc start ec
                             er]) b).
Proof.
  unfold sheetXML. cbv zeta.
  set (p0 := {| ws := w; wb := b; xml := _ |}).
  destruct (_addSheetPr p0) as [p1|] eqn:E1; cbn [bind]; [|discriminate].
  destruct (_addDimension p1) as [p2|] eqn:E2; cbn [bind];
    [|discriminate].
  destruct (_addSheetViews p2) as [p3|] eqn:E3; cbn [bind];
    [|discriminate].
  destruct (_addSheetFormatPr p3) as [p4|] eqn:E4; cbn [bind];
    [|discriminate].
  destruct (_addCols p4) as [p5|] eqn:E5; cbn [bind]; [|discriminate].
  destruct (_addSheetData p5) as [p6|] eqn:E6; cbn [bind];
    [|discriminate].
  destruct (_addSheetProtection p6) as [p7|] eqn:E7; cbn [bind];
    [|discriminate].
  destruct (_addAutoFilter p7) as [p8|] eqn:E8; cbn [bind];
    [|discriminate].
  destruct (_addMergeCells p8) as [p9|] eqn:E9; cbn [bind];
    [|discriminate].
  destruct (_addConditionalFormatting p9) as [p10|] eqn:E10; cbn [bind];
    [|discriminate].
  destruct (_addDataValidations p10) as [p11|] eqn:E11; cbn [bind];
    [|discriminate].
  destruct (_addHyperlinks p11) as [p12|] eqn:E12; cbn [bind];
    [|discriminate].
  destruct (_addPrintOptions p12) as [p13|] eqn:E13; cbn [bind];
    [|discriminate].
  destruct (_addPageMargins p13) as [p14|] eqn:E14; cbn [bind];
    [|discriminate].
  destruct (_addPageSetup p14) as [p15|] eqn:E15; cbn [bind];
    [|discriminate].
  destruct (_addHeaderFooter p15) as [p16|] eqn:E16; cbn [bind];
    [|discriminate].
  destruct (_addDrawing p16) as [p17|] eqn:E17; cbn [bind];
    [|discriminate].
  intros [= <-]. cbn [ws wb with_xml].
  apply addSheetPr_read_only in E1 as [W1 B1].
  apply addDimension_read_only in E2 as [W2 B2].
  apply addSheetViews_read_only in E3 as [W3 B3].
  apply addSheetFormatPr_read_only in E4 as [W4 B4].
  apply addCols_read_only in E5 as [W5 B5].
  apply SheetDataFacts.addSheetData_frame in E6 as [W6 B6].
  apply addSheetProtection_frame in E7 as [W7 B7].
  apply addAutoFilter_frame in E8.
  apply addMergeCells_read_only in E9 as [W9 B9].
  apply addConditionalFormatting_read_only in E10 as [W10 B10].
  apply addDataValidations_read_only in E11 as [W11 B11].
  apply addHyperlinks_read_only in E12 as [W12 B12].
  apply addPrintOptions_read_only in E13 as [W13 B13].
  apply addPageMargins_read_only in E14 as [W14 B14].
  apply addPageSetup_read_only in E15 as [W15 B15].
  apply addHeaderFooter_read_only in E16 as [W16 B16].
  apply addDrawing_read_only in E17 as [W17 B17].
  rewrite W17, W16, W15, W14, W13, W12, W11, W10, W9.
  rewrite B17, B16, B15, B14, B13, B12, B11, B10, B9.
  assert (Hw5 : ws p5 = w) by (rewrite W5, W4, W3, W2, W1; reflexivity).
  assert (Hb7 : wb p7 = b)
    by (rewrite B7, B6, B5, B4, B3, B2, B1; reflexivity).
  rewrite Hw5 in W6. rewrite W6 in W7. clear W1 W2 W3 W4 W5.
  cbv zeta in E8. rewrite W7, Hb7 in E8.
  destruct E8 as [[W8 B8]|(start & sc & ec & er & Hstart & W8 & B8)].
  - left. rewrite W8, B8. split; [|reflexivity].
    unfold written_back. reflexivity.
  - right. exists start, sc, ec, er. split; [exact Hstart|].
    rewrite W8, B8. split; reflexivity.
Qed.





End PipelineFacts.
End PipelineFacts.

(** ** Claims on the worksheet pipeline *)

Module WorksheetClaims.

Import Builder Worksheet PipelineSpec Examples.

Section Claims.
Context `{Utils} `{Collaborators} `{StyleClass}.

(** C3.  The sheet-data stage, which takes the rows 500 at a time,
    leaves the same document and the same worksheet as one traversal of
    all the rows in order, and so does the stage with any batch size of
    at least one row. *)
Theorem batching_preserves_output :
  (forall p : promiseObj, _addSheetData p = SheetData.unchunked p)
  /\ (forall (chunk : nat) (p : promiseObj),
        (0 < chunk)%nat ->
        SheetData.chunked chunk p = SheetData.unchunked p).
Proof.
  assert (Hall : forall (chunk : nat) (p : promiseObj),
            (0 < chunk)%nat ->
            SheetData.chunked chunk p = SheetData.unchunked p).
  { intros chunk p Hchunk. unfold SheetData.chunked, SheetData.unchunked.
    cbv zeta. rewrite SheetDataFacts.processNextRows_linear by exact Hchunk.
    destruct (processRows_for _ _) as [st|e]; reflexivity. }
  split; [|exact Hall].
  intros p. apply (Hall 500%nat p). lia.
Qed.

(** C1.  With [autoFilter.startRow] set to [start], and a row at
    [start] or both columns given, the stage succeeds and:
    an end row that is not given is one less than the first row number
    from [start] on that has no row (rows 5, 6, 7 and no row 8 give 7);
    columns that are not both given are the first and last column of the
    row at [start]; the [ref] attribute is the range so resolved; one
    defined name [_xlnm._FilterDatabase], hidden, local to the sheet,
    with the absolute range as formula, is appended to the defined names
    of the workbook. *)
Theorem autoFilter_resolves_range (p : promiseObj) (start : Z) :
  let o := autoFilter (opts (ws p)) in
  startRow o = JNum start ->
  is_Some (rows (ws p) !! start)
  \/ (is_number (startCol o) = true /\ is_number (endCol o) = true) ->
  exists sc ec er : jsval,
    (is_number (endRow o) = true -> er = endRow o)
    /\ (is_number (endRow o) = false ->
        exists f : Z,
          er = JNum (f - 1) /\ start <= f /\ rows (ws p) !! f = None
          /\ (forall r, start <= r < f -> is_Some (rows (ws p) !! r)))
    /\ (is_number (startCol o) = true /\ is_number (endCol o) = true ->
        sc = startCol o /\ ec = endCol o)
    /\ (is_number (startCol o) = false \/ is_number (endCol o) = false ->
        exists row : Row.t,
          rows (ws p) !! start = Some row
          /\ sc = firstColumn row /\ ec = lastColumn row)
    /\ _addAutoFilter p =
         Ok {| ws :=
                 set_autoFilter
                   (AutoFilterSpec.resolved o start sc ec er) (ws p);
               wb :=
                 Workbook.set_definedNameCollection
                   (Workbook.definedNameCollection (wb p)
                      ++ [AutoFilterSpec.filter_database (ws p) sc start
                            ec er]) (wb p);
               xml :=
                 xml p
                   ++ [Xml.Ele "autoFilter";
                       Xml.Att "ref"
                         (JStr (AutoFilterSpec.range_ref sc start ec er));
                       Xml.Up] |}
    /\ (forall m : gmap Z Row.t,
          is_Some (m !! 5) -> is_Some (m !! 6) -> is_Some (m !! 7) ->
          m !! 8 = None -> firstEmptyRow m 5 - 1 = 7).
Proof.
  intros o Hstart Hres.
  pose proof (AutoFilterFacts.addAutoFilter_run p start Hstart) as Hrun.
  cbv zeta in Hrun. fold o in Hrun.
  set (er := if is_number (endRow o) then endRow o
             else JNum (firstEmptyRow (rows (ws p)) start - 1)) in *.
  assert (Her1 : is_number (endRow o) = true -> er = endRow o).
  { intros Hn. subst er. rewrite Hn. reflexivity. }
  assert (Her2 : is_number (endRow o) = false ->
            exists f : Z,
              er = JNum (f - 1) /\ start <= f /\ rows (ws p) !! f = None
              /\ (forall r, start <= r < f -> is_Some (rows (ws p) !! r))).
  { intros Hn. subst er. rewrite Hn.
    exists (firstEmptyRow (rows (ws p)) start).
    split; [reflexivity|]. apply AutoFilterFacts.firstEmptyRow_spec. }
  assert (Hex : forall m : gmap Z Row.t,
            is_Some (m !! 5) -> is_Some (m !! 6) -> is_Some (m !! 7) ->
            m !! 8 = None -> firstEmptyRow m 5 - 1 = 7).
  { intros m H5 H6 H7 H8.
    rewrite (AutoFilterFacts.firstEmptyRow_unique m 5 8); [lia|lia|exact H8|].
    intros r Hr.
    assert (Hcases : r = 5 \/ r = 6 \/ r = 7) by lia.
    destruct Hcases as [-> | [-> | ->]]; assumption. }
  destruct (is_number (startCol o)) eqn:Hsc;
    destruct (is_number (endCol o)) eqn:Hec; cbn [andb] in Hrun.
  - exists (startCol o), (endCol o), er.
    repeat (split; [first [exact Her1|exact Her2|tauto]|]).
    split; [intros [?|?]; discriminate|]. split; [exact Hrun|exact Hex].
  - destruct Hres as [[row Hrow]|[_ ?]]; [|discriminate].
    rewrite Hrow in Hrun.
    exists (firstColumn row), (lastColumn row), er.
    split; [exact Her1|]. split; [exact Her2|].
    split; [intros [_ ?]; discriminate|].
    split; [intros _; exists row; tauto|]. split; [exact Hrun|exact Hex].
  - destruct Hres as [[row Hrow]|[? _]]; [|discriminate].
    rewrite Hrow in Hrun.
    exists (firstColumn row), (lastColumn row), er.
    split; [exact Her1|]. split; [exact Her2|].
    split; [intros [? _]; discriminate|].
    split; [intros _; exists row; tauto|]. split; [exact Hrun|exact Hex].
  - destruct Hres as [[row Hrow]|[? _]]; [|discriminate].
    rewrite Hrow in Hrun.
    exists (firstColumn row), (lastColumn row), er.
    split; [exact Her1|]. split; [exact Her2|].
    split; [intros [? _]; discriminate|].
    split; [intros _; exists row; tauto|]. split; [exact Hrun|exact Hex].
Qed.

(** C8, as amended.  With [autoFilter.startRow] set to [start] and no
    row at [start]: when [startCol] or [endCol] is not a number the stage
    throws, and [sheetXML] with it; when both are numbers the stage
    raises no error and writes the range, an end row that is not given
    being [start - 1].  The scan for the end row always ends: it stops
    at the first row number without a row, no further from where it
    began than the number of rows of the worksheet. *)
Theorem unresolved_filter_bounds (w : Worksheet.t) (b : Workbook.t)
    (start : Z) :
  let o := autoFilter (opts w) in
  let er := if is_number (endRow o) then endRow o
            else JNum (start - 1) in
  startRow o = JNum start ->
  rows w !! start = None ->
  (is_number (startCol o) && is_number (endCol o) = false ->
   (forall x, throws (_addAutoFilter {| ws := w; wb := b; xml := x |}))
   /\ throws (sheetXML w b))
  /\ (is_number (startCol o) && is_number (endCol o) = true ->
      forall x,
        _addAutoFilter {| ws := w; wb := b; xml := x |} =
          Ok {| ws :=
                  set_autoFilter
                    (AutoFilterSpec.resolved o start (startCol o)
                       (endCol o) er) w;
                wb :=
                  Workbook.set_definedNameCollection
                    (Workbook.definedNameCollection b
                       ++ [AutoFilterSpec.filter_database w (startCol o)
                             start (endCol o) er]) b;
                xml :=
                  x ++ [Xml.Ele "autoFilter";
                        Xml.Att "ref"
                          (JStr (AutoFilterSpec.range_ref (startCol o)
                                   start (endCol o) er));
                        Xml.Up] |})
  /\ (forall curRow : Z,
        curRow <= firstEmptyRow (rows w) curRow
          <= curRow + Z.of_nat (size (rows w))).
Proof.
  intros o er Hstart Hrow.
  assert (Hstage : forall (p : promiseObj),
            startRow (autoFilter (opts (ws p))) = JNum start ->
            rows (ws p) !! start = None ->
            is_number (startCol (autoFilter (opts (ws p))))
              && is_number (endCol (autoFilter (opts (ws p)))) = false ->
            throws (_addAutoFilter p)).
  { intros p Hs Hr Hcols.
    rewrite (AutoFilterFacts.addAutoFilter_run p start Hs), Hcols, Hr.
    exact I. }
  split; [|split].
  - intros Hcols. split.
    + intros x. apply Hstage; assumption.
    + unfold sheetXML. cbv zeta.
      set (p0 := {| ws := w; wb := b; xml := _ |}).
      destruct (_addSheetPr p0) as [p1|] eqn:E1; cbn [bind]; [|exact I].
      destruct (_addDimension p1) as [p2|] eqn:E2; cbn [bind];
        [|exact I].
      destruct (_addSheetViews p2) as [p3|] eqn:E3; cbn [bind];
        [|exact I].
      destruct (_addSheetFormatPr p3) as [p4|] eqn:E4; cbn [bind];
        [|exact I].
      destruct (_addCols p4) as [p5|] eqn:E5; cbn [bind]; [|exact I].
      destruct (_addSheetData p5) as [p6|] eqn:E6; cbn [bind];
        [|exact I].
      destruct (_addSheetProtection p6) as [p7|] eqn:E7; cbn [bind];
        [|exact I].
      apply PipelineFacts.addSheetPr_read_only in E1 as [W1 _].
      apply PipelineFacts.addDimension_read_only in E2 as [W2 _].
      apply PipelineFacts.addSheetViews_read_only in E3 as [W3 _].
      apply PipelineFacts.addSheetFormatPr_read_only in E4 as [W4 _].
      apply PipelineFacts.addCols_read_only in E5 as [W5 _].
      apply SheetDataFacts.addSheetData_frame in E6 as [W6 _].
      apply PipelineFacts.addSheetProtection_frame in E7 as [W7 _].
      assert (Hw5 : ws p5 = w)
        by (rewrite W5, W4, W3, W2, W1; reflexivity).
      rewrite Hw5 in W6. rewrite W6 in W7.
      assert (Hthrow : throws (_addAutoFilter p7)).
      { apply Hstage; rewrite W7; cbn; try assumption.
        rewrite lookup_fmap, Hrow. reflexivity. }
      destruct (_addAutoFilter p7); [contradiction|exact I].
  - intros Hcols x.
    rewrite (AutoFilterFacts.addAutoFilter_run
               {| ws := w; wb := b; xml := x |} start Hstart).
    cbn [ws wb xml]. fold o. rewrite Hcols.
    rewrite (AutoFilterFacts.firstEmptyRow_absent _ _ Hrow).
    reflexivity.
  - intros curRow. split.
    + apply AutoFilterFacts.firstEmptyRow_spec.
    + apply AutoFilterFacts.firstEmptyRow_bound.
Qed.


End Claims.

(** *** The claims on the example worksheets *)

Abbreviation run_sheetXML :=
  (sheetXML (H := Reference.utils) (H0 := Reference.collaborators)
     (H1 := Reference.styles)).
Abbreviation run_addAutoFilter :=
  (_addAutoFilter (H := Reference.utils) (H0 := Reference.collaborators)
     (H1 := Reference.styles)).

(** 1200 rows in batches of 7. *)
Lemma batching_preserves_output_witness :
  (0 < 7)%nat
  /\ SheetData.chunked (H := Reference.utils) 7 (promise long_sheet)
     = SheetData.unchunked (H := Reference.utils) (promise long_sheet).
Proof.
  split; [lia|].
  apply (proj2 (batching_preserves_output (H := Reference.utils)
                  (H0 := Reference.collaborators)
                  (H1 := Reference.styles))).
  lia.
Defined.

(** Rows 5, 6 and 7 with [startRow: 5]: the range is [A5:C7] and the
    defined name is ['Sheet1'!$A$5:$C$7]. *)
Example autoFilter_rows_5_6_7 :
  match run_addAutoFilter (promise filtered_sheet) with
  | Ok p =>
      autoFilter (opts (ws p))
      = {| startRow := JNum 5; endRow := JNum 7; startCol := JNum 1;
           endCol := JNum 3; ref := JNull |}
      /\ Workbook.definedNameCollection (wb p)
         = [{| DefinedNameCollection.hidden := JNum 1;
               DefinedNameCollection.localSheetId := JNum 0;
               DefinedNameCollection.name := JStr "_xlnm._FilterDatabase";
               DefinedNameCollection.refFormula :=
                 JStr "'Sheet1'!$A$5:$C$7" |}]
      /\ xml p
         = [Xml.Ele "autoFilter"; Xml.Att "ref" (JStr "A5:C7"); Xml.Up]
  | Throw _ => False
  end.
Proof. vm_compute. repeat split; reflexivity. Qed.

Lemma autoFilter_resolves_range_witness :
  startRow (autoFilter (opts filtered_sheet)) = JNum 5
  /\ is_Some (rows filtered_sheet !! 5)
  /\ exists sc ec er : jsval,
       run_addAutoFilter (promise filtered_sheet) =
         Ok {| ws :=
                 set_autoFilter
                   (AutoFilterSpec.resolved
                      (autoFilter (opts filtered_sheet)) 5 sc ec er)
                   filtered_sheet;
               wb :=
                 Workbook.set_definedNameCollection
                   (Workbook.definedNameCollection workbook
                      ++ [AutoFilterSpec.filter_database
                            (H := Reference.utils) filtered_sheet sc 5 ec
                            er]) workbook;
               xml :=
                 [Xml.Ele "autoFilter";
                  Xml.Att "ref"
                    (JStr (AutoFilterSpec.range_ref (H := Reference.utils)
                             sc 5 ec er));
                  Xml.Up] |}.
Proof.
  assert (Hrow : is_Some (rows filtered_sheet !! 5))
    by (vm_compute; eauto).
  split; [reflexivity|]. split; [exact Hrow|].
  destruct (autoFilter_resolves_range (H := Reference.utils)
              (promise filtered_sheet) 5 eq_refl (or_introl Hrow))
    as (sc & ec & er & _ & _ & _ & _ & Hrun & _).
  exists sc, ec, er. exact Hrun.
Defined.

(** No row at all and no columns given: nothing is serialized. *)
Lemma unresolved_filter_bounds_witness :
  startRow (autoFilter (opts empty_sheet_no_cols)) = JNum 5
  /\ rows empty_sheet_no_cols !! 5 = None
  /\ throws (run_sheetXML empty_sheet_no_cols workbook).
Proof.
  split; [reflexivity|]. split; [reflexivity|].
  apply (proj1 (unresolved_filter_bounds (H := Reference.utils)
                  empty_sheet_no_cols workbook 5 eq_refl eq_refl)).
  reflexivity.
Defined.

(** C8 as stated fails on a worksheet with [startRow: 5], columns 1 to 3
    and no row at all: the serialization succeeds and writes the range
    [A5:C4]. *)
Lemma unresolved_filter_counterexample :
  startRow (autoFilter (opts empty_filtered_sheet)) = JNum 5
  /\ (forall r : Z, rows empty_filtered_sheet !! r = None)
  /\ exists p,
       run_sheetXML empty_filtered_sheet workbook = Ok p
       /\ ~ throws (run_sheetXML empty_filtered_sheet workbook)
       /\ Xml.Att "ref" (JStr "A5:C4") ∈ xml p.
Proof.
  split; [reflexivity|]. split; [intros r; apply lookup_empty|].
  assert (Hok : returns (run_sheetXML empty_filtered_sheet workbook) = true)
    by (vm_compute; reflexivity).
  apply JSFacts.returns_Ok in Hok as [p Hrun].
  exists p. split; [exact Hrun|]. split; [rewrite Hrun; intros []|].
  assert (Hin : match run_sheetXML empty_filtered_sheet workbook with
                | Ok p =>
                    bool_decide (Xml.Att "ref" (JStr "A5:C4") ∈ xml p)
                    = true
                | Throw _ => False
                end) by (vm_compute; reflexivity).
  rewrite Hrun in Hin. apply bool_decide_eq_true in Hin. exact Hin.
Qed.



End WorksheetClaims.

(** ** More on the constructor of [DataValidation] *)

Module DataValidationLaws.

Import DataValidation DataValidationSpec DataValidationFacts.
Import DataValidationShape.

Section Laws.
Context `{Builtins}.

(** *** Normalized flags *)

Lemma flag_norm_idem (v : jsval) : flag_norm (flag_norm v) = flag_norm v.
Proof.
  unfold flag_norm.
  destruct (is_undefined v) eqn:Hu; cbv iota.
  { rewrite Hu. reflexivity. }
  destruct (Number_is v 1) eqn:H1; [reflexivity|].
  destruct (Number_is v 0) eqn:H0; [reflexivity|].
  rewrite Hu, H1, H0. reflexivity.
Qed.

Lemma flag_norm_flag (v : jsval) : flag_ok v = true -> flag (flag_norm v).
Proof.
  unfold flag_ok, flag_norm, flag.
  destruct (is_undefined v) eqn:Hu.
  { intros _. left. apply is_undefined_true, Hu. }
  destruct (Number_is v 1); [intros _; right; reflexivity|].
  destruct (Number_is v 0); [intros _; right; reflexivity|].
  discriminate.
Qed.

Lemma flag_flag_ok (v : jsval) : flag v -> flag_ok v = true.
Proof.
  intros [->|Hb]; [reflexivity|].
  unfold flag_ok. rewrite <- orb_assoc, (flag_ok_boolean v Hb).
  apply orb_true_r.
Qed.

Lemma flag_ok_norm (v : jsval) :
  flag_ok v = true -> flag_ok (flag_norm v) = true.
Proof. intros Hv. apply flag_flag_ok, flag_norm_flag, Hv. Qed.

Lemma forced_norm (text title show : jsval) :
  forced text title (flag_norm (forced text title show))
  = flag_norm (forced text title show).
Proof. unfold forced. destruct (defined text || defined title); reflexivity. Qed.

Lemma enum_ok_one_of (enums : list jsval) (v : jsval) :
  enum_ok enums v = true -> one_of enums v.
Proof.
  unfold enum_ok, one_of. intros Hv.
  apply orb_true_iff in Hv as [Hu|Hin].
  - left. apply is_undefined_true, Hu.
  - right. apply negb_true_iff in Hin.
    apply JSFacts.indexOf_present, Hin.
Qed.

Lemma text_ok_text (v : jsval) : text_ok v = true -> text v.
Proof.
  unfold text_ok, text. intros Hv.
  apply orb_true_iff in Hv as [Hu|Hs].
  - left. apply is_undefined_true, Hu.
  - right. apply bool_decide_eq_true in Hs. exact Hs.
Qed.

(** The checks of the constructor, one by one. *)
Lemma valid_parts (o : Opts.t) :
  valid o = true ->
  defined (Opts.sqref o) = true
  /\ flag_ok (Opts.allowBlank o) = true
  /\ enum_ok errorStyle_enums (Opts.errorStyle o) = true
  /\ text_ok (Opts.error o) = true
  /\ text_ok (Opts.errorTitle o) = true
  /\ enum_ok imeMode_enums (Opts.imeMode o) = true
  /\ enum_ok operator_enums (Opts.operator o) = true
  /\ text_ok (Opts.prompt o) = true
  /\ text_ok (Opts.promptTitle o) = true
  /\ flag_ok (Opts.showDropDown o) = true
  /\ flag_ok (effective_showErrorMessage o) = true
  /\ flag_ok (effective_showInputMessage o) = true
  /\ enum_ok type_enums (Opts.type o) = true.
Proof.
  unfold valid. rewrite !andb_true_iff. tauto.
Qed.

Lemma valid_of_parts (o : Opts.t) :
  defined (Opts.sqref o) = true ->
  flag_ok (Opts.allowBlank o) = true ->
  enum_ok errorStyle_enums (Opts.errorStyle o) = true ->
  text_ok (Opts.error o) = true ->
  text_ok (Opts.errorTitle o) = true ->
  enum_ok imeMode_enums (Opts.imeMode o) = true ->
  enum_ok operator_enums (Opts.operator o) = true ->
  text_ok (Opts.prompt o) = true ->
  text_ok (Opts.promptTitle o) = true ->
  flag_ok (Opts.showDropDown o) = true ->
  flag_ok (effective_showErrorMessage o) = true ->
  flag_ok (effective_showInputMessage o) = true ->
  enum_ok type_enums (Opts.type o) = true ->
  valid o = true.
Proof.
  intros. unfold valid. rewrite !andb_true_iff. tauto.
Qed.

(** *** The options the constructor leaves are options it accepts *)

Lemma valid_opts_after (o : Opts.t) :
  valid o = true -> valid (opts_after o) = true.
Proof.
  intros Hv.
  destruct (valid_parts o Hv)
    as (H1 & H2 & H3 & H4 & H5 & H6 & H7 & H8 & H9 & H10 & H11 & H12 & H13).
  apply valid_of_parts; cbn [opts_after Opts.sqref Opts.allowBlank
    Opts.errorStyle Opts.error Opts.errorTitle Opts.imeMode Opts.operator
    Opts.prompt Opts.promptTitle Opts.showDropDown Opts.type];
    try assumption; try (apply flag_ok_norm; assumption).
  - unfold effective_showErrorMessage at 1.
    cbn [opts_after Opts.error Opts.errorTitle Opts.showErrorMessage].
    unfold effective_showErrorMessage in *.
    rewrite forced_norm. apply flag_ok_norm, H11.
  - unfold effective_showInputMessage at 1.
    cbn [opts_after Opts.prompt Opts.promptTitle Opts.showInputMessage].
    unfold effective_showInputMessage in *.
    rewrite forced_norm. apply flag_ok_norm, H12.
Qed.

Lemma opts_after_idem (o : Opts.t) :
  opts_after (opts_after o) = opts_after o.
Proof.
  unfold opts_after at 1.
  unfold effective_showErrorMessage, effective_showInputMessage.
  cbn [opts_after Opts.sqref Opts.formulas Opts.allowBlank Opts.errorStyle
       Opts.error Opts.errorTitle Opts.imeMode Opts.operator Opts.prompt
       Opts.promptTitle Opts.showDropDown Opts.showErrorMessage
       Opts.showInputMessage Opts.type].
  fold (effective_showErrorMessage o) (effective_showInputMessage o).
  unfold effective_showErrorMessage, effective_showInputMessage.
  rewrite !forced_norm, !flag_norm_idem. reflexivity.
Qed.

Lemma instance_opts_after (o : Opts.t) :
  instance (opts_after o) = instance o.
Proof.
  unfold instance, formula.
  unfold effective_showErrorMessage, effective_showInputMessage.
  cbn [opts_after Opts.sqref Opts.formulas Opts.allowBlank Opts.errorStyle
       Opts.error Opts.errorTitle Opts.imeMode Opts.operator Opts.prompt
       Opts.promptTitle Opts.showDropDown Opts.showErrorMessage
       Opts.showInputMessage Opts.type].
  unfold effective_showErrorMessage, effective_showInputMessage.
  rewrite !forced_norm, !flag_norm_idem. reflexivity.
Qed.

(** *** The shape of the rule *)

Lemma instance_well_formed (o : Opts.t) :
  valid o = true -> well_formed (instance o).
Proof.
  intros Hv.
  destruct (valid_parts o Hv)
    as (H1 & H2 & H3 & H4 & H5 & H6 & H7 & H8 & H9 & H10 & H11 & H12 & H13).
  unfold well_formed, instance.
  cbn [sqref allowBlank showDropDown showErrorMessage showInputMessage
       errorStyle imeMode operator type error errorTitle prompt
       promptTitle].
  repeat split;
    first [ apply flag_norm_flag; assumption
          | apply enum_ok_one_of; assumption
          | apply text_ok_text; assumption
          | idtac ].
  intros Hs. apply defined_false in Hs. congruence.
Qed.

(** *** Properties of the caller's options that every step keeps *)

Lemma preserves_ret {A} (P : Opts.t -> Prop) (a : A) : preserves P (ret a).
Proof. intros s Hs. exact Hs. Qed.

Lemma preserves_throw (P : Opts.t -> Prop) (e : Error) :
  preserves P (throw e).
Proof. intros s Hs. exact Hs. Qed.

Lemma preserves_read (P : Opts.t -> Prop) (field : Opts.t -> jsval) :
  preserves P (read field).
Proof. intros s Hs. exact Hs. Qed.

Lemma preserves_assign_this (P : Opts.t -> Prop)
    (set_field : jsval -> t -> t) (v : jsval) :
  preserves P (assign_this set_field v).
Proof. intros s Hs. exact Hs. Qed.

Lemma preserves_assign_opts (P : Opts.t -> Prop)
    (set_field : jsval -> Opts.t -> Opts.t) (v : jsval) :
  (forall o, P o -> P (set_field v o)) ->
  preserves P (assign_opts set_field v).
Proof. intros Hset s Hs. apply Hset, Hs. Qed.

Lemma preserves_seq {A B} (P : Opts.t -> Prop) (m : M A) (k : A -> M B) :
  preserves P m -> (forall a, preserves P (k a)) -> preserves P (seq m k).
Proof.
  intros Hm Hk s Hs. unfold seq.
  specialize (Hm s Hs).
  destruct (m s) as [s' [a|e]]; cbn in Hm |- *; [|exact Hm].
  apply Hk, Hm.
Qed.

Lemma preserves_when (P : Opts.t -> Prop) (c : bool) (m : M unit) :
  preserves P m -> preserves P (when c m).
Proof. intros Hm. destruct c; [exact Hm|apply preserves_ret]. Qed.

Lemma preserves_if {A} (P : Opts.t -> Prop) (c : bool) (m1 m2 : M A) :
  preserves P m1 -> preserves P m2 -> preserves P (if c then m1 else m2).
Proof. intros H1 H2. destruct c; assumption. Qed.

Lemma preserves_booleanField (P : Opts.t -> Prop) (name : string)
    (field : Opts.t -> jsval) (set_opts : jsval -> Opts.t -> Opts.t)
    (set_this : jsval -> t -> t) :
  (forall v o, P o -> P (set_opts v o)) ->
  preserves P (booleanField name field set_opts set_this).
Proof.
  intros Hset. unfold booleanField.
  apply preserves_seq; [apply preserves_read|]. intros v.
  apply preserves_when.
  apply preserves_seq.
  { apply preserves_seq; [apply preserves_read|]. intros v1.
    apply preserves_when, preserves_assign_opts, Hset. }
  intros _. apply preserves_seq.
  { apply preserves_seq; [apply preserves_read|]. intros v0.
    apply preserves_when, preserves_assign_opts, Hset. }
  intros _. apply preserves_seq; [apply preserves_read|]. intros w.
  apply preserves_if; [apply preserves_throw|apply preserves_assign_this].
Qed.

Lemma preserves_enumField (P : Opts.t -> Prop) (name : string)
    (field : Opts.t -> jsval) (enums : list jsval)
    (set_this : jsval -> t -> t) :
  preserves P (enumField name field enums set_this).
Proof.
  unfold enumField.
  apply preserves_seq; [apply preserves_read|]. intros v.
  apply preserves_when.
  apply preserves_if; [apply preserves_throw|apply preserves_assign_this].
Qed.

Lemma preserves_textField (P : Opts.t -> Prop) (name : string)
    (field : Opts.t -> jsval) (set_this : jsval -> t -> t)
    (set_opts_show : jsval -> Opts.t -> Opts.t)
    (set_this_show : jsval -> t -> t) :
  (forall o, P o -> P (set_opts_show (JBool true) o)) ->
  preserves P (textField name field set_this set_opts_show set_this_show).
Proof.
  intros Hset. unfold textField.
  apply preserves_seq; [apply preserves_read|]. intros v.
  apply preserves_when.
  apply preserves_if; [apply preserves_throw|].
  apply preserves_seq; [apply preserves_assign_this|]. intros _.
  apply preserves_seq; [apply preserves_assign_opts, Hset|]. intros _.
  apply preserves_assign_this.
Qed.

Lemma preserves_formulaField (P : Opts.t -> Prop) (i : nat)
    (set_this : jsval -> t -> t) :
  preserves P (formulaField i set_this).
Proof.
  intros s Hs. unfold formulaField.
  destruct (Opts.formulas (opts s)); [|exact Hs].
  apply preserves_when; [apply preserves_assign_this|exact Hs].
Qed.

Lemma preserves_sqref (P : Opts.t -> Prop) :
  preserves P
    (let! sq := read Opts.sqref in
     if is_undefined sq then
       throw (TypeError
         "sqref must be specified when creating a DataValidation instance.")
     else assign_this set_sqref sq).
Proof.
  apply preserves_seq; [apply preserves_read|]. intros sq.
  apply preserves_if; [apply preserves_throw|apply preserves_assign_this].
Qed.

End Laws.
End DataValidationLaws.

(** ** What a caller can rely on around the constructor *)

Module DataValidationProperties.

Import DataValidation DataValidationSpec DataValidationFacts.
Import DataValidationShape DataValidationLaws.
Import Examples.

Section Properties.
Context `{Builtins}.

#[local] Arguments flag_ok : simpl never.
#[local] Arguments flag_norm : simpl never.
#[local] Arguments enum_ok : simpl never.
#[local] Arguments text_ok : simpl never.
#[local] Arguments forced : simpl never.
#[local] Arguments is_undefined : simpl never.
#[local] Arguments formula : simpl never.
#[local] Arguments String.append : simpl never.
#[local] Arguments join : simpl never.
#[local] Arguments enumField : simpl never.
#[local] Arguments booleanField : simpl never.
#[local] Arguments textField : simpl never.

Ltac field_laws :=
  first [ reflexivity | intros []; reflexivity
        | intros ? []; reflexivity ].

(** X1.  The options the constructor has written back are stable: a
    second rule built from the object a first construction left gives an
    equal rule and writes nothing new into the object. *)
Theorem constructor_rebuild_stable (o o' : Opts.t) (d : t) :
  constructor o = (o', Ok d) -> constructor o' = (o', Ok d).
Proof.
  intros Hrun. apply constructor_ok_inv in Hrun as (Hv & -> & ->).
  rewrite (constructor_valid _ (valid_opts_after o Hv)).
  rewrite opts_after_idem, instance_opts_after. reflexivity.
Qed.

(** X2.  A rule the constructor returns has [sqref], its four flags are
    absent or booleans, its four enumerated fields are absent or in
    their lists, its four texts are absent or strings; and the caller's
    object holds the same four flags as the rule. *)
Theorem constructed_rule_well_formed (o o' : Opts.t) (d : t) :
  constructor o = (o', Ok d) ->
  well_formed d
  /\ Opts.allowBlank o' = allowBlank d
  /\ Opts.showDropDown o' = showDropDown d
  /\ Opts.showErrorMessage o' = showErrorMessage d
  /\ Opts.showInputMessage o' = showInputMessage d.
Proof.
  intros Hrun. apply constructor_ok_inv in Hrun as (Hv & -> & ->).
  split; [apply instance_well_formed, Hv|].
  repeat split; reflexivity.
Qed.

Lemma constructor_fst (o : Opts.t) :
  (constructor o).1 = opts (constructor_body {| opts := o; this := fresh |}).1.
Proof.
  unfold constructor.
  destruct (constructor_body {| opts := o; this := fresh |}) as [s r].
  reflexivity.
Qed.

Lemma same_but_flags_refl (o : Opts.t) : same_but_flags o o.
Proof. unfold same_but_flags. tauto. Qed.

(** X3.  Whether it returns or throws, the constructor writes no field
    of the caller's object other than [allowBlank], [showDropDown],
    [showErrorMessage] and [showInputMessage]. *)
Theorem constructor_writes_flags_only (o : Opts.t) :
  same_but_flags o (constructor o).1.
Proof.
  rewrite constructor_fst.
  assert (Hbody : preserves (same_but_flags o) constructor_body).
  { unfold constructor_body.
    repeat (apply preserves_seq; [|intros _]);
      first [ apply preserves_sqref
            | apply preserves_formulaField
            | apply preserves_enumField
            | apply preserves_booleanField; intros v [] Ho; exact Ho
            | apply preserves_textField; intros [] Ho; exact Ho ]. }
  apply (Hbody {| opts := o; this := fresh |}), same_but_flags_refl.
Qed.

(** The steps from [errorTitle] on keep a [showErrorMessage] that is
    [true]. *)
Lemma showErrorMessage_kept (m : M unit) :
  m = booleanField "showErrorMessage" Opts.showErrorMessage
        Opts.set_showErrorMessage set_showErrorMessage ->
  preserves (fun o' => Opts.showErrorMessage o' = JBool true) m.
Proof.
  intros -> [o d] Ho. cbn [opts] in Ho.
  rewrite booleanField_run with (get_this := showErrorMessage)
    by field_laws.
  rewrite Ho. reflexivity.
Qed.

Lemma showInputMessage_kept (m : M unit) :
  m = booleanField "showInputMessage" Opts.showInputMessage
        Opts.set_showInputMessage set_showInputMessage ->
  preserves (fun o' => Opts.showInputMessage o' = JBool true) m.
Proof.
  intros -> [o d] Ho. cbn [opts] in Ho.
  rewrite booleanField_run with (get_this := showInputMessage)
    by field_laws.
  rewrite Ho. reflexivity.
Qed.

Lemma text_ok_string (v : jsval) :
  typeof v = TString -> text_ok v = true /\ is_undefined v = false.
Proof. destruct v; try discriminate. intros _. split; reflexivity. Qed.

(** X4.  What a text field has written stays written when a later field
    is rejected: once the checks before [error] have passed and [error]
    is a string, the caller's [opts.showErrorMessage] is [true] after
    the call, whether the constructor returns or throws; the same holds
    for [prompt] and [opts.showInputMessage]. *)
Theorem show_flag_written_before_throw (o : Opts.t) :
  defined (Opts.sqref o) = true ->
  flag_ok (Opts.allowBlank o) = true ->
  enum_ok errorStyle_enums (Opts.errorStyle o) = true ->
  (typeof (Opts.error o) = TString ->
   Opts.showErrorMessage (constructor o).1 = JBool true)
  /\ (text_ok (Opts.error o) = true ->
      text_ok (Opts.errorTitle o) = true ->
      enum_ok imeMode_enums (Opts.imeMode o) = true ->
      enum_ok operator_enums (Opts.operator o) = true ->
      typeof (Opts.prompt o) = TString ->
      Opts.showInputMessage (constructor o).1 = JBool true).
Proof.
  intros Hsq Hab Hes.
  assert (Hstart :
    constructor_body {| opts := o; this := fresh |} =
      (textField "error" Opts.error set_error
         Opts.set_showErrorMessage set_showErrorMessage ;;
       textField "errorTitle" Opts.errorTitle set_errorTitle
         Opts.set_showErrorMessage set_showErrorMessage ;;
       enumField "imeMode" Opts.imeMode imeMode_enums set_imeMode ;;
       enumField "operator" Opts.operator operator_enums set_operator ;;
       textField "prompt" Opts.prompt set_prompt
         Opts.set_showInputMessage set_showInputMessage ;;
       textField "promptTitle" Opts.promptTitle set_promptTitle
         Opts.set_showInputMessage set_showInputMessage ;;
       booleanField "showDropDown" Opts.showDropDown Opts.set_showDropDown
         set_showDropDown ;;
       booleanField "showErrorMessage" Opts.showErrorMessage
         Opts.set_showErrorMessage set_showErrorMessage ;;
       booleanField "showInputMessage" Opts.showInputMessage
         Opts.set_showInputMessage set_showInputMessage ;;
       enumField "type" Opts.type type_enums set_type)
        {| opts := Opts.set_allowBlank (flag_norm (Opts.allowBlank o)) o;
           this :=
             set_errorStyle
               (if is_undefined (Opts.errorStyle o) then JUndefined
                else Opts.errorStyle o)
               (set_allowBlank
                  (if is_undefined (Opts.allowBlank o) then JUndefined
                   else flag_norm (Opts.allowBlank o))
                  (set_formula2
                     (if is_undefined (formula 1 o) then JUndefined
                      else formula 1 o)
                     (set_formula1
                        (if is_undefined (formula 0 o) then JUndefined
                         else formula 0 o)
                        (set_sqref (Opts.sqref o) fresh)))) |}).
  { unfold constructor_body.
    rewrite seq_run. unfold seq at 1, read at 1. cbn [opts this].
    unfold defined in Hsq. apply negb_true_iff in Hsq. rewrite Hsq.
    unfold assign_this at 1. cbn [opts this negb andb].
    rewrite seq_run, formulaField_run with (get_this := formula1)
      by field_laws.
    rewrite seq_run, formulaField_run with (get_this := formula2)
      by field_laws.
    rewrite seq_run, booleanField_run with (get_this := allowBlank)
      by field_laws.
    cbn. rewrite Hab.
    rewrite seq_run, enumField_run with (get_this := errorStyle)
      by field_laws.
    cbn. rewrite Hes. reflexivity. }
  split.
  - intros Herr. apply text_ok_string in Herr as [Hok Hdef].
    rewrite constructor_fst, Hstart.
    rewrite seq_run,
      textField_run with (get_this := error)
        (show := Opts.showErrorMessage)
        (get_this_show := showErrorMessage) by field_laws.
    cbn. rewrite Hok, Hdef.
    match goal with
    | |- Opts.showErrorMessage (opts (?m ?s).1) = _ =>
        cut (preserves (fun o' => Opts.showErrorMessage o' = JBool true) m);
          [intros Hkeep; apply (Hkeep s); reflexivity|]
    end.
    repeat (apply preserves_seq; [|intros _]);
      first [ apply preserves_enumField
            | apply showErrorMessage_kept; reflexivity
            | apply preserves_booleanField; intros v [] Ho; exact Ho
            | apply preserves_textField; intros [] Ho; first [exact Ho|reflexivity] ].
  - intros Herr Htitle Hime Hop Hprompt.
    apply text_ok_string in Hprompt as [Hok Hdef].
    rewrite constructor_fst, Hstart.
    rewrite seq_run,
      textField_run with (get_this := error)
        (show := Opts.showErrorMessage)
        (get_this_show := showErrorMessage) by field_laws.
    cbn. rewrite Herr.
    rewrite seq_run,
      textField_run with (get_this := errorTitle)
        (show := Opts.showErrorMessage)
        (get_this_show := showErrorMessage) by field_laws.
    cbn. rewrite Htitle.
    rewrite seq_run, enumField_run with (get_this := imeMode)
      by field_laws.
    cbn. rewrite Hime.
    rewrite seq_run, enumField_run with (get_this := operator)
      by field_laws.
    cbn. rewrite Hop.
    rewrite seq_run,
      textField_run with (get_this := prompt)
        (show := Opts.showInputMessage)
        (get_this_show := showInputMessage) by field_laws.
    cbn. rewrite Hok, Hdef.
    match goal with
    | |- Opts.showInputMessage (opts (?m ?s).1) = _ =>
        cut (preserves (fun o' => Opts.showInputMessage o' = JBool true) m);
          [intros Hkeep; apply (Hkeep s); reflexivity|]
    end.
    repeat (apply preserves_seq; [|intros _]);
      first [ apply preserves_enumField
            | apply showInputMessage_kept; reflexivity
            | apply preserves_booleanField; intros v [] Ho; exact Ho
            | apply preserves_textField; intros [] Ho; first [exact Ho|reflexivity] ].
Qed.

End Properties.

(** [{ sqref: 'A1', error: 'Bad input', showErrorMessage: false }] built
    twice. *)
Lemma constructor_rebuild_stable_witness :
  constructor (H := Reference.builtins) bad_input
    = (opts_after (H := Reference.builtins) bad_input,
       Ok (instance (H := Reference.builtins) bad_input))
  /\ constructor (H := Reference.builtins)
       (opts_after (H := Reference.builtins) bad_input)
     = (opts_after (H := Reference.builtins) bad_input,
        Ok (instance (H := Reference.builtins) bad_input)).
Proof.
  split; [reflexivity|].
  apply (constructor_rebuild_stable (H := Reference.builtins) bad_input).
  reflexivity.
Defined.

Lemma constructed_rule_well_formed_witness :
  constructor (H := Reference.builtins) bad_input
    = (opts_after (H := Reference.builtins) bad_input,
       Ok (instance (H := Reference.builtins) bad_input))
  /\ well_formed (instance (H := Reference.builtins) bad_input).
Proof.
  split; [reflexivity|].
  apply (constructed_rule_well_formed (H := Reference.builtins) bad_input
           _ _ eq_refl).
Defined.

(** [type: 'bogus'] is rejected after [error] was read: the caller's
    [false] has become [true]. *)
Lemma show_flag_written_before_throw_witness :
  throws (constructor (H := Reference.builtins) bad_type).2
  /\ Opts.showErrorMessage bad_type = JBool false
  /\ Opts.showErrorMessage (constructor (H := Reference.builtins) bad_type).1
     = JBool true.
Proof.
  split; [exact I|]. split; [reflexivity|].
  apply (proj1 (show_flag_written_before_throw (H := Reference.builtins)
                  bad_type eq_refl eq_refl eq_refl)).
  reflexivity.
Defined.

End DataValidationProperties.

(** ** Calls added to a document *)

Module XmlFacts.

Import XmlCalls.

Lemma opened_app (x y : Xml.builder) :
  opened (x ++ y) = opened x + opened y.
Proof.
  induction x as [|c x IH]; cbn; [lia|].
  destruct c; rewrite ?IH; lia.
Qed.

Lemma count_ele_app (name : string) (x y : Xml.builder) :
  count_ele name (x ++ y) = (count_ele name x + count_ele name y)%nat.
Proof.
  induction x as [|c x IH]; cbn; [reflexivity|].
  destruct (is_ele name c); rewrite IH; reflexivity.
Qed.

Lemma opened_ele (name : string) (x : Xml.builder) :
  opened (Xml.ele name x) = opened x + 1.
Proof. unfold Xml.ele. rewrite opened_app. reflexivity. Qed.

Lemma opened_att (name : string) (v : jsval) (x : Xml.builder) :
  opened (Xml.att name v x) = opened x.
Proof. unfold Xml.att. rewrite opened_app. cbn. lia. Qed.

Lemma opened_text (v : jsval) (x : Xml.builder) :
  opened (Xml.text v x) = opened x.
Proof. unfold Xml.text. rewrite opened_app. cbn. lia. Qed.

Lemma opened_up (x : Xml.builder) : opened (Xml.up x) = opened x - 1.
Proof. unfold Xml.up. rewrite opened_app. cbn. lia. Qed.

Lemma opened_att_if (b : bool) (name : string) (v : jsval)
    (x : Xml.builder) :
  opened (Xml.att_if b name v x) = opened x.
Proof. destruct b; [apply opened_att|reflexivity]. Qed.

Lemma count_ele_ele (name name' : string) (x : Xml.builder) :
  count_ele name (Xml.ele name' x)
  = (count_ele name x + if String.eqb name' name then 1 else 0)%nat.
Proof.
  unfold Xml.ele. rewrite count_ele_app. cbn. unfold is_ele.
  destruct (String.eqb_spec name' name) as [->|Hne].
  - rewrite bool_decide_eq_true_2 by reflexivity. reflexivity.
  - rewrite bool_decide_eq_false_2 by congruence. reflexivity.
Qed.

Lemma count_ele_att (name name' : string) (v : jsval) (x : Xml.builder) :
  count_ele name (Xml.att name' v x) = count_ele name x.
Proof.
  unfold Xml.att. rewrite count_ele_app. cbn. unfold is_ele.
  rewrite bool_decide_eq_false_2 by discriminate. lia.
Qed.

Lemma count_ele_text (name : string) (v : jsval) (x : Xml.builder) :
  count_ele name (Xml.text v x) = count_ele name x.
Proof.
  unfold Xml.text. rewrite count_ele_app. cbn. unfold is_ele.
  rewrite bool_decide_eq_false_2 by discriminate. lia.
Qed.

Lemma count_ele_up (name : string) (x : Xml.builder) :
  count_ele name (Xml.up x) = count_ele name x.
Proof.
  unfold Xml.up. rewrite count_ele_app. cbn. unfold is_ele.
  rewrite bool_decide_eq_false_2 by discriminate. lia.
Qed.

Lemma count_ele_att_if (name : string) (b : bool) (name' : string)
    (v : jsval) (x : Xml.builder) :
  count_ele name (Xml.att_if b name' v x) = count_ele name x.
Proof. destruct b; [apply count_ele_att|reflexivity]. Qed.

Lemma att_names_app (x y : Xml.builder) :
  att_names (x ++ y) = att_names x ++ att_names y.
Proof.
  induction x as [|c x IH]; cbn; [reflexivity|].
  destruct c; rewrite ?IH; reflexivity.
Qed.

Lemma att_names_att_if (b : bool) (name : string) (v : jsval)
    (x : Xml.builder) :
  att_names (Xml.att_if b name v x)
  = att_names x ++ (if b then [name] else []).
Proof.
  destruct b; cbn.
  - unfold Xml.att. rewrite att_names_app. reflexivity.
  - rewrite app_nil_r. reflexivity.
Qed.

(** *** Calls are added at the end *)

Lemma pre_ele (name : string) (x y : Xml.builder) :
  x `prefix_of` y -> x `prefix_of` Xml.ele name y.
Proof. apply prefix_app_r. Qed.

Lemma pre_att (name : string) (v : jsval) (x y : Xml.builder) :
  x `prefix_of` y -> x `prefix_of` Xml.att name v y.
Proof. apply prefix_app_r. Qed.

Lemma pre_text (v : jsval) (x y : Xml.builder) :
  x `prefix_of` y -> x `prefix_of` Xml.text v y.
Proof. apply prefix_app_r. Qed.

Lemma pre_up (x y : Xml.builder) :
  x `prefix_of` y -> x `prefix_of` Xml.up y.
Proof. apply prefix_app_r. Qed.

Lemma pre_finish (x y : Xml.builder) :
  x `prefix_of` y -> x `prefix_of` Xml.finish y.
Proof. apply prefix_app_r. Qed.

Lemma pre_att_if (b : bool) (name : string) (v : jsval)
    (x y : Xml.builder) :
  x `prefix_of` y -> x `prefix_of` Xml.att_if b name v y.
Proof. destruct b; [apply pre_att|tauto]. Qed.


End XmlFacts.

(** ** More on the serialization of rules *)

Module DataValidationXmlFacts.

Import DataValidation DataValidationShape XmlCalls XmlFacts.

Lemma cleanFormula_domain (f : jsval) :
  returns (cleanFormula f) = true <-> formula_ok f.
Proof.
  unfold formula_ok.
  destruct f as [| |b|n|s]; cbn; try (split; [discriminate|]);
    try (intros [Hf|Hf]; discriminate Hf).
  - split; [auto|reflexivity].
  - unfold cleanFormula. cbn.
    destruct (strict_eq _ _); split; auto.
Qed.

Section Serialization.
Context `{Utils}.

Lemma att_defined_opened (name : string) (v : jsval) (x : Xml.builder) :
  opened (att_defined name v x) = opened x.
Proof. apply opened_att_if. Qed.

Lemma att_boolToInt_opened (name : string) (v : jsval)
    (x x' : Xml.builder) :
  att_boolToInt name v x = Ok x' -> opened x' = opened x.
Proof.
  unfold att_boolToInt. destruct (is_undefined v); [congruence|].
  destruct (boolToInt v); cbn; [|discriminate].
  intros [= <-]. apply opened_att.
Qed.

Lemma att_defined_count (n name : string) (v : jsval) (x : Xml.builder) :
  count_ele n (att_defined name v x) = count_ele n x.
Proof. apply count_ele_att_if. Qed.

Lemma att_boolToInt_count (n name : string) (v : jsval)
    (x x' : Xml.builder) :
  att_boolToInt name v x = Ok x' -> count_ele n x' = count_ele n x.
Proof.
  unfold att_boolToInt. destruct (is_undefined v); [congruence|].
  destruct (boolToInt v); cbn; [|discriminate].
  intros [= <-]. apply count_ele_att.
Qed.

Lemma pre_att_defined (name : string) (v : jsval) (x y : Xml.builder) :
  x `prefix_of` y -> x `prefix_of` att_defined name v y.
Proof. apply pre_att_if. Qed.

Lemma pre_att_boolToInt (name : string) (v : jsval)
    (x y y' : Xml.builder) :
  att_boolToInt name v y = Ok y' -> x `prefix_of` y -> x `prefix_of` y'.
Proof.
  unfold att_boolToInt. destruct (is_undefined v); [congruence|].
  destruct (boolToInt v); cbn; [|discriminate].
  intros [= <-]. apply pre_att.
Qed.

Lemma att_boolToInt_names (name : string) (v : jsval)
    (x x' : Xml.builder) :
  att_boolToInt name v x = Ok x' ->
  exists b : bool, att_names x' = att_names x ++ (if b then [name] else []).
Proof.
  unfold att_boolToInt. destruct (is_undefined v).
  - intros [= <-]. exists false. rewrite app_nil_r. reflexivity.
  - destruct (boolToInt v); cbn; [|discriminate].
    intros [= <-]. exists true. unfold Xml.att.
    rewrite att_names_app. reflexivity.
Qed.

(** The names of the attributes of one rule, field by field. *)
Lemma addToXMLele_names (d : t) (ele x : Xml.builder) :
  addToXMLele d ele = Ok x ->
  exists b1 b2 b3 b4 b5 b6 b7 b8 b9 b10 b11 b12 b13 : bool,
    att_names x
    = att_names ele
        ++ (if b1 then ["type"] else [])
        ++ (if b2 then ["errorStyle"] else [])
        ++ (if b3 then ["imeMode"] else [])
        ++ (if b4 then ["operator"] else [])
        ++ (if b5 then ["allowBlank"] else [])
        ++ (if b6 then ["showDropDown"] else [])
        ++ (if b7 then ["showInputMessage"] else [])
        ++ (if b8 then ["showErrorMessage"] else [])
        ++ (if b9 then ["errorTitle"] else [])
        ++ (if b10 then ["error"] else [])
        ++ (if b11 then ["promptTitle"] else [])
        ++ (if b12 then ["prompt"] else [])
        ++ (if b13 then ["sqref"] else []).
Proof.
  unfold addToXMLele. cbv zeta. intros Hrun.
  destruct (att_boolToInt "allowBlank" _ _) as [x1|] eqn:E1;
    cbn [bind] in Hrun; [|discriminate].
  destruct (att_boolToInt "showInputMessage" _ _) as [x2|] eqn:E2;
    cbn [bind] in Hrun; [|discriminate].
  destruct (att_boolToInt "showErrorMessage" _ _) as [x3|] eqn:E3;
    cbn [bind] in Hrun; [|discriminate].
  match type of Hrun with
  | bind ?m _ = _ => destruct m as [x4|] eqn:E4
  end; cbn [bind] in Hrun; [|discriminate].
  injection Hrun as <-.
  apply att_boolToInt_names in E1 as [b5 N1].
  apply att_boolToInt_names in E2 as [b7 N2].
  apply att_boolToInt_names in E3 as [b8 N3].
  unfold att_defined in *.
  rewrite !att_names_att_if in N1.
  unfold Xml.ele in N1. rewrite att_names_app in N1. cbn [att_names] in N1.
  rewrite att_names_att_if in N2.
  set (x3' := Xml.att_if _ "sqref" _ _) in E4.
  assert (N4 : att_names x4 = att_names x3').
  { destruct (is_undefined (formula1 d)); cbn [negb] in E4;
      [injection E4 as <-; reflexivity|].
    destruct (cleanFormula (formula1 d)); cbn [bind] in E4; [|discriminate].
    destruct (is_undefined (formula2 d)); cbn [negb] in E4.
    - injection E4 as <-. unfold Xml.text, Xml.ele.
      rewrite !att_names_app. cbn. rewrite !app_nil_r. reflexivity.
    - destruct (cleanFormula (formula2 d)); cbn [bind] in E4;
        [|discriminate].
      injection E4 as <-. unfold Xml.text, Xml.ele, Xml.up.
      rewrite !att_names_app. cbn. rewrite !app_nil_r. reflexivity. }
  subst x3'. rewrite !att_names_att_if in N4.
  unfold Xml.up. rewrite att_names_app, N4, N3, N2, N1. cbn [att_names].
  do 13 eexists. rewrite !app_nil_r, <- !app_assoc. reflexivity.
Qed.

(** A flag that is absent or a boolean is written without error when
    [boolToInt] takes booleans. *)
Lemma att_boolToInt_flag (name : string) (v : jsval) (x : Xml.builder) :
  (forall b : bool, returns (boolToInt (JBool b)) = true) ->
  flag v -> exists x', att_boolToInt name v x = Ok x'.
Proof.
  intros Hbool [->|Hb]; [eexists; reflexivity|].
  destruct v as [| |b| |]; try discriminate.
  unfold att_boolToInt. cbn.
  specialize (Hbool b). apply JSFacts.returns_Ok in Hbool as [i ->].
  eexists. reflexivity.
Qed.

(** The three measures of one rule: where its calls go, how many
    [dataValidation] elements it enters, how many elements it leaves
    open. *)
Lemma addToXMLele_added (d : t) (ele x : Xml.builder) :
  addToXMLele d ele = Ok x ->
  Xml.ele "dataValidation" ele `prefix_of` x
  /\ count_ele "dataValidation" x
     = S (count_ele "dataValidation" ele)
  /\ opened x
     = opened ele + (if is_undefined (formula1 d) then 0 else 1).
Proof.
  unfold addToXMLele. cbv zeta. intros Hrun.
  destruct (att_boolToInt "allowBlank" _ _) as [x1|] eqn:E1;
    cbn [bind] in Hrun; [|discriminate].
  destruct (att_boolToInt "showInputMessage" _ _) as [x2|] eqn:E2;
    cbn [bind] in Hrun; [|discriminate].
  destruct (att_boolToInt "showErrorMessage" _ _) as [x3|] eqn:E3;
    cbn [bind] in Hrun; [|discriminate].
  match type of Hrun with
  | bind ?m _ = _ => destruct m as [x4|] eqn:E4
  end; cbn [bind] in Hrun; [|discriminate].
  injection Hrun as <-.
  set (x3' := att_defined "sqref" _ _) in E4.
  assert (Hpre3 : Xml.ele "dataValidation" ele `prefix_of` x3').
  { subst x3'. repeat apply pre_att_defined.
    apply (pre_att_boolToInt _ _ _ _ _ E3).
    apply (pre_att_boolToInt _ _ _ _ _ E2).
    apply pre_att_if.
    apply (pre_att_boolToInt _ _ _ _ _ E1).
    repeat apply pre_att_defined. reflexivity. }
  assert (Hcount3 : count_ele "dataValidation" x3'
                    = S (count_ele "dataValidation" ele)).
  { subst x3'. rewrite !att_defined_count.
    rewrite (att_boolToInt_count _ _ _ _ _ E3),
      (att_boolToInt_count _ _ _ _ _ E2), count_ele_att_if,
      (att_boolToInt_count _ _ _ _ _ E1), !att_defined_count,
      count_ele_ele.
    cbn. lia. }
  assert (Hopen3 : opened x3' = opened ele + 1).
  { subst x3'. rewrite !att_defined_opened.
    rewrite (att_boolToInt_opened _ _ _ _ E3),
      (att_boolToInt_opened _ _ _ _ E2), opened_att_if,
      (att_boolToInt_opened _ _ _ _ E1), !att_defined_opened,
      opened_ele.
    reflexivity. }
  clearbody x3'. clear E1 E2 E3.
  destruct (is_undefined (formula1 d)); cbn [negb] in E4.
  { injection E4 as <-. split; [apply pre_up, Hpre3|].
    rewrite count_ele_up, opened_up. split; [exact Hcount3|lia]. }
  destruct (cleanFormula (formula1 d)) as [f1|]; cbn [bind] in E4;
    [|discriminate].
  destruct (is_undefined (formula2 d)); cbn [negb] in E4.
  { injection E4 as <-.
    split; [apply pre_up, pre_text, pre_ele, Hpre3|].
    rewrite count_ele_up, count_ele_text, count_ele_ele.
    rewrite opened_up, opened_text, opened_ele.
    cbn. split; lia. }
  destruct (cleanFormula (formula2 d)) as [f2|]; cbn [bind] in E4;
    [|discriminate].
  injection E4 as <-.
  split; [apply pre_up, pre_text, pre_ele, pre_up, pre_text, pre_ele,
            Hpre3|].
  rewrite count_ele_up, count_ele_text, count_ele_ele, count_ele_up,
    count_ele_text, count_ele_ele.
  rewrite opened_up, opened_text, opened_ele, opened_up, opened_text,
    opened_ele.
  cbn. split; lia.
Qed.

Lemma forEach_addToXMLele_added (items : DataValidationCollection.t)
    (valsEle x : Xml.builder) :
  DataValidationCollection.forEach_addToXMLele items valsEle = Ok x ->
  valsEle `prefix_of` x
  /\ count_ele "dataValidation" x
     = (count_ele "dataValidation" valsEle + length items)%nat
  /\ opened x = opened valsEle - Z.of_nat (bare items).
Proof.
  revert valsEle. induction items as [|d items IH]; intros valsEle; cbn.
  - intros [= <-]. split; [reflexivity|]. split; lia.
  - destruct (addToXMLele d valsEle) as [x1|] eqn:Hd; cbn [bind];
      [|discriminate].
    intros Hrest. apply IH in Hrest as (Hpre & Hcount & Hopen).
    apply addToXMLele_added in Hd as (Hpre1 & Hcount1 & Hopen1).
    split.
    + etransitivity; [|exact Hpre]. apply pre_up.
      etransitivity; [|exact Hpre1]. apply pre_ele. reflexivity.
    + rewrite count_ele_up in Hcount. rewrite opened_up in Hopen.
      unfold bare in *. cbn [List.filter].
      destruct (is_undefined (formula1 d)); cbn [length]; split; lia.
Qed.

End Serialization.
End DataValidationXmlFacts.

(** ** What the serialization of rules guarantees *)

Module DataValidationXmlProperties.

Import DataValidation DataValidationShape XmlCalls XmlFacts.
Import DataValidationXmlFacts.

(** X5.  A rule the constructor has accepted is written without error
    exactly when its formulas are ones [cleanFormula] can handle, the
    first absent or a number or a string and so the second, provided
    [boolToInt] takes booleans (the calls on the document are recorded
    and do not throw): the constructor does not look at the formulas,
    and a boolean or [null] formula makes the serialization throw. *)
Theorem constructed_rule_serializes `{Builtins} `{Utils}
    (o o' : Opts.t) (d : t) (ele : Xml.builder) :
  (forall b : bool, returns (boolToInt (JBool b)) = true) ->
  constructor o = (o', Ok d) ->
  returns (addToXMLele d ele) = true <-> formulas_ok d.
Proof.
  intros Hbool Hrun.
  apply DataValidationFacts.constructor_ok_inv in Hrun as (Hv & _ & ->).
  pose proof (DataValidationLaws.instance_well_formed o Hv)
    as (_ & Hab & _ & Hse & Hsi & _).
  set (d := DataValidationSpec.instance o) in *.
  unfold addToXMLele. cbv zeta.
  destruct (att_boolToInt_flag "allowBlank" (allowBlank d)
              (att_defined "operator" (operator d)
                 (att_defined "imeMode" (imeMode d)
                    (att_defined "errorStyle" (errorStyle d)
                       (att_defined "type" (type d)
                          (Xml.ele "dataValidation" ele)))))
              Hbool Hab) as [x1 ->].
  cbn [bind].
  destruct (att_boolToInt_flag "showInputMessage" (showInputMessage d)
              (Xml.att_if (strict_eq (showDropDown d) (JBool false))
                 "showDropDown" (JNum 1) x1) Hbool Hsi) as [x2 ->].
  cbn [bind].
  destruct (att_boolToInt_flag "showErrorMessage" (showErrorMessage d)
              x2 Hbool Hse) as [x3 ->].
  cbn [bind].
  unfold formulas_ok.
  destruct (is_undefined (formula1 d)) eqn:H1; cbn [negb bind returns].
  { apply DataValidationFacts.is_undefined_true in H1. tauto. }
  apply DataValidationFacts.is_undefined_false in H1.
  pose proof (cleanFormula_domain (formula1 d)) as Hf1.
  destruct (cleanFormula (formula1 d)) as [f1|e1]; cbn [bind returns] in *.
  2:{ split; [discriminate|]. intros [?|[Hok _]]; [contradiction|].
      apply Hf1 in Hok. discriminate. }
  destruct (is_undefined (formula2 d)) eqn:H2; cbn [negb bind returns].
  { apply DataValidationFacts.is_undefined_true in H2.
    split; [|reflexivity]. intros _. right. split; [apply Hf1|]; auto. }
  apply DataValidationFacts.is_undefined_false in H2.
  pose proof (cleanFormula_domain (formula2 d)) as Hf2.
  destruct (cleanFormula (formula2 d)) as [f2|e2]; cbn [bind returns] in *.
  - split; [|reflexivity]. intros _. right.
    split; [apply Hf1|right; apply Hf2]; reflexivity.
  - split; [discriminate|]. intros [?|[_ [?|Hok]]]; try contradiction.
    apply Hf2 in Hok. discriminate.
Qed.

(** X6.  Counting [ele] against [up]: a rule without a first formula
    leaves as many elements as it enters, a rule with one leaves one
    fewer than it enters; the collection, which calls [up] once after
    every rule, ends one element deeper than it began, less one for
    every rule without a first formula. *)
Theorem rule_calls_balance `{Utils} :
  (forall (d : t) (ele x : Xml.builder),
     addToXMLele d ele = Ok x ->
     opened x = opened ele + (if is_undefined (formula1 d) then 0 else 1))
  /\ (forall (items : DataValidationCollection.t) (ele x : Xml.builder),
        DataValidationCollection.addToXMLele items ele = Ok x ->
        opened x = opened ele + 1 - Z.of_nat (bare items)).
Proof.
  split.
  - intros d ele x Hrun. apply (addToXMLele_added d ele x Hrun).
  - intros items ele x Hrun.
    unfold DataValidationCollection.addToXMLele in Hrun. cbv zeta in Hrun.
    apply forEach_addToXMLele_added in Hrun as (_ & _ & ->).
    rewrite opened_att, opened_ele. reflexivity.
Qed.

(** X7.  The collection writes [dataValidations] with the number of
    rules as [count], and after it enters exactly that many
    [dataValidation] elements. *)
Theorem collection_count `{Utils} (items : DataValidationCollection.t)
    (ele x : Xml.builder) :
  DataValidationCollection.addToXMLele items ele = Ok x ->
  exists rest : Xml.builder,
    x = ele
          ++ [Xml.Ele "dataValidations";
              Xml.Att "count" (JNum (Z.of_nat (length items)))]
          ++ rest
    /\ count_ele "dataValidation" rest = length items.
Proof.
  unfold DataValidationCollection.addToXMLele,
    DataValidationCollection.length. cbv zeta. intros Hrun.
  apply forEach_addToXMLele_added in Hrun as ([rest ->] & Hcount & _).
  exists rest. unfold Xml.att, Xml.ele in *.
  rewrite <- !app_assoc in *. split; [reflexivity|].
  rewrite !count_ele_app in Hcount. lia.
Qed.

Lemma option_sublist (b : bool) (name : string) (l l' : list string) :
  l `sublist_of` l' ->
  (if b then [name] else []) ++ l `sublist_of` name :: l'.
Proof.
  intros Hl. destruct b; cbn.
  - apply sublist_skip, Hl.
  - apply sublist_cons, Hl.
Qed.

(** X8.  The attributes of a rule are set in the order [type],
    [errorStyle], [imeMode], [operator], [allowBlank], [showDropDown],
    [showInputMessage], [showErrorMessage], [errorTitle], [error],
    [promptTitle], [prompt], [sqref], each at most once. *)
Theorem rule_attributes_in_order `{Utils} (d : t) (ele x : Xml.builder) :
  addToXMLele d ele = Ok x ->
  exists names : list string,
    att_names x = att_names ele ++ names
    /\ names `sublist_of` attribute_order
    /\ NoDup names.
Proof.
  intros Hrun.
  apply addToXMLele_names in Hrun
    as (b1 & b2 & b3 & b4 & b5 & b6 & b7 & b8 & b9 & b10 & b11 & b12
        & b13 & ->).
  eexists. split; [reflexivity|].
  match goal with
  | |- ?names `sublist_of` _ /\ _ =>
      assert (Hsub : names `sublist_of` attribute_order)
  end.
  { unfold attribute_order. repeat apply option_sublist.
    destruct b13; [reflexivity|apply sublist_nil_l]. }
  split; [exact Hsub|].
  eapply sublist_NoDup; [|exact Hsub].
  unfold attribute_order. apply NoDup_ListNoDup.
  repeat (constructor; [cbn; intuition discriminate|]). constructor.
Qed.

(** The rule with [showDropDown: false] and one formula. *)
Lemma rule_attributes_in_order_witness :
  exists x names,
    addToXMLele (H := Reference.utils) Examples.dropdown_rule [] = Ok x
    /\ att_names x = names
    /\ names `sublist_of` attribute_order.
Proof.
  eexists.
  destruct (rule_attributes_in_order (H := Reference.utils)
              Examples.dropdown_rule [] _ eq_refl)
    as (names & Hx & Hsub & _).
  exists names. split; [reflexivity|]. split; [exact Hx|exact Hsub].
Defined.

(** Two rules, one of them without a formula. *)
Lemma rule_calls_balance_witness :
  exists x,
    DataValidationCollection.addToXMLele (H := Reference.utils)
      [Examples.dropdown_rule; set_sqref (JStr "B2") fresh] [] = Ok x
    /\ opened x = 0.
Proof.
  eexists. split; [reflexivity|].
  apply (proj2 (rule_calls_balance (H := Reference.utils))
           [Examples.dropdown_rule; set_sqref (JStr "B2") fresh] [] _
           eq_refl).
Defined.

(** [{ sqref: 'A1', formulas: ['Option A'] }], built and written. *)
Lemma constructed_rule_serializes_witness :
  let o :=
    DataValidationConstructorOpts.set_formulas (Some [JStr "Option A"])
      Examples.on_A1 in
  (forall b : bool,
     returns (boolToInt (Utils := Reference.utils) (JBool b)) = true)
  /\ constructor (H := Reference.builtins) o
     = (DataValidationSpec.opts_after (H := Reference.builtins) o,
        Ok (DataValidationSpec.instance (H := Reference.builtins) o))
  /\ formulas_ok (DataValidationSpec.instance (H := Reference.builtins) o)
  /\ returns
       (addToXMLele (H := Reference.utils)
          (DataValidationSpec.instance (H := Reference.builtins) o) [])
     = true.
Proof.
  intros o.
  assert (Hbool : forall b : bool,
            returns (boolToInt (Utils := Reference.utils) (JBool b)) = true)
    by (intros []; reflexivity).
  assert (Hok : formulas_ok
                  (DataValidationSpec.instance (H := Reference.builtins) o)).
  { right. split; [right; reflexivity|left; reflexivity]. }
  split; [exact Hbool|]. split; [reflexivity|]. split; [exact Hok|].
  apply (proj2 (constructed_rule_serializes (H := Reference.builtins)
                  (H0 := Reference.utils) o _ _ [] Hbool eq_refl)).
  exact Hok.
Defined.

(** The rule with [showDropDown: false] and one formula, alone in its
    collection. *)
Lemma collection_count_witness :
  exists x rest,
    DataValidationCollection.addToXMLele (H := Reference.utils)
      [Examples.dropdown_rule] [] = Ok x
    /\ x = [Xml.Ele "dataValidations"; Xml.Att "count" (JNum 1)] ++ rest
    /\ count_ele "dataValidation" rest = 1%nat.
Proof.
  eexists.
  destruct (collection_count (H := Reference.utils)
              [Examples.dropdown_rule] [] _ eq_refl) as (rest & Hx & Hn).
  exists rest. split; [reflexivity|]. split; [exact Hx|exact Hn].
Defined.

End DataValidationXmlProperties.

(** ** The tables of the workbook, looked up *)

Module WorkbookProperties.

Import Workbook WorkbookSpec WorkbookFacts.

Section Properties.
Context `{StyleClass}.

Lemma reachable_step (wb : t) (c : op) : reachable wb -> reachable (step wb c).
Proof.
  intros (font & calls & ->). exists font, (calls ++ [c]).
  unfold run. rewrite foldl_app. reflexivity.
Qed.

Lemma getStringIndex_NoDup (val : jsval) (wb : t) :
  NoDup (sharedStrings wb) -> NoDup (sharedStrings (getStringIndex val wb).1).
Proof.
  intros Hnd. destruct (decide (val ∈ sharedStrings wb)) as [Hin|Hnin].
  - rewrite getStringIndex_present by exact Hin. exact Hnd.
  - rewrite getStringIndex_absent by exact Hnin. cbn.
    apply NoDup_app. split; [exact Hnd|]. split.
    + intros w Hw Hw'. apply list_elem_of_singleton in Hw'. congruence.
    + apply NoDup_singleton.
Qed.

Lemma step_NoDup (wb : t) (c : op) :
  NoDup (sharedStrings wb) -> NoDup (sharedStrings (step wb c)).
Proof.
  intros Hnd. destruct c as [o|val|entry]; cbn.
  - unfold createStyle. destruct (stylesLookup wb !! _); exact Hnd.
  - apply getStringIndex_NoDup, Hnd.
  - exact Hnd.
Qed.

(** X9.  For a workbook made by the constructor and any calls after it:
    the style [createStyle] returns sits in [styles] at the index it
    carries as [ids.cellXfs], and no two entries of [styles] have the
    same lookup key. *)
Theorem styles_registry_consistent (wb : t) (o : StyleOpts) :
  reachable wb ->
  (exists i : nat,
     Style.ids_cellXfs (createStyle o wb).2 = JNum (Z.of_nat i)
     /\ styles (createStyle o wb).1 !! i = Some (createStyle o wb).2)
  /\ (forall (i j : nat) (s s' : Style.t),
        styles wb !! i = Some s -> styles wb !! j = Some s' ->
        Style.toKey s = Style.toKey s' -> i = j).
Proof.
  intros Hreach. split.
  - pose proof (registry_ok_reachable _ (reachable_step wb (CreateStyle o)
                                           Hreach)) as [Harr Hlook].
    cbn [step] in Harr, Hlook.
    destruct (Hlook _ _ (createStyle_filed o wb)) as [_ (i & Hi)].
    exists i. split; [apply (Harr i _ Hi)|exact Hi].
  - destruct (registry_ok_reachable wb Hreach) as [Harr _].
    intros i j s s' Hi Hj Hkey.
    destruct (Harr i s Hi) as [Hidi Hki].
    destruct (Harr j s' Hj) as [Hidj Hkj].
    rewrite Hkey, Hkj in Hki. injection Hki as <-.
    rewrite Hidi in Hidj. injection Hidj as Hij. lia.
Qed.

(** X10.  The index [getStringIndex] returns is a position of the shared
    strings that holds the value; and a workbook made by the constructor
    and any calls after it holds no string twice. *)
Theorem shared_strings_index :
  (forall (wb : t) (val : jsval),
     0 <= (getStringIndex val wb).2
     /\ sharedStrings (getStringIndex val wb).1
          !! Z.to_nat (getStringIndex val wb).2 = Some val)
  /\ (forall wb : t, reachable wb -> NoDup (sharedStrings wb)).
Proof.
  split.
  - intros wb val.
    destruct (getStringIndex_strings val wb) as (extra & _ & Hin).
    apply (JSFacts.indexOf_lookup _ _ Hin).
  - intros wb (font & calls & ->). unfold run.
    assert (Hinit : NoDup (sharedStrings (constructor font))).
    { unfold constructor, createStyle. cbn. apply NoDup_nil_2. }
    revert Hinit. generalize (constructor font).
    induction calls as [|c calls IH]; intros wb Hnd; cbn; [exact Hnd|].
    apply IH, step_NoDup, Hnd.
Qed.

End Properties.

Lemma workbook_reachable :
  reachable (H := Reference.styles) Examples.workbook.
Proof. exists (∅ : gmap string string), []. reflexivity. Qed.

Lemma styles_registry_consistent_witness :
  reachable (H := Reference.styles) Examples.workbook
  /\ exists i : nat,
       Style.ids_cellXfs
         (createStyle (H := Reference.styles)
            ({["size" := "14"]} : gmap string string) Examples.workbook).2
       = JNum (Z.of_nat i).
Proof.
  split; [exact workbook_reachable|].
  destruct (proj1 (styles_registry_consistent (H := Reference.styles)
                     Examples.workbook
                     ({["size" := "14"]} : gmap string string)
                     workbook_reachable)) as (i & Hi & _).
  exists i. exact Hi.
Defined.

(** The same string interned twice. *)
Lemma shared_strings_index_witness :
  let wb :=
    run (H := Reference.styles) Examples.workbook
      [GetStringIndex (JStr "a"); GetStringIndex (JStr "a")] in
  reachable wb /\ NoDup (sharedStrings wb).
Proof.
  intros wb.
  assert (Hreach : reachable wb).
  { exists (∅ : gmap string string),
      [GetStringIndex (JStr "a"); GetStringIndex (JStr "a")].
    reflexivity. }
  split; [exact Hreach|].
  apply (proj2 (shared_strings_index (H := Reference.styles)) wb Hreach).
Defined.

End WorkbookProperties.

(** ** The selected tab *)

Module WorkbookSheetsProperties.

Import WorkbookSheets.

Lemma get_set_eq (k : string) (v : jsval) (o : object) :
  get k (set k v o) = v.
Proof.
  induction o as [|[k0 v0] o IH]; cbn.
  - rewrite String.eqb_refl. reflexivity.
  - destruct (String.eqb_spec k0 k) as [->|Hne]; cbn.
    + rewrite String.eqb_refl. reflexivity.
    + destruct (String.eqb_spec k0 k); [contradiction|exact IH].
Qed.

Lemma set_set (k : string) (v w : jsval) (o : object) :
  set k v (set k w o) = set k v o.
Proof.
  induction o as [|[k0 v0] o IH]; cbn.
  - rewrite String.eqb_refl. reflexivity.
  - destruct (String.eqb_spec k0 k) as [->|Hne]; cbn.
    + rewrite String.eqb_refl. reflexivity.
    + destruct (String.eqb_spec k0 k); [contradiction|].
      rewrite IH. reflexivity.
Qed.

Section Properties.
Context `{Collaborators}.

Lemma set_tabSelected_twice (v w : jsval) (s : Worksheet.t) :
  set_tabSelected v (set_tabSelected w s) = set_tabSelected v s.
Proof.
  unfold set_tabSelected, Worksheet.set_opts. cbn. rewrite set_set.
  reflexivity.
Qed.

Lemma tabSelected_set (v : jsval) (s : Worksheet.t) :
  tabSelected (set_tabSelected v s) = v.
Proof. unfold tabSelected, set_tabSelected. cbn. apply get_set_eq. Qed.

(** X11.  After [setSelectedTab(id)] every sheet holds [tabSelected]
    [1] if its [sheetId] is [id] and [0] if not, so an [id] no sheet has
    leaves none selected; nothing else of a sheet is written, no sheet
    is added or dropped, and of two calls the later one decides. *)
Theorem setSelectedTab_selects (id : jsval) (sheets : list Worksheet.t) :
  length (setSelectedTab id sheets) = length sheets
  /\ (forall (i : nat) (s : Worksheet.t),
        sheets !! i = Some s ->
        exists s' : Worksheet.t,
          setSelectedTab id sheets !! i = Some s'
          /\ tabSelected s'
             = (if strict_eq (Worksheet.sheetId s) id then JNum 1
                else JNum 0)
          /\ Worksheet.sheetId s' = Worksheet.sheetId s
          /\ (forall v, set_tabSelected v s' = set_tabSelected v s))
  /\ (forall id' : jsval,
        setSelectedTab id' (setSelectedTab id sheets)
        = setSelectedTab id' sheets).
Proof.
  unfold setSelectedTab. split; [apply length_map|]. split.
  - intros i s Hi. rewrite list_lookup_fmap, Hi. cbn.
    eexists. split; [reflexivity|].
    destruct (strict_eq (Worksheet.sheetId s) id);
      (split; [apply tabSelected_set|]);
      (split; [reflexivity|]);
      intros v; apply set_tabSelected_twice.
  - intros id'. rewrite map_map. apply map_ext. intros s.
    destruct (strict_eq (Worksheet.sheetId s) id); cbn [Worksheet.sheetId];
      change (Worksheet.sheetId (set_tabSelected _ s))
        with (Worksheet.sheetId s);
      destruct (strict_eq (Worksheet.sheetId s) id');
      apply set_tabSelected_twice.
Qed.

End Properties.

Section Written.
Context `{Collaborators} `{StyleClass}.

Import Builder DataValidationXml.

Lemma elem_of_att_non_null (c : Xml.call) (name : string) (v : jsval)
    (x : Xml.builder) :
  c ∈ att_non_null name v x
  <-> c ∈ x \/ (non_null v = true /\ c = Xml.Att name v).
Proof. apply elem_of_att_if. Qed.

(** X12.  The [tabSelected] attribute [_addSheetViews] writes for a
    sheet after [setSelectedTab(id)] is [1] if the sheet has that
    [sheetId] and [0] if not, and it writes no other. *)
Theorem selected_tab_written (id : jsval) (sheets : list Worksheet.t)
    (i : nat) (s s' : Worksheet.t) (b : Workbook.t) (x : Xml.builder)
    (p' : promiseObj) (v : jsval) :
  sheets !! i = Some s ->
  setSelectedTab id sheets !! i = Some s' ->
  _addSheetViews {| ws := s'; wb := b; xml := x |} = Ok p' ->
  Xml.Att "tabSelected" v ∈ xml p'
  <-> Xml.Att "tabSelected" v ∈ x
      \/ v = (if strict_eq (Worksheet.sheetId s) id then JNum 1
              else JNum 0).
Proof.
  intros Hi Hi' Hrun.
  assert (Htab : get "tabSelected" (Worksheet.sheetView (Worksheet.opts s'))
                 = (if strict_eq (Worksheet.sheetId s) id then JNum 1
                    else JNum 0)).
  { unfold setSelectedTab in Hi'. rewrite list_lookup_fmap, Hi in Hi'.
    injection Hi' as <-.
    destruct (strict_eq (Worksheet.sheetId s) id);
      apply (tabSelected_set _ s). }
  unfold _addSheetViews in Hrun. cbv zeta in Hrun.
  injection Hrun as <-. cbn [xml with_xml ws].
  rewrite Htab.
  destruct (0 <? _).
  - rewrite !elem_of_up, !elem_of_att_non_null, elem_of_ele,
      !elem_of_att, !elem_of_ele.
    split.
    + intros Hin.
      repeat match type of Hin with
             | _ \/ _ => destruct Hin as [Hin|Hin]
             end;
        first [ tauto | discriminate Hin
              | apply proj2 in Hin; discriminate Hin
              | injection Hin as ->; tauto ].
    + intros [Hin| ->]; tauto.
  - rewrite !elem_of_up, !elem_of_att, !elem_of_ele.
    split.
    + intros Hin.
      repeat match type of Hin with
             | _ \/ _ => destruct Hin as [Hin|Hin]
             end;
        first [ tauto | discriminate Hin
              | injection Hin as ->; tauto ].
    + intros [Hin| ->]; tauto.
Qed.

End Written.

(** Sheets 1 and 2, the second selected. *)
Lemma selected_tab_written_witness :
  let one : Worksheet.t (H := Reference.collaborators) :=
    Examples.sheet Examples.no_filter [] [] in
  let two : Worksheet.t (H := Reference.collaborators) :=
    Worksheet.set_rows ∅
      {| Worksheet.opts := Worksheet.opts one;
         Worksheet.name := JStr "Sheet2";
         Worksheet.sheetId := JNum 2;
         Worksheet.localSheetId := JNum 1;
         Worksheet.lastUsedRow := JNum 1;
         Worksheet.lastUsedCol := JNum 1;
         Worksheet.columnCount := 0;
         Worksheet.cols := [];
         Worksheet.rows := ∅;
         Worksheet.cells := Worksheet.cells one;
         Worksheet.mergedCells := None;
         Worksheet.cfRulesCollection := Worksheet.cfRulesCollection one;
         Worksheet.hyperlinkCollection := Worksheet.hyperlinkCollection one;
         Worksheet.dataValidationCollection := [];
         Worksheet.drawingCollection_isEmpty := true;
         Worksheet.relationships := [] |} in
  exists s' p',
    setSelectedTab (JNum 2) [one; two] !! 1%nat = Some s'
    /\ Builder._addSheetViews (H1 := Reference.styles)
         {| Builder.ws := s'; Builder.wb := Examples.workbook;
            Builder.xml := [] |} = Ok p'
    /\ Xml.Att "tabSelected" (JNum 1) ∈ Builder.xml p'.
Proof.
  intros one two. eexists. eexists.
  split; [reflexivity|]. split; [reflexivity|].
  apply (proj2 (selected_tab_written (H0 := Reference.styles) (JNum 2) [one; two] 1 two _
                  Examples.workbook [] _ (JNum 1)
                  eq_refl eq_refl eq_refl)).
  right. reflexivity.
Defined.

End WorkbookSheetsProperties.

(** ** What each stage adds to the document *)

Module StageFacts.

Import Builder XmlFacts Blocks.













Section Stages.
Context `{Utils} `{Collaborators} `{StyleClass}.

Lemma pre_att_non_null (name : string) (v : jsval) (x y : Xml.builder) :
  x `prefix_of` y -> x `prefix_of` att_non_null name v y.
Proof. apply pre_att_if. Qed.

Lemma pre_att_one_if_true (name : string) (v : jsval)
    (x y : Xml.builder) :
  x `prefix_of` y -> x `prefix_of` att_one_if_true name v y.
Proof. apply pre_att_if. Qed.

Lemma pre_ele_text_non_null (name : string) (v : jsval)
    (x y : Xml.builder) :
  x `prefix_of` y -> x `prefix_of` ele_text_non_null name v y.
Proof.
  intros Hpre. unfold ele_text_non_null.
  destruct (non_null v); [|exact Hpre].
  apply pre_up, pre_text, pre_ele, Hpre.
Qed.

Lemma pre_att_non_null_boolToInt (name : string) (v : jsval)
    (x y y' : Xml.builder) :
  att_non_null_boolToInt name v y = Ok y' ->
  x `prefix_of` y -> x `prefix_of` y'.
Proof.
  unfold att_non_null_boolToInt. destruct (non_null v); [|congruence].
  destruct (boolToInt v); cbn; [|discriminate].
  intros [= <-]. apply pre_att.
Qed.





Ltac pre_step :=
  first
    [ reflexivity
    | assumption
    | apply pre_up | apply pre_att | apply pre_ele | apply pre_text
    | apply pre_finish | apply pre_att_if
    | apply pre_att_non_null | apply pre_att_one_if_true
    | apply pre_ele_text_non_null
    | eapply pre_att_non_null_boolToInt; [eassumption|]
    | match goal with
      | |- _ `prefix_of` (if ?c then _ else _) => destruct c
      end ].

Ltac pre_tac := repeat pre_step.

(** Takes a run that returned apart: every [bind] that returned, every
    condition both ways. *)
Ltac run_step Hrun :=
  lazymatch type of Hrun with
  | Throw _ = Ok _ => discriminate Hrun
  | bind ?m _ = _ =>
      let E := fresh "E" in
      destruct m eqn:E; cbn [bind] in Hrun; [|discriminate Hrun]
  | (if ?c then _ else _) = _ => destruct c
  | context [if ?c then _ else _] => destruct c
  end.

Ltac run_tac Hrun := cbv zeta in Hrun; repeat run_step Hrun.













(** *** Sheet data *)








(** *** The stages after the sheet data *)

Lemma forEach_protection_pre (o : object) (ks : list string)
    (x x' : Xml.builder) :
  forEach_protection o ks x = Ok x' -> x `prefix_of` x'.
Proof.
  revert x. induction ks as [|k ks IH]; intros x; cbn.
  - intros [= <-]. reflexivity.
  - intros Hrun.
    match type of Hrun with
    | bind ?m _ = _ => destruct m as [x1|] eqn:Hk
    end; cbn [bind] in Hrun; [|discriminate].
    etransitivity; [|apply IH, Hrun].
    destruct (non_null (get k o)); [|injection Hk as <-; reflexivity].
    destruct (String.eqb k "password").
    + injection Hk as <-. pre_tac.
    + destruct (boolToInt (get k o)); cbn [bind] in Hk; [|discriminate].
      injection Hk as <-. pre_tac.
Qed.




Lemma mergeCell_foldl (l : list jsval) (x : Xml.builder) :
  foldl (fun ele cr =>
           Xml.up (Xml.att "ref" cr (Xml.ele "mergeCell" ele))) x l
  = x ++ flat_map (fun cr => [Xml.Ele "mergeCell"; Xml.Att "ref" cr;
                              Xml.Up]) l.
Proof.
  revert x. induction l as [|cr l IH]; intros x; cbn.
  - rewrite app_nil_r. reflexivity.
  - rewrite IH. unfold Xml.up, Xml.att, Xml.ele.
    rewrite <- !app_assoc. reflexivity.
Qed.




(** *** The rules *)











End Stages.
End StageFacts.

(** ** The order of the document *)

Module PipelineProperties.

Import Builder Blocks StageFacts.

Section Properties.
Context `{Utils} `{Collaborators} `{StyleClass}.





End Properties.



End PipelineProperties.

(** ** When the sheet data cannot be written *)

Module SheetDataProperties.

Import Builder SheetDataShape.

Section Properties.
Context `{Utils} `{Collaborators} `{StyleClass}.

Lemma addCells_throws (cs : gmap string Cell) (refs : list string)
    (x : Xml.builder) :
  (forall c y, returns (Cell_addToXMLele c y) = true) ->
  throws (addCells cs refs x) <-> exists ref, ref ∈ refs /\ cs !! ref = None.
Proof.
  intros Hcell. revert x.
  induction refs as [|c refs IH]; intros x; cbn.
  - split; [intros []|]. intros (ref & Hin & _). inversion Hin.
  - destruct (cs !! c) as [cell|] eqn:Hc.
    + pose proof (Hcell cell x) as Hret.
      apply JSFacts.returns_Ok in Hret as [x1 ->]. cbn [bind].
      rewrite IH. split.
      * intros (ref & Hin & Hnone). exists ref.
        split; [apply elem_of_cons; auto|exact Hnone].
      * intros (ref & Hin & Hnone).
        apply elem_of_cons in Hin as [->|Hin]; [congruence|eauto].
    + split; [|intros _; exact I]. intros _. exists c.
      split; [apply elem_of_cons; auto|exact Hc].
Qed.

Lemma processRow_throws (key : Z) (w : Worksheet.t) (ele : Xml.builder)
    (row : Row.t) :
  (forall c y, returns (Cell_addToXMLele c y) = true) ->
  Worksheet.rows w !! key = Some row ->
  throws (processRow key (w, ele))
  <-> exists ref, ref ∈ Row.cellRefs row /\ Worksheet.cells w !! ref = None.
Proof.
  intros Hcell Hrow. unfold processRow. rewrite Hrow. cbv zeta.
  cbn [Row.cellRefs Row.set_cellRefs Worksheet.cells Worksheet.set_rows].
  match goal with
  | |- throws (bind (addCells ?cs ?refs ?x) _) <-> _ =>
      pose proof (addCells_throws cs refs x Hcell) as Hthrows;
      destruct (addCells cs refs x) as [rEle|e]
  end; cbn [bind throws] in *; rewrite Hthrows;
    split; intros (ref & Hin & Hnone); exists ref;
    (split; [|exact Hnone]).
  all: first
    [ rewrite <- (SheetDataFacts.sort_Permutation sortCellRefs); exact Hin
    | rewrite (SheetDataFacts.sort_Permutation sortCellRefs); exact Hin ].
Qed.

Lemma processRow_missing (key : Z) (w : Worksheet.t) (ele : Xml.builder) :
  (forall c y, returns (Cell_addToXMLele c y) = true) ->
  is_Some (Worksheet.rows w !! key) ->
  throws (processRow key (w, ele)) <-> missing_at w key.
Proof.
  intros Hcell [row Hrow].
  rewrite (processRow_throws key w ele row Hcell Hrow).
  unfold missing_at. split.
  - intros (ref & Hin & Hnone). exists row, ref. auto.
  - intros (row' & ref & Hrow' & Hin & Hnone).
    rewrite Hrow in Hrow'. injection Hrow' as <-. eauto.
Qed.

Lemma missing_at_sorted (w : Worksheet.t) (k key : Z) :
  missing_at
    (Worksheet.set_rows
       (alter SheetData.sorted_row k (Worksheet.rows w)) w) key
  <-> missing_at w key.
Proof.
  unfold missing_at.
  cbn [Worksheet.rows Worksheet.cells Worksheet.set_rows].
  split.
  - intros (row & ref & Hrow & Hin & Hnone).
    rewrite lookup_alter in Hrow.
    destruct (decide (k = key)) as [->|Hne]; [|eauto].
    destruct (Worksheet.rows w !! key) as [row0|]; [|discriminate].
    injection Hrow as <-. exists row0, ref.
    split; [reflexivity|]. split; [|exact Hnone].
    unfold SheetData.sorted_row in Hin. cbn [Row.cellRefs Row.set_cellRefs] in Hin.
    rewrite (SheetDataFacts.sort_Permutation sortCellRefs) in Hin.
    exact Hin.
  - intros (row & ref & Hrow & Hin & Hnone).
    destruct (decide (k = key)) as [->|Hne].
    + exists (SheetData.sorted_row row), ref.
      rewrite lookup_alter, decide_True, Hrow by reflexivity.
      split; [reflexivity|]. split; [|exact Hnone].
      unfold SheetData.sorted_row. cbn [Row.cellRefs Row.set_cellRefs].
      rewrite (SheetDataFacts.sort_Permutation sortCellRefs). exact Hin.
    + exists row, ref. rewrite lookup_alter, decide_False by exact Hne.
      auto.
Qed.

Lemma is_Some_sorted (w : Worksheet.t) (k key : Z) :
  is_Some (Worksheet.rows w !! key) ->
  is_Some (Worksheet.rows
             (Worksheet.set_rows
                (alter SheetData.sorted_row k (Worksheet.rows w)) w)
           !! key).
Proof.
  cbn [Worksheet.rows Worksheet.set_rows]. intros [row Hrow].
  rewrite lookup_alter. destruct (decide (k = key)) as [->|Hne].
  - rewrite Hrow. eauto.
  - rewrite Hrow. eauto.
Qed.

Lemma processRows_for_throws (l : list Z) (w : Worksheet.t)
    (ele : Xml.builder) :
  (forall c y, returns (Cell_addToXMLele c y) = true) ->
  (forall k, k ∈ l -> is_Some (Worksheet.rows w !! k)) ->
  throws (processRows_for l (w, ele))
  <-> exists key, key ∈ l /\ missing_at w key.
Proof.
  intros Hcell. revert w ele.
  induction l as [|k l IH]; intros w ele Hrows; cbn [processRows_for].
  - split; [intros []|]. intros (key & Hin & _). inversion Hin.
  - assert (Hk : is_Some (Worksheet.rows w !! k))
      by (apply Hrows, elem_of_cons; auto).
    pose proof (processRow_missing k w ele Hcell Hk) as Hthrow.
    destruct (processRow k (w, ele)) as [[w1 ele1]|e] eqn:Hrun;
      cbn [bind throws] in *.
    + pose proof (SheetDataFacts.processRow_frame _ _ _ _ _ Hrun) as ->.
      rewrite IH.
      2:{ intros k' Hk'. apply is_Some_sorted, Hrows, elem_of_cons. auto. }
      split.
      * intros (key & Hin & Hmiss). exists key.
        split; [apply elem_of_cons; auto|].
        apply missing_at_sorted in Hmiss. exact Hmiss.
      * intros (key & Hin & Hmiss).
        apply elem_of_cons in Hin as [->|Hin]; [tauto|].
        exists key. split; [exact Hin|]. apply missing_at_sorted, Hmiss.
    + split; [|intros _; exact I]. intros _. exists k.
      split; [apply elem_of_cons; auto|tauto].
Qed.

(** X14.  When no cell throws while it is written, the sheet-data stage
    throws exactly when some row lists a cell reference that
    [ws.cells] does not have (the calls on the document are recorded
    and do not throw). *)
Theorem sheetData_throws_iff_missing_cell (p : promiseObj) :
  (forall c y, returns (Cell_addToXMLele c y) = true) ->
  throws (_addSheetData p) <-> missing_cell (ws p).
Proof.
  intros Hcell. unfold _addSheetData. cbv zeta.
  rewrite SheetDataFacts.processNextRows_linear by lia.
  destruct (SheetDataFacts.rows_keys_spec (ws p)) as [_ Hkeys].
  pose proof (processRows_for_throws (Worksheet.rows_keys (ws p)) (ws p)
                (Xml.ele "sheetData" (xml p)) Hcell
                (fun k Hk => proj1 (Hkeys k) Hk)) as Hthrow.
  assert (Hsame :
    throws (processRows_for (Worksheet.rows_keys (ws p))
              (ws p, Xml.ele "sheetData" (xml p)))
    <-> missing_cell (ws p)).
  { rewrite Hthrow. unfold missing_cell. split.
    - intros (key & _ & Hmiss). eauto.
    - intros (key & Hmiss). exists key. split; [|exact Hmiss].
      apply Hkeys. destruct Hmiss as (row & _ & Hrow & _). eauto. }
  rewrite <- Hsame.
  destruct (processRows_for _ _) as [st|e]; cbn [bind throws]; reflexivity.
Qed.

End Properties.

(** Row 1 lists [A1] and the worksheet has no cell. *)
Lemma sheetData_throws_iff_missing_cell_witness :
  let w := Examples.sheet Examples.no_filter
             [(1, Examples.row 1 ["A1"])] [] in
  (forall c y,
     returns (Cell_addToXMLele (Collaborators := Reference.collaborators)
                c y) = true)
  /\ missing_cell w
  /\ throws (_addSheetData (H := Reference.utils) (Examples.promise w)).
Proof.
  intros w.
  assert (Hcell : forall c y,
            returns (Cell_addToXMLele
                       (Collaborators := Reference.collaborators) c y)
            = true) by reflexivity.
  assert (Hmiss : missing_cell w).
  { exists 1, (Examples.row 1 ["A1"]), "A1"%string.
    split; [reflexivity|]. split; [|reflexivity].
    apply list_elem_of_singleton. reflexivity. }
  split; [exact Hcell|]. split; [exact Hmiss|].
  apply (proj2 (sheetData_throws_iff_missing_cell (H := Reference.utils)
                  (Examples.promise w) Hcell)).
  exact Hmiss.
Defined.

End SheetDataProperties.

(** ** Sheet protection, merged cells and the filter, once more *)

Module StageProperties.

Import Builder DataValidationXml WorkbookSheetsProperties.

Lemma elem_of_keys_set (k : string) (v : jsval) (o : object) :
  k ∈ keys (set k v o).
Proof.
  unfold keys. induction o as [|[k0 v0] o IH]; cbn.
  - apply elem_of_cons. auto.
  - destruct (String.eqb k0 k); cbn; apply elem_of_cons; auto.
Qed.

Lemma elem_of_keys_set_other (k k' : string) (v : jsval) (o : object) :
  k' ∈ keys o -> k' ∈ keys (set k v o).
Proof.
  unfold keys. induction o as [|[k0 v0] o IH]; cbn; [intros Hin; inversion Hin|].
  intros Hin. apply elem_of_cons in Hin as [->|Hin].
  - destruct (String.eqb_spec k0 k) as [->|Hne]; cbn; apply elem_of_cons; auto.
  - destruct (String.eqb k0 k); cbn; apply elem_of_cons; auto.
Qed.

Section Properties.
Context `{Utils} `{Collaborators} `{StyleClass}.

(** The calls made for the keys of the protection options. *)
Lemma forEach_protection_calls (o : object) (ks : list string)
    (ele x : Xml.builder) (c : Xml.call) :
  forEach_protection o ks ele = Ok x ->
  c ∈ x ->
  c ∈ ele
  \/ exists k, k ∈ ks /\ non_null (get k o) = true
       /\ ((k = "password"
            /\ c = Xml.Att "password" (getHashOfPassword (get k o)))
           \/ (k <> "password"
               /\ exists i, boolToInt (get k o) = Ok i
                            /\ c = Xml.Att k i)).
Proof.
  revert ele. induction ks as [|k ks IH]; intros ele; cbn.
  - intros [= <-]. auto.
  - intros Hrun Hin.
    match type of Hrun with
    | bind ?m _ = _ => destruct m as [x1|] eqn:Hk
    end; cbn [bind] in Hrun; [|discriminate].
    destruct (IH _ Hrun Hin) as [Hin1|(k' & Hk' & Hrest)].
    2:{ right. exists k'. split; [apply elem_of_cons; auto|exact Hrest]. }
    destruct (non_null (get k o)) eqn:Hnn;
      [|injection Hk as <-; auto].
    destruct (String.eqb_spec k "password") as [->|Hne].
    + injection Hk as <-. apply elem_of_att in Hin1 as [Hin1| ->]; [auto|].
      right. exists "password"%string.
      split; [apply elem_of_cons; auto|]. split; [exact Hnn|]. auto.
    + destruct (boolToInt (get k o)) as [i|] eqn:Hi; cbn [bind] in Hk;
        [|discriminate].
      injection Hk as <-. apply elem_of_att in Hin1 as [Hin1| ->]; [auto|].
      right. exists k. split; [apply elem_of_cons; auto|].
      split; [exact Hnn|]. right. split; [exact Hne|]. eauto.
Qed.

(** Every key that is set and is not the password is written. *)
Lemma forEach_protection_written (o : object) (ks : list string)
    (ele x : Xml.builder) (k : string) :
  forEach_protection o ks ele = Ok x ->
  k ∈ ks -> non_null (get k o) = true -> k <> "password" ->
  exists i, boolToInt (get k o) = Ok i /\ Xml.Att k i ∈ x.
Proof.
  revert ele. induction ks as [|k0 ks IH]; intros ele; cbn;
    [intros _ Hin; inversion Hin|].
  intros Hrun Hin Hnn Hne.
  match type of Hrun with
  | bind ?m _ = _ => destruct m as [x1|] eqn:Hk
  end; cbn [bind] in Hrun; [|discriminate].
  apply elem_of_cons in Hin as [<-|Hin]; [|apply (IH _ Hrun Hin Hnn Hne)].
  rewrite Hnn in Hk.
  destruct (String.eqb_spec k "password") as [->|_]; [contradiction|].
  destruct (boolToInt (get k o)) as [i|] eqn:Hi; cbn [bind] in Hk;
    [|discriminate].
  injection Hk as <-. exists i. split; [reflexivity|].
  destruct (StageFacts.forEach_protection_pre _ _ _ _ Hrun) as [rest ->].
  apply elem_of_app. left. apply elem_of_att. auto.
Qed.

(** The value a required field is left with. *)
Lemma get_protection_defaults (o : object) (k : string) :
  any_non_null o = true ->
  k ∈ ["sheet"; "objects"; "scenarios"] ->
  get k (PipelineSpec.protection_defaults o)
  = (if non_null (get k o) then get k o else JBool true)
  /\ k ∈ keys (PipelineSpec.protection_defaults o).
Proof.
  intros Hany Hk. unfold PipelineSpec.protection_defaults.
  rewrite Hany. unfold default_true.
  repeat (apply elem_of_cons in Hk as [->|Hk]); [| | |inversion Hk].
  - rewrite !PipelineFacts.get_set_ne, get_set_eq by discriminate.
    split; [reflexivity|].
    do 2 apply elem_of_keys_set_other. apply elem_of_keys_set.
  - rewrite PipelineFacts.get_set_ne, get_set_eq,
      PipelineFacts.get_set_ne by discriminate.
    split; [reflexivity|].
    apply elem_of_keys_set_other, elem_of_keys_set.
  - rewrite get_set_eq, !PipelineFacts.get_set_ne by discriminate.
    split; [reflexivity|]. apply elem_of_keys_set.
Qed.

(** X15.  The only [password] the protection stage writes is what
    [getHashOfPassword] returns for the option; and when any protection
    option is set, [sheet], [objects] and [scenarios] are written each,
    as given or as [true]. *)
Theorem protection_attributes (p p' : promiseObj) :
  _addSheetProtection p = Ok p' ->
  let o := Worksheet.sheetProtection (Worksheet.opts (ws p)) in
  (forall v, Xml.Att "password" v ∈ xml p' ->
             Xml.Att "password" v ∈ xml p
             \/ v = getHashOfPassword (get "password" o))
  /\ (any_non_null o = true ->
      forall k, k ∈ ["sheet"; "objects"; "scenarios"] ->
        exists i,
          boolToInt (if non_null (get k o) then get k o else JBool true)
          = Ok i
          /\ Xml.Att k i ∈ xml p').
Proof.
  intros Hrun o. unfold _addSheetProtection in Hrun. cbv zeta in Hrun.
  fold o in Hrun.
  destruct (any_non_null o) eqn:Hany.
  2:{ injection Hrun as <-. split; [auto|discriminate]. }
  destruct (forEach_protection _ _ _) as [x1|] eqn:Hks;
    cbn [bind] in Hrun; [|discriminate].
  injection Hrun as <-. cbn [xml].
  assert (Hdef : PipelineSpec.protection_defaults o
                 = default_true "scenarios"
                     (default_true "objects" (default_true "sheet" o))).
  { unfold PipelineSpec.protection_defaults. rewrite Hany. reflexivity. }
  rewrite <- Hdef in Hks.
  split.
  - intros v Hin. apply elem_of_up in Hin as [Hin|Hin]; [|discriminate].
    apply (forEach_protection_calls _ _ _ _ _ Hks) in Hin
      as [Hin|(k & _ & _ & [[-> Heq]|(Hne & i & _ & Heq)])].
    + apply elem_of_ele in Hin as [Hin|Hin]; [auto|discriminate].
    + right. injection Heq as ->.
      rewrite PipelineFacts.protection_defaults_other by discriminate.
      reflexivity.
    + injection Heq as <- _. contradiction.
  - intros _ k Hk.
    destruct (get_protection_defaults o k Hany Hk) as [Hget Hkeys].
    destruct (forEach_protection_written _ _ _ _ k Hks Hkeys)
      as (i & Hi & Hin).
    + rewrite Hget. destruct (non_null (get k o)) eqn:Hnn;
        [exact Hnn|reflexivity].
    + repeat (apply elem_of_cons in Hk as [->|Hk]);
        [discriminate|discriminate|discriminate|inversion Hk].
    + exists i. rewrite <- Hget. split; [exact Hi|].
      apply elem_of_up. auto.
Qed.

(** X16.  The merge stage writes nothing for an empty list or when
    [mergedCells] is no array; for a list with ranges it writes
    [mergeCells] with their number as [count] and one [mergeCell] with
    its [ref] for each range, in the order of the list. *)
Theorem mergeCells_calls (p p' : promiseObj) :
  _addMergeCells p = Ok p' ->
  xml p'
  = xml p
      ++ match Worksheet.mergedCells (ws p) with
         | Some (cr :: l) =>
             [Xml.Ele "mergeCells";
              Xml.Att "count" (JNum (Z.of_nat (length (cr :: l))))]
               ++ flat_map
                    (fun cr => [Xml.Ele "mergeCell"; Xml.Att "ref" cr;
                                Xml.Up]) (cr :: l)
               ++ [Xml.Up]
         | _ => []
         end
  /\ ws p' = ws p /\ wb p' = wb p.
Proof.
  unfold _addMergeCells. intros Hrun.
  destruct (Worksheet.mergedCells (ws p)) as [[|cr l]|];
    try (injection Hrun as <-; rewrite app_nil_r; auto).
  change (0 <? Z.of_nat (length (cr :: l))) with true in Hrun.
  cbv zeta iota in Hrun. injection Hrun as <-. cbn [xml ws wb with_xml].
  split; [|auto].
  rewrite StageFacts.mergeCell_foldl.
  unfold Xml.up, Xml.att, Xml.ele. rewrite <- !app_assoc. reflexivity.
Qed.

(** X17.  The filter stage run a second time, on the worksheet and the
    workbook the first run left, resolves the same range: it writes the
    same calls and leaves the worksheet as it was, and the workbook
    gets the defined name of the filter once more. *)
Theorem autoFilter_rerun (p p1 : promiseObj) :
  _addAutoFilter p = Ok p1 ->
  exists p2 : promiseObj,
    _addAutoFilter {| ws := ws p1; wb := wb p1; xml := xml p |} = Ok p2
    /\ ws p2 = ws p1
    /\ xml p2 = xml p1
    /\ exists added,
         Workbook.definedNameCollection (wb p1)
         = Workbook.definedNameCollection (wb p) ++ added
         /\ Workbook.definedNameCollection (wb p2)
            = Workbook.definedNameCollection (wb p1) ++ added.
Proof.
  intros Hrun.
  destruct (Worksheet.startRow
              (Worksheet.autoFilter (Worksheet.opts (ws p))))
    as [| | |start|] eqn:Hstart;
    try (unfold _addAutoFilter in Hrun |- *; rewrite Hstart in Hrun;
         injection Hrun as <-; cbn [ws wb xml]; rewrite Hstart;
         eexists; split; [reflexivity|]; cbn [ws wb xml];
         split; [reflexivity|]; split; [reflexivity|];
         exists []; rewrite !app_nil_r; auto).
  rewrite (AutoFilterFacts.addAutoFilter_run p start Hstart) in Hrun.
  set (o := Worksheet.autoFilter (Worksheet.opts (ws p))) in *.
  set (er := if is_number (Worksheet.endRow o) then Worksheet.endRow o
             else JNum (firstEmptyRow (Worksheet.rows (ws p)) start - 1))
    in *.
  assert (Her : is_number er = true).
  { subst er. destruct (is_number (Worksheet.endRow o)) eqn:E;
      [exact E|reflexivity]. }
  assert (Hresolved : forall sc ec (p1 : promiseObj),
    (is_number (Worksheet.startCol o) && is_number (Worksheet.endCol o)
       = true -> sc = Worksheet.startCol o /\ ec = Worksheet.endCol o) ->
    (is_number (Worksheet.startCol o) && is_number (Worksheet.endCol o)
       = false ->
     exists row, Worksheet.rows (ws p) !! start = Some row
                 /\ sc = firstColumn row /\ ec = lastColumn row) ->
    p1 = {| ws :=
              Worksheet.set_autoFilter
                (AutoFilterSpec.resolved o start sc ec er) (ws p);
            wb :=
              Workbook.set_definedNameCollection
                (Workbook.definedNameCollection (wb p)
                   ++ [AutoFilterSpec.filter_database (ws p) sc start ec
                         er]) (wb p);
            xml :=
              xml p ++ [Xml.Ele "autoFilter";
                        Xml.Att "ref"
                          (JStr (AutoFilterSpec.range_ref sc start ec er));
                        Xml.Up] |} ->
    exists p2 : promiseObj,
      _addAutoFilter {| ws := ws p1; wb := wb p1; xml := xml p |} = Ok p2
      /\ ws p2 = ws p1
      /\ xml p2 = xml p1
      /\ exists added,
           Workbook.definedNameCollection (wb p1)
           = Workbook.definedNameCollection (wb p) ++ added
           /\ Workbook.definedNameCollection (wb p2)
              = Workbook.definedNameCollection (wb p1) ++ added).
  { intros sc ec q Hnum Hrow ->. cbn [ws wb xml].
    rewrite (AutoFilterFacts.addAutoFilter_run _ start) by reflexivity.
    cbn [ws wb xml Worksheet.opts Worksheet.set_autoFilter
         Worksheet.set_opts Worksheet.autoFilter Worksheet.rows
         AutoFilterSpec.resolved Worksheet.startCol Worksheet.endCol
         Worksheet.endRow Worksheet.name Worksheet.localSheetId].
    rewrite Her.
    assert (Hsame :
      forall sc' ec',
        sc' = sc -> ec' = ec ->
        exists p2 : promiseObj,
          Ok {| ws :=
                  Worksheet.set_autoFilter
                    (AutoFilterSpec.resolved
                       (AutoFilterSpec.resolved o start sc ec er) start
                       sc' ec' er)
                    (Worksheet.set_autoFilter
                       (AutoFilterSpec.resolved o start sc ec er) (ws p));
                wb :=
                  Workbook.set_definedNameCollection
                    (Workbook.definedNameCollection
                       (Workbook.set_definedNameCollection
                          (Workbook.definedNameCollection (wb p)
                             ++ [AutoFilterSpec.filter_database (ws p) sc
                                   start ec er]) (wb p))
                       ++ [AutoFilterSpec.filter_database
                             (Worksheet.set_autoFilter
                                (AutoFilterSpec.resolved o start sc ec er)
                                (ws p)) sc' start ec' er])
                    (Workbook.set_definedNameCollection
                       (Workbook.definedNameCollection (wb p)
                          ++ [AutoFilterSpec.filter_database (ws p) sc
                                start ec er]) (wb p));
                xml :=
                  xml p ++ [Xml.Ele "autoFilter";
                            Xml.Att "ref"
                              (JStr (AutoFilterSpec.range_ref sc' start ec'
                                       er));
                            Xml.Up] |} = Ok p2
          /\ ws p2 = Worksheet.set_autoFilter
                       (AutoFilterSpec.resolved o start sc ec er) (ws p)
          /\ xml p2 = xml p ++ [Xml.Ele "autoFilter";
                                Xml.Att "ref"
                                  (JStr (AutoFilterSpec.range_ref sc start
                                           ec er));
                                Xml.Up]
          /\ exists added,
               Workbook.definedNameCollection (wb p)
                 ++ [AutoFilterSpec.filter_database (ws p) sc start ec er]
               = Workbook.definedNameCollection (wb p) ++ added
               /\ Workbook.definedNameCollection (wb p2)
                  = (Workbook.definedNameCollection (wb p)
                       ++ [AutoFilterSpec.filter_database (ws p) sc start
                             ec er]) ++ added).
    { intros sc' ec' -> ->. eexists. split; [reflexivity|].
      cbn [ws wb xml]. split.
      - unfold Worksheet.set_autoFilter, Worksheet.set_opts,
          AutoFilterSpec.resolved. cbn. reflexivity.
      - split; [reflexivity|]. eexists. split; [reflexivity|].
        reflexivity. }
    destruct (is_number sc && is_number ec) eqn:Hcols.
    - apply Hsame; reflexivity.
    - destruct (is_number (Worksheet.startCol o)
                && is_number (Worksheet.endCol o)) eqn:Horig.
      + destruct (Hnum eq_refl) as [-> ->]. congruence.
      + destruct (Hrow eq_refl) as (row & Hr & -> & ->). rewrite Hr.
        apply Hsame; reflexivity. }
  destruct (is_number (Worksheet.startCol o)
            && is_number (Worksheet.endCol o)) eqn:Hcols.
  - injection Hrun as <-.
    eapply Hresolved; [| |reflexivity]; [auto|discriminate].
  - destruct (Worksheet.rows (ws p) !! start) as [row|] eqn:Hrow;
      [|discriminate].
    injection Hrun as <-.
    eapply Hresolved; [| |reflexivity]; [discriminate|eauto].
Qed.

End Properties.

(** A password and nothing else: [sheet] is written as [true] is. *)
Lemma protection_attributes_witness :
  exists p' i,
    _addSheetProtection (H := Reference.utils) (H1 := Reference.styles)
      (Examples.promise MoreExamples.protected_sheet) = Ok p'
    /\ boolToInt (Utils := Reference.utils) (JBool true) = Ok i
    /\ Xml.Att "sheet" i ∈ xml p'.
Proof.
  eexists.
  destruct (proj2 (protection_attributes (H := Reference.utils)
                     (H1 := Reference.styles)
                     (Examples.promise MoreExamples.protected_sheet) _
                     eq_refl) eq_refl "sheet"%string)
    as (i & Hi & Hin).
  { apply elem_of_cons. auto. }
  exists i. split; [reflexivity|]. split; [exact Hi|exact Hin].
Defined.

(** Two merged ranges. *)
Lemma mergeCells_calls_witness :
  exists p',
    _addMergeCells (H1 := Reference.styles)
      (Examples.promise MoreExamples.merged_sheet) = Ok p'
    /\ xml p'
       = [Xml.Ele "mergeCells"; Xml.Att "count" (JNum 2);
          Xml.Ele "mergeCell"; Xml.Att "ref" (JStr "A1:B2"); Xml.Up;
          Xml.Ele "mergeCell"; Xml.Att "ref" (JStr "C1:C3"); Xml.Up;
          Xml.Up].
Proof.
  eexists. split; [reflexivity|].
  apply (proj1 (mergeCells_calls (H1 := Reference.styles)
                  (Examples.promise MoreExamples.merged_sheet) _ eq_refl)).
Defined.

(** Rows 5, 6 and 7 with [startRow: 5], the stage run twice. *)
Lemma autoFilter_rerun_witness :
  exists p1 p2,
    _addAutoFilter (H := Reference.utils) (H1 := Reference.styles)
      (Examples.promise Examples.filtered_sheet) = Ok p1
    /\ _addAutoFilter (H := Reference.utils) (H1 := Reference.styles)
         {| ws := ws p1; wb := wb p1; xml := [] |} = Ok p2
    /\ ws p2 = ws p1 /\ xml p2 = xml p1.
Proof.
  assert (Hok : returns
                  (_addAutoFilter (H := Reference.utils)
                     (H1 := Reference.styles)
                     (Examples.promise Examples.filtered_sheet)) = true)
    by (vm_compute; reflexivity).
  apply JSFacts.returns_Ok in Hok as [p1 Hrun].
  destruct (autoFilter_rerun (H := Reference.utils)
              (H1 := Reference.styles) _ p1 Hrun)
    as (p2 & Hrun2 & Hws & Hxml & _).
  exists p1, p2. split; [exact Hrun|]. split; [exact Hrun2|].
  split; [exact Hws|exact Hxml].
Defined.

End StageProperties.

(** ** The relationships part *)

Module RelsProperties.

Import Rels.

Lemma rId_inj (i j : nat) : rId i = rId j -> i = j.
Proof.
  unfold rId. cbn [ToString String.append]. intros Heq.
  injection Heq as Heq.
  change (pretty (Z.of_nat i + 1) = pretty (Z.of_nat j + 1)) in Heq.
  apply (inj pretty) in Heq. lia.
Qed.

Section Properties.
Context `{Collaborators}.

Lemma relationship_node_Id (sid : jsval) (i : nat)
    (r : Worksheet.relationship) (c : node) :
  relationship_node sid i r = Some c -> attribute "Id" c = JStr (rId i).
Proof.
  destruct r as [location|v]; cbn.
  - intros [= <-]. reflexivity.
  - destruct (strict_eq v (JStr "drawing")); [|discriminate].
    intros [= <-]. reflexivity.
Qed.

(** What the loop adds to the root: one child for every entry that is a
    link or the drawing marker, in the order of the entries, with the
    position of the entry in its identifier. *)
Lemma forEach_relationships_children (sid : jsval)
    (l : list Worksheet.relationship) (i : nat) (n : node) :
  exists added : list node,
    forEach_relationships sid i l n
    = Node (name n) (attributes n) (children n ++ added)
    /\ (forall c, c ∈ added
                  <-> exists k r, l !! k = Some r
                                  /\ relationship_node sid (i + k) r
                                     = Some c)
    /\ NoDup (map (attribute "Id") added)
    /\ Forall (fun c => exists j, (i <= j)%nat
                                  /\ attribute "Id" c = JStr (rId j))
         added.
Proof.
  revert i n. induction l as [|r l IH]; intros i n.
  - exists []. cbn. rewrite app_nil_r. split; [destruct n; reflexivity|].
    split.
    + intros c. split; [intros Hin; inversion Hin|].
      intros (k & r & Hk & _). discriminate.
    + split; [apply NoDup_nil_2|apply Forall_nil_2].
  - cbn [forEach_relationships].
    destruct (relationship_node sid i r) as [c0|] eqn:Hr.
    + destruct (IH (S i) (add_child c0 n))
        as (added & Heq & Hin & Hnd & Hids).
      exists (c0 :: added). split.
      { rewrite Heq. destruct n as [nm atts ch]. cbn.
        rewrite <- app_assoc. reflexivity. }
      split.
      { intros c. rewrite elem_of_cons, Hin. split.
        - intros [->|(k & r' & Hk & Hc)].
          + exists 0%nat, r. rewrite Nat.add_0_r. auto.
          + exists (S k), r'. rewrite Nat.add_succ_r. auto.
        - intros ([|k] & r' & Hk & Hc).
          + cbn in Hk. injection Hk as <-. rewrite Nat.add_0_r in Hc.
            left. congruence.
          + right. exists k, r'. rewrite Nat.add_succ_r in Hc. auto. }
      split.
      { cbn [map]. apply NoDup_cons. split; [|exact Hnd].
        rewrite (relationship_node_Id _ _ _ _ Hr).
        intros Hdup. apply list_elem_of_fmap in Hdup as (c & Hc & Hcin).
        rewrite Forall_forall in Hids.
        destruct (Hids c Hcin) as (j & Hj & Hid).
        rewrite Hid in Hc.
        assert (Hij : j = i) by (apply rId_inj; congruence). lia. }
      apply Forall_cons. split.
      { exists i. split; [lia|apply (relationship_node_Id _ _ _ _ Hr)]. }
      eapply Forall_impl; [exact Hids|].
      intros c (j & Hj & Hid). exists j. split; [lia|exact Hid].
    + destruct (IH (S i) n) as (added & Heq & Hin & Hnd & Hids).
      exists added. split; [exact Heq|]. split.
      { intros c. rewrite Hin. split.
        - intros (k & r' & Hk & Hc). exists (S k), r'.
          rewrite Nat.add_succ_r. auto.
        - intros ([|k] & r' & Hk & Hc).
          + cbn in Hk. injection Hk as <-. rewrite Nat.add_0_r in Hc.
            congruence.
          + exists k, r'. rewrite Nat.add_succ_r in Hc. auto. }
      split; [exact Hnd|].
      eapply Forall_impl; [exact Hids|].
      intros c (j & Hj & Hid). exists j. split; [lia|exact Hid].
Qed.

(** The document of a worksheet that has relationships. *)
Lemma relsXML_document (w : Worksheet.t) :
  Worksheet.relationships w <> [] ->
  exists doc : document,
    relsXML w = Resolved (Some doc)
    /\ name (root doc) = "Relationships"
    /\ (forall c, c ∈ children (root doc)
                  <-> exists i r,
                        Worksheet.relationships w !! i = Some r
                        /\ relationship_node (Worksheet.sheetId w) i r
                           = Some c)
    /\ NoDup (map (attribute "Id") (children (root doc))).
Proof.
  intros Hne. unfold relsXML. cbv zeta.
  destruct (Worksheet.relationships w) as [|r l] eqn:Hl; [congruence|].
  change (0 <? Z.of_nat (length (r :: l))) with true. cbn [negb resolve].
  destruct (forEach_relationships_children (Worksheet.sheetId w) (r :: l) 0
              (att "xmlns"
                 (JStr "http://schemas.openxmlformats.org/package/2006/relationships")
                 (Node "Relationships" [] [])))
    as (added & Heq & Hin & Hnd & _).
  eexists. split; [reflexivity|]. cbn [root]. rewrite Heq.
  cbn [name children att app]. split; [reflexivity|].
  split; [exact Hin|exact Hnd].
Qed.

(** X18.  [relsXML] resolves with [undefined] exactly when the worksheet
    has no relationships, although it goes on to build the document;
    otherwise it resolves with a [Relationships] document that has one
    [Relationship] for every entry that is a link or the drawing marker,
    the entry at position [i] with the identifier [rId] and [i + 1], so
    that no two have the same identifier. *)
Theorem relsXML_relationships (w : Worksheet.t) :
  (relsXML w = Resolved None <-> Worksheet.relationships w = [])
  /\ (Worksheet.relationships w <> [] ->
      exists doc : document,
        relsXML w = Resolved (Some doc)
        /\ name (root doc) = "Relationships"
        /\ (forall c, c ∈ children (root doc)
                      <-> exists i r,
                            Worksheet.relationships w !! i = Some r
                            /\ relationship_node (Worksheet.sheetId w) i r
                               = Some c)
        /\ (forall c i r,
              relationship_node (Worksheet.sheetId w) i r = Some c ->
              attribute "Id" c = JStr (rId i))
        /\ NoDup (map (attribute "Id") (children (root doc)))).
Proof.
  split.
  - split.
    + intros Hres.
      destruct (Worksheet.relationships w) as [|r l] eqn:Hl;
        [reflexivity|].
      destruct (relsXML_document w) as (doc & Hdoc & _);
        [congruence|congruence].
    + intros Hl. unfold relsXML. rewrite Hl. reflexivity.
  - intros Hne.
    destruct (relsXML_document w Hne) as (doc & Hdoc & Hname & Hin & Hnd).
    exists doc. split; [exact Hdoc|]. split; [exact Hname|].
    split; [exact Hin|]. split; [|exact Hnd].
    intros c i r. apply relationship_node_Id.
Qed.

End Properties.

Section Drawing.
Context `{Collaborators} `{StyleClass}.

Import Builder.

(** [relationships.indexOf(v)]: the first position of the marker, or
    [-1]. *)
Lemma relationships_indexOf_spec (l : list Worksheet.relationship)
    (v : jsval) (i : Z) :
  (exists k : nat,
     relationships_indexOf i l v = i + Z.of_nat k
     /\ l !! k = Some (Worksheet.RelMarker v))
  \/ (relationships_indexOf i l v = -1 /\ Worksheet.RelMarker v ∉ l).
Proof.
  revert i. induction l as [|r l IH]; intros i; cbn.
  - right. split; [reflexivity|]. intros Hin. inversion Hin.
  - destruct r as [location|w].
    + destruct (IH (i + 1)) as [(k & Hk & Hl)|[Hk Hl]].
      * left. exists (S k). split; [lia|exact Hl].
      * right. split; [exact Hk|].
        intros Hin. apply elem_of_cons in Hin as [Hin|Hin];
          [discriminate|contradiction].
    + unfold strict_eq. case_bool_decide as Hw.
      * subst w. left. exists 0%nat. split; [lia|reflexivity].
      * destruct (IH (i + 1)) as [(k & Hk & Hl)|[Hk Hl]].
        -- left. exists (S k). split; [lia|exact Hl].
        -- right. split; [exact Hk|].
           intros Hin. apply elem_of_cons in Hin as [Hin|Hin];
             [congruence|contradiction].
Qed.

(** X19.  The [r:id] the drawing stage writes is the identifier
    [relsXML] gives the drawing marker of the worksheet, whose target is
    the drawing of that sheet; without a marker among the relationships
    the stage writes [rId0], an identifier no relationship has. *)
Theorem drawing_id_in_rels (p p' : promiseObj) :
  Worksheet.drawingCollection_isEmpty (ws p) = false ->
  _addDrawing p = Ok p' ->
  exists id : string,
    xml p' = xml p ++ [Xml.Ele "drawing"; Xml.Att "r:id" (JStr id); Xml.Up]
    /\ (Worksheet.RelMarker (JStr "drawing")
          ∈ Worksheet.relationships (ws p) ->
        exists doc c,
          relsXML (ws p) = Resolved (Some doc)
          /\ c ∈ children (root doc)
          /\ attribute "Id" c = JStr id
          /\ attribute "Target" c
             = JStr (("../drawings/drawing"
                        +:+ ToString (Worksheet.sheetId (ws p)))
                       +:+ ".xml")
          /\ attribute "Type" c
             = JStr "http://schemas.openxmlformats.org/officeDocument/2006/relationships/drawing")
    /\ (Worksheet.RelMarker (JStr "drawing")
          ∉ Worksheet.relationships (ws p) ->
        id = "rId0"
        /\ forall doc c,
             relsXML (ws p) = Resolved (Some doc) ->
             c ∈ children (root doc) -> attribute "Id" c <> JStr "rId0").
Proof.
  intros Hempty Hrun. unfold _addDrawing in Hrun. rewrite Hempty in Hrun.
  cbv zeta in Hrun. cbn [negb] in Hrun. injection Hrun as <-.
  cbn [xml with_xml].
  eexists. split.
  { unfold Xml.up, Xml.att, Xml.ele. rewrite <- !app_assoc. reflexivity. }
  destruct (relationships_indexOf_spec (Worksheet.relationships (ws p))
              (JStr "drawing") 0) as [(k & Hk & Hl)|[Hk Hl]].
  - split; [|intros Hnin; exfalso; apply Hnin;
              apply (list_elem_of_lookup_2 _ k), Hl].
    intros _.
    assert (Hne : Worksheet.relationships (ws p) <> [])
      by (intros Hnil; rewrite Hnil in Hl; discriminate).
    destruct (relsXML_document (ws p) Hne) as (doc & Hdoc & _ & Hin & _).
    exists doc.
    destruct (relationship_node (Worksheet.sheetId (ws p)) k
                (Worksheet.RelMarker (JStr "drawing"))) as [c|] eqn:Hc;
      [|discriminate].
    exists c. split; [exact Hdoc|]. split; [apply Hin; eauto|].
    rewrite Hk. cbn in Hc. injection Hc as <-.
    split; [|split; reflexivity].
    replace (0 + Z.of_nat k + 1) with (Z.of_nat k + 1) by lia.
    reflexivity.
  - split; [intros Hin; contradiction|]. intros _.
    rewrite Hk. split; [reflexivity|].
    intros doc c Hdoc Hin Hid.
    assert (Hne : Worksheet.relationships (ws p) <> []).
    { intros Hnil. unfold relsXML in Hdoc. rewrite Hnil in Hdoc.
      discriminate. }
    destruct (relsXML_document (ws p) Hne) as (doc' & Hdoc' & _ & Hin' & _).
    rewrite Hdoc in Hdoc'. injection Hdoc' as <-.
    apply Hin' in Hin as (i & r & _ & Hc).
    rewrite (relationship_node_Id _ _ _ _ Hc) in Hid.
    assert (Hid' : rId i = "rId0"%string) by congruence.
    unfold rId in Hid'. cbn [ToString String.append] in Hid'.
    injection Hid' as Hid'.
    change (pretty (Z.of_nat i + 1) = pretty 0) in Hid'.
    apply (inj pretty) in Hid'. lia.
Qed.

End Drawing.

(** A link and a drawing: the drawing is the second relationship. *)
Lemma relsXML_relationships_witness :
  Worksheet.relationships MoreExamples.drawing_sheet <> []
  /\ exists doc : document,
       relsXML MoreExamples.drawing_sheet = Resolved (Some doc)
       /\ NoDup (map (attribute "Id") (children (root doc))).
Proof.
  assert (Hne : Worksheet.relationships MoreExamples.drawing_sheet <> [])
    by discriminate.
  split; [exact Hne|].
  destruct (proj2 (relsXML_relationships
                     (H := Reference.collaborators)
                     MoreExamples.drawing_sheet) Hne)
    as (doc & Hdoc & _ & _ & _ & Hnd).
  exists doc. split; [exact Hdoc|exact Hnd].
Defined.

Lemma drawing_id_in_rels_witness :
  Worksheet.drawingCollection_isEmpty MoreExamples.drawing_sheet = false
  /\ exists p' id,
       Builder._addDrawing (H1 := Reference.styles)
         (Examples.promise MoreExamples.drawing_sheet) = Ok p'
       /\ Builder.xml p'
          = [Xml.Ele "drawing"; Xml.Att "r:id" (JStr id); Xml.Up].
Proof.
  split; [reflexivity|]. eexists.
  destruct (drawing_id_in_rels (H0 := Reference.styles)
              (Examples.promise MoreExamples.drawing_sheet) _
              eq_refl eq_refl) as (id & Hx & _).
  exists id. split; [reflexivity|exact Hx].
Defined.

End RelsProperties.

(** ** The elements each stage leaves open *)

Module NestingFacts.

Import Builder XmlCalls XmlFacts Nesting.

(** *** Calls that keep the level *)




Lemma kept_prefix (x y : Xml.builder) : kept x y -> x `prefix_of` y.
Proof. intros (calls & -> & _). apply prefix_app_r. reflexivity. Qed.










Section Stages.
Context `{Utils} `{Collaborators} `{StyleClass}.






(** Takes a run that returned apart, as far as the conditions and the
    calls that may throw go. *)
Ltac run_step Hrun :=
  lazymatch type of Hrun with
  | Throw _ = Ok _ => discriminate Hrun
  | context [if ?c then _ else _] => destruct c
  | bind ?m _ = _ =>
      let E := fresh "E" in
      destruct m eqn:E; cbn [bind] in Hrun; [|discriminate Hrun]
  end.

Ltac run_tac Hrun := cbv zeta in Hrun; repeat run_step Hrun.











(** *** Sheet data *)





(** *** The stages after the sheet data *)













(** *** Each stage keeps the level it finds *)
































(** *** The rules *)






End Stages.
End NestingFacts.

(** ** What a worksheet document leaves open *)

Module NestingProperties.

Import Builder XmlCalls XmlFacts Nesting NestingFacts.
Import DataValidationShape.


Section Pipeline.
Context `{Utils} `{Collaborators} `{StyleClass}.



End Pipeline.


End NestingProperties.

(** ** Serializing a worksheet a second time *)

Module RerunFacts.

Import Builder Rerun.

(** *** Sorting what is sorted *)

Section Sort.
Variable compare : string -> string -> Z.
Hypothesis compare_total :
  forall a b : string, compare a b <= 0 \/ compare b a <= 0.

Lemma sort_insert_Sorted (x : string) (l : list string) :
  Sorted (fun a b => compare a b <= 0) l ->
  Sorted (fun a b => compare a b <= 0) (sort_insert compare x l).
Proof.
  induction l as [|y l IH]; intros Hl; cbn.
  - repeat constructor.
  - destruct (Z.leb_spec (compare x y) 0) as [Hle|Hgt].
    + constructor; [exact Hl|]. constructor. exact Hle.
    + apply Sorted_inv in Hl as [Hl Hhd].
      constructor; [apply IH, Hl|].
      destruct l as [|z l]; cbn.
      * constructor. destruct (compare_total y x); [assumption|lia].
      * destruct (compare x z <=? 0).
        -- constructor. destruct (compare_total y x); [assumption|lia].
        -- constructor. inversion Hhd; assumption.
Qed.

Lemma sort_Sorted (l : list string) :
  Sorted (fun a b => compare a b <= 0) (sort compare l).
Proof.
  unfold sort. induction l as [|x l IH]; cbn; [constructor|].
  apply sort_insert_Sorted, IH.
Qed.

Lemma sort_fixed (l : list string) :
  Sorted (fun a b => compare a b <= 0) l -> sort compare l = l.
Proof.
  unfold sort. induction l as [|x l IH]; intros Hl; cbn; [reflexivity|].
  apply Sorted_inv in Hl as [Hl Hhd]. rewrite (IH Hl).
  destruct Hhd as [|y l Hxy]; cbn; [reflexivity|].
  destruct (Z.leb_spec (compare x y) 0); [reflexivity|lia].
Qed.

Lemma sort_idem (l : list string) :
  sort compare (sort compare l) = sort compare l.
Proof. apply sort_fixed, sort_Sorted. Qed.

End Sort.

Section Stages.
Context `{Utils} `{Collaborators} `{StyleClass}.
Hypothesis sortCellRefs_total :
  forall a b : string, sortCellRefs a b <= 0 \/ sortCellRefs b a <= 0.

(** *** Sheet data *)

Lemma sorted_row_idem (r : Row.t) :
  SheetData.sorted_row (SheetData.sorted_row r) = SheetData.sorted_row r.
Proof.
  unfold SheetData.sorted_row. destruct r; cbn -[sort].
  rewrite (sort_idem _ sortCellRefs_total). reflexivity.
Qed.

Lemma processRow_again (key : Z) (w1 w2 w1' : Worksheet.t)
    (ele ele' : Xml.builder) :
  Worksheet.rows w2 = SheetData.sorted_row <$> Worksheet.rows w1 ->
  Worksheet.cells w2 = Worksheet.cells w1 ->
  Worksheet.sheetFormat (Worksheet.opts w2)
  = Worksheet.sheetFormat (Worksheet.opts w1) ->
  processRow key (w1, ele) = Ok (w1', ele') ->
  exists w2',
    processRow key (w2, ele) = Ok (w2', ele')
    /\ Worksheet.rows w2' = SheetData.sorted_row <$> Worksheet.rows w1'
    /\ Worksheet.cells w2' = Worksheet.cells w1'
    /\ Worksheet.sheetFormat (Worksheet.opts w2')
       = Worksheet.sheetFormat (Worksheet.opts w1').
Proof.
  intros Hrows Hcells Hfmt. unfold processRow.
  rewrite Hrows, lookup_fmap.
  destruct (Worksheet.rows w1 !! key) as [r|] eqn:Hr;
    cbn [fmap option_fmap option_map]; [|discriminate].
  cbv zeta.
  change (Row.set_cellRefs
            (sort sortCellRefs (Row.cellRefs (SheetData.sorted_row r)))
            (SheetData.sorted_row r))
    with (SheetData.sorted_row (SheetData.sorted_row r)).
  change (Row.set_cellRefs (sort sortCellRefs (Row.cellRefs r)) r)
    with (SheetData.sorted_row r).
  rewrite sorted_row_idem.
  cbn [Worksheet.cells Worksheet.opts Worksheet.set_rows].
  rewrite Hcells, Hfmt.
  destruct (addCells _ _ _) as [rEle|]; cbn [bind]; [|discriminate].
  intros [= <- <-]. eexists. split; [reflexivity|].
  cbn [Worksheet.rows Worksheet.cells Worksheet.opts Worksheet.set_rows].
  split; [|split; assumption].
  rewrite fmap_insert, sorted_row_idem. reflexivity.
Qed.

Lemma processRows_for_again (l : list Z) (w1 w2 w1' : Worksheet.t)
    (ele ele' : Xml.builder) :
  Worksheet.rows w2 = SheetData.sorted_row <$> Worksheet.rows w1 ->
  Worksheet.cells w2 = Worksheet.cells w1 ->
  Worksheet.sheetFormat (Worksheet.opts w2)
  = Worksheet.sheetFormat (Worksheet.opts w1) ->
  processRows_for l (w1, ele) = Ok (w1', ele') ->
  exists w2', processRows_for l (w2, ele) = Ok (w2', ele').
Proof.
  revert w1 w2 ele.
  induction l as [|k l IH]; intros w1 w2 ele Hrows Hcells Hfmt;
    cbn [processRows_for].
  - intros [= <- <-]. eexists. reflexivity.
  - destruct (processRow k (w1, ele)) as [[w1k elek]|] eqn:Hk;
      cbn [bind]; [|discriminate].
    intros Hrest.
    destruct (processRow_again _ _ _ _ _ _ Hrows Hcells Hfmt Hk)
      as (w2k & -> & Hrows' & Hcells' & Hfmt').
    cbn [bind]. apply (IH _ _ _ Hrows' Hcells' Hfmt' Hrest).
Qed.

(** The stage on a worksheet whose rows it has sorted before writes the
    same calls and leaves the worksheet as it is. *)
Lemma addSheetData_again (p p1 : promiseObj) (w2 : Worksheet.t)
    (b2 : Workbook.t) :
  Worksheet.rows w2 = SheetData.sorted_row <$> Worksheet.rows (ws p) ->
  Worksheet.cells w2 = Worksheet.cells (ws p) ->
  Worksheet.sheetFormat (Worksheet.opts w2)
  = Worksheet.sheetFormat (Worksheet.opts (ws p)) ->
  _addSheetData p = Ok p1 ->
  _addSheetData {| ws := w2; wb := b2; xml := xml p |}
  = Ok {| ws := w2; wb := b2; xml := xml p1 |}.
Proof.
  intros Hrows Hcells Hfmt. unfold _addSheetData. cbv zeta.
  cbn [ws wb xml].
  rewrite !SheetDataFacts.processNextRows_linear by lia.
  assert (Hkeys : Worksheet.rows_keys w2 = Worksheet.rows_keys (ws p)).
  { unfold Worksheet.rows_keys. rewrite Hrows, dom_fmap_L. reflexivity. }
  rewrite Hkeys.
  destruct (processRows_for _ (ws p, _)) as [[w1' ele1]|] eqn:Hfor;
    cbn [bind]; [|discriminate].
  intros [= <-].
  destruct (processRows_for_again _ _ _ _ _ _ Hrows Hcells Hfmt Hfor)
    as (w2' & Hfor2).
  rewrite Hfor2. cbn [bind fst snd xml].
  apply SheetDataFacts.processRows_for_frame in Hfor2.
  rewrite <- Hkeys, SheetDataFacts.foldl_alter_all in Hfor2.
  assert (Hsame : SheetData.sorted_row <$> Worksheet.rows w2
                  = Worksheet.rows w2).
  { rewrite Hrows, <- map_fmap_compose. apply map_fmap_ext.
    intros k r _. apply sorted_row_idem. }
  rewrite Hsame, SheetDataFacts.set_rows_id in Hfor2. subst w2'.
  reflexivity.
Qed.

(** *** Sheet protection *)

Lemma set_get_id (k : string) (o : object) :
  k ∈ keys o -> set k (get k o) o = o.
Proof.
  unfold keys. induction o as [|[k0 v0] o IH]; cbn; [inversion 1|].
  intros Hin. destruct (String.eqb_spec k0 k) as [->|Hne]; [reflexivity|].
  apply elem_of_cons in Hin as [->|Hin]; [contradiction|].
  rewrite (IH Hin). reflexivity.
Qed.

Lemma default_true_fixed (k : string) (o : object) :
  k ∈ keys o -> non_null (get k o) = true -> default_true k o = o.
Proof.
  intros Hin Hnn. unfold default_true. rewrite Hnn. apply set_get_id, Hin.
Qed.

(** Once the defaults are written, writing them again changes
    nothing. *)
Lemma protection_defaults_fixed (o : object) :
  any_non_null o = true ->
  let o' := PipelineSpec.protection_defaults o in
  any_non_null o' = true
  /\ default_true "scenarios"
       (default_true "objects" (default_true "sheet" o')) = o'.
Proof.
  intros Hany o'.
  assert (Hdef : forall k, k ∈ ["sheet"; "objects"; "scenarios"] ->
                           k ∈ keys o' /\ non_null (get k o') = true).
  { intros k Hk.
    destruct (StageProperties.get_protection_defaults o k Hany Hk)
      as [Hget Hin].
    split; [exact Hin|]. fold o' in Hget. rewrite Hget.
    destruct (non_null (get k o)) eqn:Hnn; [exact Hnn|reflexivity]. }
  split.
  - unfold any_non_null. apply existsb_exists. exists "sheet"%string.
    destruct (Hdef "sheet"%string ltac:(repeat constructor)) as [Hin Hnn].
    split; [apply list_elem_of_In, Hin|exact Hnn].
  - destruct (Hdef "sheet"%string ltac:(repeat constructor)) as [Hin1 Hnn1].
    destruct (Hdef "objects"%string ltac:(repeat constructor)) as [Hin2 Hnn2].
    destruct (Hdef "scenarios"%string ltac:(repeat constructor)) as [Hin3 Hnn3].
    rewrite (default_true_fixed _ _ Hin1 Hnn1),
      (default_true_fixed _ _ Hin2 Hnn2).
    apply (default_true_fixed _ _ Hin3 Hnn3).
Qed.

Lemma addSheetProtection_again (p p1 : promiseObj) (w2 : Worksheet.t)
    (b2 : Workbook.t) :
  Worksheet.sheetProtection (Worksheet.opts w2)
  = Worksheet.sheetProtection (Worksheet.opts (ws p1)) ->
  _addSheetProtection p = Ok p1 ->
  _addSheetProtection {| ws := w2; wb := b2; xml := xml p |}
  = Ok {| ws := w2; wb := b2; xml := xml p1 |}.
Proof.
  intros Hsp Hrun.
  pose proof (PipelineFacts.addSheetProtection_frame _ _ Hrun) as [Hws _].
  rewrite Hws in Hsp.
  cbn [Worksheet.sheetProtection Worksheet.opts
       Worksheet.set_sheetProtection Worksheet.set_opts] in Hsp.
  unfold _addSheetProtection in *. cbv zeta in *. cbn [ws wb xml].
  set (o := Worksheet.sheetProtection (Worksheet.opts (ws p))) in *.
  unfold PipelineSpec.protection_defaults in Hsp.
  destruct (any_non_null o) eqn:Hany.
  - destruct (forEach_protection _ _ _) as [x1|] eqn:Hks;
      cbn [bind] in Hrun; [|discriminate].
    injection Hrun as <-. cbn [xml].
    destruct (protection_defaults_fixed o Hany) as [Hany' Hfix].
    unfold PipelineSpec.protection_defaults in Hany', Hfix.
    rewrite Hany in Hany', Hfix. rewrite <- Hsp in Hany', Hfix, Hks.
    rewrite Hany', Hfix, Hks. cbn [bind].
    rewrite PipelineFacts.set_sheetProtection_id. reflexivity.
  - injection Hrun as <-. rewrite Hsp, Hany. reflexivity.
Qed.

(** *** Auto filter *)

Lemma addAutoFilter_again (p p1 : promiseObj) (b2 : Workbook.t) :
  _addAutoFilter p = Ok p1 ->
  exists b3 : Workbook.t,
    _addAutoFilter {| ws := ws p1; wb := b2; xml := xml p |}
    = Ok {| ws := ws p1; wb := b3; xml := xml p1 |}.
Proof.
  intros Hrun.
  destruct (Worksheet.startRow
              (Worksheet.autoFilter (Worksheet.opts (ws p))))
    as [| | |start|] eqn:Hstart;
    try (unfold _addAutoFilter in Hrun |- *; rewrite Hstart in Hrun;
         injection Hrun as <-; cbn [ws wb xml]; rewrite Hstart;
         exists b2; reflexivity).
  rewrite (AutoFilterFacts.addAutoFilter_run p start Hstart) in Hrun.
  set (o := Worksheet.autoFilter (Worksheet.opts (ws p))) in *.
  set (er := if is_number (Worksheet.endRow o) then Worksheet.endRow o
             else JNum (firstEmptyRow (Worksheet.rows (ws p)) start - 1))
    in *.
  assert (Her : is_number er = true).
  { subst er. destruct (is_number (Worksheet.endRow o)) eqn:E;
      [exact E|reflexivity]. }
  destruct (is_number (Worksheet.startCol o)
            && is_number (Worksheet.endCol o)) eqn:Hnum.
  - injection Hrun as <-. cbn [ws wb xml].
    rewrite (AutoFilterFacts.addAutoFilter_run _ start) by reflexivity.
    cbn [ws wb xml Worksheet.opts Worksheet.set_autoFilter
         Worksheet.set_opts Worksheet.autoFilter Worksheet.rows
         AutoFilterSpec.resolved Worksheet.startCol Worksheet.endCol
         Worksheet.endRow Worksheet.name Worksheet.localSheetId].
    fold o. rewrite Her, Hnum. eexists. reflexivity.
  - destruct (Worksheet.rows (ws p) !! start) as [row|] eqn:Hrow;
      [|discriminate].
    injection Hrun as <-. cbn [ws wb xml].
    rewrite (AutoFilterFacts.addAutoFilter_run _ start) by reflexivity.
    cbn [ws wb xml Worksheet.opts Worksheet.set_autoFilter
         Worksheet.set_opts Worksheet.autoFilter Worksheet.rows
         AutoFilterSpec.resolved Worksheet.startCol Worksheet.endCol
         Worksheet.endRow Worksheet.name Worksheet.localSheetId].
    fold o. rewrite Her, Hrow.
    destruct (is_number (firstColumn row) && is_number (lastColumn row));
      eexists; reflexivity.
Qed.

(** *** The stages that only read the worksheet *)

Ltac run_step Hrun :=
  lazymatch type of Hrun with
  | Throw _ = Ok _ => discriminate Hrun
  | context [if ?c then _ else _] => destruct c
  | context [match ?x with Some _ => _ | None => _ end] => destruct x
  | bind ?m _ = _ =>
      let E := fresh "E" in
      destruct m eqn:E; cbn [bind] in Hrun |- *; [|discriminate Hrun]
  end.

Ltac unaffected_tac :=
  let Hrun := fresh "Hrun" in
  let Href := fresh "Href" in
  intros p p1 m a o b2 Href Hrun; cbv zeta in Hrun |- *;
  cbn [ws wb xml with_xml Worksheet.opts Worksheet.name
       Worksheet.sheetId Worksheet.localSheetId Worksheet.lastUsedRow
       Worksheet.lastUsedCol Worksheet.columnCount Worksheet.cols
       Worksheet.rows Worksheet.cells Worksheet.mergedCells
       Worksheet.cfRulesCollection Worksheet.hyperlinkCollection
       Worksheet.dataValidationCollection
       Worksheet.drawingCollection_isEmpty Worksheet.relationships
       Worksheet.set_rows Worksheet.set_opts
       Worksheet.set_sheetProtection Worksheet.set_autoFilter
       Worksheet.printOptions Worksheet.outline Worksheet.autoFilter
       Worksheet.pageSetup Worksheet.sheetView Worksheet.pane
       Worksheet.sheetFormat Worksheet.sheetProtection Worksheet.margins
       Worksheet.headerFooter];
  try rewrite Href;
  repeat run_step Hrun; injection Hrun as <-; reflexivity.

Lemma addSheetPr_unaffected : unaffected _addSheetPr.
Proof. unfold unaffected, _addSheetPr. unaffected_tac. Qed.

Lemma addDimension_unaffected : unaffected _addDimension.
Proof. unfold unaffected, _addDimension. unaffected_tac. Qed.

Lemma addSheetViews_unaffected : unaffected _addSheetViews.
Proof. unfold unaffected, _addSheetViews. unaffected_tac. Qed.

Lemma addSheetFormatPr_unaffected : unaffected _addSheetFormatPr.
Proof. unfold unaffected, _addSheetFormatPr. unaffected_tac. Qed.

Lemma addCols_unaffected : unaffected _addCols.
Proof. unfold unaffected, _addCols. unaffected_tac. Qed.

Lemma addMergeCells_unaffected : unaffected _addMergeCells.
Proof. unfold unaffected, _addMergeCells. unaffected_tac. Qed.

Lemma addConditionalFormatting_unaffected :
  unaffected _addConditionalFormatting.
Proof. unfold unaffected, _addConditionalFormatting. unaffected_tac. Qed.

Lemma addDataValidations_unaffected : unaffected _addDataValidations.
Proof. unfold unaffected, _addDataValidations. unaffected_tac. Qed.

Lemma addHyperlinks_unaffected : unaffected _addHyperlinks.
Proof. unfold unaffected, _addHyperlinks. unaffected_tac. Qed.

Lemma addPrintOptions_unaffected : unaffected _addPrintOptions.
Proof. unfold unaffected, _addPrintOptions. unaffected_tac. Qed.

Lemma addPageMargins_unaffected : unaffected _addPageMargins.
Proof. unfold unaffected, _addPageMargins. unaffected_tac. Qed.

Lemma addPageSetup_unaffected : unaffected _addPageSetup.
Proof. unfold unaffected, _addPageSetup. unaffected_tac. Qed.

Lemma addHeaderFooter_unaffected : unaffected _addHeaderFooter.
Proof. unfold unaffected, _addHeaderFooter. unaffected_tac. Qed.

Lemma addDrawing_unaffected : unaffected _addDrawing.
Proof. unfold unaffected, _addDrawing. unaffected_tac. Qed.

Lemma set_written_id (w : Worksheet.t) :
  Worksheet.set_rows (Worksheet.rows w)
    (Worksheet.set_autoFilter (Worksheet.autoFilter (Worksheet.opts w))
       (Worksheet.set_sheetProtection
          (Worksheet.sheetProtection (Worksheet.opts w)) w))
  = w.
Proof. destruct w as [[] ]; reflexivity. Qed.

Lemma unaffected_at (stage : promiseObj -> result promiseObj)
    (p p1 : promiseObj) (w2 : Worksheet.t) (b2 : Workbook.t)
    (m : gmap Z Row.t) (a : Worksheet.AutoFilter) (o : object) :
  unaffected stage ->
  w2 = Worksheet.set_rows m
         (Worksheet.set_autoFilter a
            (Worksheet.set_sheetProtection o (ws p))) ->
  Worksheet.ref a
  = Worksheet.ref (Worksheet.autoFilter (Worksheet.opts (ws p))) ->
  stage p = Ok p1 ->
  stage {| ws := w2; wb := b2; xml := xml p |}
  = Ok {| ws := w2; wb := b2; xml := xml p1 |}.
Proof. intros Hs -> Href Hrun. apply (Hs p p1 m a o b2 Href Hrun). Qed.

Lemma unaffected_same (stage : promiseObj -> result promiseObj)
    (p p1 : promiseObj) (b2 : Workbook.t) :
  unaffected stage ->
  stage p = Ok p1 ->
  stage {| ws := ws p; wb := b2; xml := xml p |}
  = Ok {| ws := ws p; wb := b2; xml := xml p1 |}.
Proof.
  intros Hs Hrun.
  apply (unaffected_at stage p p1 (ws p) b2 _ _ _ Hs
           (eq_sym (set_written_id (ws p))) eq_refl Hrun).
Qed.

End Stages.
End RerunFacts.

(** ** What a second serialization gives *)

Module RerunProperties.

Import Builder Rerun RerunFacts.

Section Pipeline.
Context `{Utils} `{Collaborators} `{StyleClass}.

(** X21.  [sheetXML] called again on the worksheet and the workbook a
    first call left returns as well, makes the same calls, so gives the
    same document, and leaves the worksheet as it found it, provided
    the comparator of the cell references is an order, as
    [Array.prototype.sort] needs it: total (of two references one is
    not after the other) and transitive. *)
Theorem sheetXML_again (w : Worksheet.t) (b : Workbook.t)
    (p : promiseObj) :
  (forall r1 r2 : string,
     sortCellRefs r1 r2 <= 0 \/ sortCellRefs r2 r1 <= 0) ->
  (forall r1 r2 r3 : string,
     sortCellRefs r1 r2 <= 0 -> sortCellRefs r2 r3 <= 0 ->
     sortCellRefs r1 r3 <= 0) ->
  sheetXML w b = Ok p ->
  exists p2 : promiseObj,
    sheetXML (ws p) (wb p) = Ok p2
    /\ xml p2 = xml p
    /\ ws p2 = ws p.
Proof.
  intros Htot _ Hrun.
  pose proof (PipelineFacts.sheetXML_frame w b p Hrun) as Hframe.
  cbv zeta in Hframe.
  assert (Hform : exists a,
            ws p = Worksheet.set_rows
                     (SheetData.sorted_row <$> Worksheet.rows w)
                     (Worksheet.set_autoFilter a
                        (Worksheet.set_sheetProtection
                           (PipelineSpec.protection_defaults
                              (Worksheet.sheetProtection
                                 (Worksheet.opts w))) w))
            /\ Worksheet.ref a
               = Worksheet.ref (Worksheet.autoFilter (Worksheet.opts w))).
  { destruct Hframe as [[Hws _]|(start & sc & ec & er & _ & Hws & _)];
      eexists; (split; [exact Hws|reflexivity]). }
  destruct Hform as (a & Hform & Href). clear Hframe.
  unfold sheetXML in Hrun |- *. cbv zeta in Hrun |- *.
  set (x0 := Xml.att "xmlns:x14ac" _ _) in Hrun |- *.
  set (p0 := {| ws := w; wb := b; xml := x0 |}) in Hrun.
  destruct (_addSheetPr p0) as [p1|] eqn:E1; cbn [bind] in Hrun;
    [|discriminate].
  destruct (_addDimension p1) as [p2|] eqn:E2; cbn [bind] in Hrun;
    [|discriminate].
  destruct (_addSheetViews p2) as [p3|] eqn:E3; cbn [bind] in Hrun;
    [|discriminate].
  destruct (_addSheetFormatPr p3) as [p4|] eqn:E4; cbn [bind] in Hrun;
    [|discriminate].
  destruct (_addCols p4) as [p5|] eqn:E5; cbn [bind] in Hrun;
    [|discriminate].
  destruct (_addSheetData p5) as [p6|] eqn:E6; cbn [bind] in Hrun;
    [|discriminate].
  destruct (_addSheetProtection p6) as [p7|] eqn:E7; cbn [bind] in Hrun;
    [|discriminate].
  destruct (_addAutoFilter p7) as [p8|] eqn:E8; cbn [bind] in Hrun;
    [|discriminate].
  destruct (_addMergeCells p8) as [p9|] eqn:E9; cbn [bind] in Hrun;
    [|discriminate].
  destruct (_addConditionalFormatting p9) as [p10|] eqn:E10;
    cbn [bind] in Hrun; [|discriminate].
  destruct (_addDataValidations p10) as [p11|] eqn:E11;
    cbn [bind] in Hrun; [|discriminate].
  destruct (_addHyperlinks p11) as [p12|] eqn:E12; cbn [bind] in Hrun;
    [|discriminate].
  destruct (_addPrintOptions p12) as [p13|] eqn:E13; cbn [bind] in Hrun;
    [|discriminate].
  destruct (_addPageMargins p13) as [p14|] eqn:E14; cbn [bind] in Hrun;
    [|discriminate].
  destruct (_addPageSetup p14) as [p15|] eqn:E15; cbn [bind] in Hrun;
    [|discriminate].
  destruct (_addHeaderFooter p15) as [p16|] eqn:E16; cbn [bind] in Hrun;
    [|discriminate].
  destruct (_addDrawing p16) as [p17|] eqn:E17; cbn [bind] in Hrun;
    [|discriminate].
  injection Hrun as <-. cbn [ws wb xml with_xml] in Hform |- *.
  (* the worksheet of the first run, stage by stage *)
  pose proof (PipelineFacts.addSheetPr_read_only _ _ E1) as [W1 _].
  pose proof (PipelineFacts.addDimension_read_only _ _ E2) as [W2 _].
  pose proof (PipelineFacts.addSheetViews_read_only _ _ E3) as [W3 _].
  pose proof (PipelineFacts.addSheetFormatPr_read_only _ _ E4) as [W4 _].
  pose proof (PipelineFacts.addCols_read_only _ _ E5) as [W5 _].
  pose proof (SheetDataFacts.addSheetData_frame _ _ E6) as [W6 _].
  pose proof (PipelineFacts.addSheetProtection_frame _ _ E7) as [W7 _].
  pose proof (PipelineFacts.addMergeCells_read_only _ _ E9) as [W9 _].
  pose proof (PipelineFacts.addConditionalFormatting_read_only _ _ E10)
    as [W10 _].
  pose proof (PipelineFacts.addDataValidations_read_only _ _ E11)
    as [W11 _].
  pose proof (PipelineFacts.addHyperlinks_read_only _ _ E12) as [W12 _].
  pose proof (PipelineFacts.addPrintOptions_read_only _ _ E13) as [W13 _].
  pose proof (PipelineFacts.addPageMargins_read_only _ _ E14) as [W14 _].
  pose proof (PipelineFacts.addPageSetup_read_only _ _ E15) as [W15 _].
  pose proof (PipelineFacts.addHeaderFooter_read_only _ _ E16) as [W16 _].
  pose proof (PipelineFacts.addDrawing_read_only _ _ E17) as [W17 _].
  assert (Hw1 : ws p1 = w) by (rewrite W1; reflexivity).
  assert (Hw2 : ws p2 = w) by congruence.
  assert (Hw3 : ws p3 = w) by congruence.
  assert (Hw4 : ws p4 = w) by congruence.
  assert (Hw5 : ws p5 = w) by congruence.
  set (F := ws p17) in *. set (B := wb p17).
  assert (Hw16 : ws p16 = F) by (symmetry; exact W17).
  assert (Hw15 : ws p15 = F) by congruence.
  assert (Hw14 : ws p14 = F) by congruence.
  assert (Hw13 : ws p13 = F) by congruence.
  assert (Hw12 : ws p12 = F) by congruence.
  assert (Hw11 : ws p11 = F) by congruence.
  assert (Hw10 : ws p10 = F) by congruence.
  assert (Hw9 : ws p9 = F) by congruence.
  assert (Hw8 : ws p8 = F) by congruence.
  (* the second run, stage by stage *)
  pose proof (unaffected_at _ p0 p1 F B _ _ _ addSheetPr_unaffected
                Hform Href E1) as S1.
  rewrite <- Hw1 in Hform, Href.
  pose proof (unaffected_at _ p1 p2 F B _ _ _ addDimension_unaffected
                Hform Href E2) as S2.
  rewrite Hw1, <- Hw2 in Hform, Href.
  pose proof (unaffected_at _ p2 p3 F B _ _ _ addSheetViews_unaffected
                Hform Href E3) as S3.
  rewrite Hw2, <- Hw3 in Hform, Href.
  pose proof (unaffected_at _ p3 p4 F B _ _ _ addSheetFormatPr_unaffected
                Hform Href E4) as S4.
  rewrite Hw3, <- Hw4 in Hform, Href.
  pose proof (unaffected_at _ p4 p5 F B _ _ _ addCols_unaffected
                Hform Href E5) as S5.
  rewrite Hw4 in Hform, Href.
  assert (S6 : _addSheetData {| ws := F; wb := B; xml := xml p5 |}
               = Ok {| ws := F; wb := B; xml := xml p6 |}).
  { apply (addSheetData_again Htot p5 p6 F B); [| | |exact E6];
      rewrite Hw5, Hform; reflexivity. }
  assert (S7 : _addSheetProtection {| ws := F; wb := B; xml := xml p6 |}
               = Ok {| ws := F; wb := B; xml := xml p7 |}).
  { apply (addSheetProtection_again p6 p7 F B); [|exact E7].
    rewrite W7, W6, Hw5, Hform. reflexivity. }
  destruct (addAutoFilter_again p7 p8 B E8) as (B3 & S8).
  rewrite Hw8 in S8.
  pose proof (unaffected_same _ p8 p9 B3 addMergeCells_unaffected E9)
    as S9.
  pose proof (unaffected_same _ p9 p10 B3
                addConditionalFormatting_unaffected E10) as S10.
  pose proof (unaffected_same _ p10 p11 B3 addDataValidations_unaffected
                E11) as S11.
  pose proof (unaffected_same _ p11 p12 B3 addHyperlinks_unaffected E12)
    as S12.
  pose proof (unaffected_same _ p12 p13 B3 addPrintOptions_unaffected
                E13) as S13.
  pose proof (unaffected_same _ p13 p14 B3 addPageMargins_unaffected E14)
    as S14.
  pose proof (unaffected_same _ p14 p15 B3 addPageSetup_unaffected E15)
    as S15.
  pose proof (unaffected_same _ p15 p16 B3 addHeaderFooter_unaffected
                E16) as S16.
  pose proof (unaffected_same _ p16 p17 B3 addDrawing_unaffected E17)
    as S17.
  rewrite Hw8 in S9. rewrite Hw9 in S10. rewrite Hw10 in S11.
  rewrite Hw11 in S12. rewrite Hw12 in S13. rewrite Hw13 in S14.
  rewrite Hw14 in S15. rewrite Hw15 in S16. rewrite Hw16 in S17.
  unfold p0 in S1. cbn [xml] in S1.
  rewrite S1. cbn [bind]. rewrite S2. cbn [bind]. rewrite S3. cbn [bind].
  rewrite S4. cbn [bind]. rewrite S5. cbn [bind]. rewrite S6. cbn [bind].
  rewrite S7. cbn [bind]. rewrite S8. cbn [bind]. rewrite S9. cbn [bind].
  rewrite S10. cbn [bind]. rewrite S11. cbn [bind]. rewrite S12.
  cbn [bind]. rewrite S13. cbn [bind]. rewrite S14. cbn [bind].
  rewrite S15. cbn [bind]. rewrite S16. cbn [bind]. rewrite S17.
  cbn [bind]. eexists. split; [reflexivity|].
  cbn [xml ws with_xml]. split; reflexivity.
Qed.

End Pipeline.

(** The comparator of the examples is an order. *)
Lemma reference_sortCellRefs_total (r1 r2 : string) :
  sortCellRefs (Utils := Reference.utils) r1 r2 <= 0
  \/ sortCellRefs (Utils := Reference.utils) r2 r1 <= 0.
Proof.
  cbn. rewrite (String.compare_antisym r1 r2).
  destruct (String.compare r2 r1); cbn; lia.
Qed.

Lemma compare_not_Gt_trans (a b c : string) :
  String.compare a b <> Gt -> String.compare b c <> Gt ->
  String.compare a c <> Gt.
Proof.
  revert b c.
  induction a as [|x a IH]; intros [|y b] [|z c]; cbn; try congruence.
  unfold Ascii.compare.
  destruct (N.compare_spec (N_of_ascii x) (N_of_ascii y)) as [Hxy|Hxy|Hxy];
    destruct (N.compare_spec (N_of_ascii y) (N_of_ascii z))
      as [Hyz|Hyz|Hyz];
    destruct (N.compare_spec (N_of_ascii x) (N_of_ascii z))
      as [Hxz|Hxz|Hxz];
    intros H1 H2;
    first [congruence | exfalso; lia | apply (IH b c); assumption].
Qed.

Lemma reference_sortCellRefs_trans (r1 r2 r3 : string) :
  sortCellRefs (Utils := Reference.utils) r1 r2 <= 0 ->
  sortCellRefs (Utils := Reference.utils) r2 r3 <= 0 ->
  sortCellRefs (Utils := Reference.utils) r1 r3 <= 0.
Proof.
  cbn. intros H12 H23.
  pose proof (compare_not_Gt_trans r1 r2 r3) as Htrans.
  destruct (String.compare r1 r2); [| |lia];
    (destruct (String.compare r2 r3); [| |lia]);
    (destruct (String.compare r1 r3); [lia|lia|]);
    exfalso; apply Htrans; congruence.
Qed.

(** Rows 5, 6 and 7 with [startRow: 5], row 5 written out of order,
    serialized twice. *)
Lemma sheetXML_again_witness :
  exists p p2,
    sheetXML (H := Reference.utils) Examples.filtered_sheet
      Examples.workbook = Ok p
    /\ sheetXML (H := Reference.utils) (ws p) (wb p) = Ok p2
    /\ xml p2 = xml p
    /\ ws p2 = ws p.
Proof.
  assert (Hok : returns
                  (sheetXML (H := Reference.utils)
                     Examples.filtered_sheet Examples.workbook) = true)
    by (vm_compute; reflexivity).
  apply JSFacts.returns_Ok in Hok as [p Hrun].
  destruct (sheetXML_again (H := Reference.utils) _ _ p
              reference_sortCellRefs_total reference_sortCellRefs_trans
              Hrun)
    as (p2 & Hrun2 & Hxml & Hws).
  exists p, p2. split; [exact Hrun|]. split; [exact Hrun2|].
  split; [exact Hxml|exact Hws].
Defined.

End RerunProperties.
